(** * VideoPlayer: playback sequencing and control visibility

    A shallow embedding of [script.js] (class [VideoPlayer]): the
    configuration defaults of the constructor, the DOM properties the
    handlers read and write, every event handler bound by [bindAdEvents],
    [bindMainVideoEvents], [bindControlEvents], [bindSettingsEvents] and
    [bindKeyboardEvents], the timer behind [showControls], and the public
    methods.

    Modelling conventions.
    - A JavaScript number is an extended rational: [NaN], the two
      infinities, or a finite rational.  Rounding of doubles and the sign
      of zero are not modelled.
    - A string built from numbers ([percent + '%'], a template literal) is
      a list of pieces; the decimal rendering of a number stays symbolic.
    - [init] builds every element it later looks up, so each [?.] and
      [if (this.x)] guard on an element passes; an element is a record of
      the properties the program touches.
    - A media element is its attributes: [play()] clears [paused],
      [pause()] sets it.  Its position is kept on its timeline as the
      platform keeps it: assigning a [currentTime] that is not finite
      throws [TypeError] and changes nothing, a finite one is a seek, which
      ends within [0, duration] once the duration is known and is kept as
      the start position until then; the position and the duration an
      engine reports with a notification are placed by the same rule.
    - A handler whose first effect throws does nothing: the exception is
      not caught by the program, and the statements after it do not run.
    - Assigning [percent + '%'] to a [style] property keeps the old value
      when the text is no percentage (["NaN%"], ["Infinity%"]) or, for a
      width, is negative.  The slider is the range input the program
      builds, from 0 to 100: a value put into it by the user is brought
      into that range; rounding to its step is left out.
    - What the engine does next arrives as notifications.
    - Pending timers are a list of handles; a timer may expire at any point
      between two handlers. *)

From Stdlib Require Import String Ascii List QArith Qminmax Qround ZArith Lia Lqa Bool.
From coqutil Require Import Datatypes.RecordSetters.
Import ListNotations.
Import TriangleBracketNotations.
Local Open Scope string_scope.
Local Open Scope list_scope.

(** ** JavaScript numbers *)

Module Js.

Inductive number : Type :=
| NaN
| PosInf
| NegInf
| Fin (q : Q).

Definition num_eq (a b : number) : Prop :=
  match a, b with
  | NaN, NaN | PosInf, PosInf | NegInf, NegInf => True
  | Fin p, Fin q => (p == q)%Q
  | _, _ => False
  end.

Infix "=n=" := num_eq (at level 70, no associativity).

Definition zero : number := Fin 0.
Definition of_Z (z : Z) : number := Fin (inject_Z z).

(** Sign of a finite rational, as a comparison with zero. *)
Definition Qsign (q : Q) : comparison := (q ?= 0)%Q.

Definition neg (a : number) : number :=
  match a with
  | NaN => NaN
  | PosInf => NegInf
  | NegInf => PosInf
  | Fin q => Fin (- q)
  end.

(** [a + b] *)
Definition add (a b : number) : number :=
  match a, b with
  | NaN, _ | _, NaN => NaN
  | PosInf, NegInf | NegInf, PosInf => NaN
  | PosInf, _ | _, PosInf => PosInf
  | NegInf, _ | _, NegInf => NegInf
  | Fin p, Fin q => Fin (p + q)
  end.

(** [a - b] *)
Definition sub (a b : number) : number :=
  match a, b with
  | Fin p, Fin q => Fin (p - q)
  | _, _ => add a (neg b)
  end.

Definition signed_inf (c : comparison) : number :=
  match c with
  | Gt => PosInf
  | Lt => NegInf
  | Eq => NaN
  end.

Definition flip (c : comparison) : comparison := CompOpp c.

Definition sign_of (a : number) : option comparison :=
  match a with
  | NaN => None
  | PosInf => Some Gt
  | NegInf => Some Lt
  | Fin q => Some (Qsign q)
  end.

(** [a * b] *)
Definition mul (a b : number) : number :=
  match a, b with
  | NaN, _ | _, NaN => NaN
  | Fin p, Fin q => Fin (p * q)
  | PosInf, _ => match sign_of b with Some c => signed_inf c | None => NaN end
  | NegInf, _ => match sign_of b with Some c => signed_inf (flip c) | None => NaN end
  | _, PosInf => match sign_of a with Some c => signed_inf c | None => NaN end
  | _, NegInf => match sign_of a with Some c => signed_inf (flip c) | None => NaN end
  end.

(** [a / b]: a finite number over zero is an infinity, zero over zero and
    infinity over infinity are [NaN]. *)
Definition div (a b : number) : number :=
  match a, b with
  | NaN, _ | _, NaN => NaN
  | Fin p, Fin q =>
      match Qsign q with
      | Eq => signed_inf (Qsign p)
      | _ => Fin (p / q)
      end
  | Fin _, _ => zero
  | PosInf, Fin q => match Qsign q with Lt => NegInf | _ => PosInf end
  | NegInf, Fin q => match Qsign q with Lt => PosInf | _ => NegInf end
  | _, _ => NaN
  end.

(** Integer part towards zero. *)
Definition Qtrunc (q : Q) : Z :=
  match Qsign q with
  | Lt => Qceiling q
  | _ => Qfloor q
  end.

(** [a % b]: the remainder takes the sign of the dividend. *)
Definition rem (a b : number) : number :=
  match a, b with
  | Fin p, Fin q =>
      match Qsign q with
      | Eq => NaN
      | _ => Fin (p - q * inject_Z (Qtrunc (p / q)))
      end
  | Fin p, PosInf | Fin p, NegInf => Fin p
  | _, _ => NaN
  end.

(** [Math.floor] *)
Definition floor (a : number) : number :=
  match a with
  | Fin q => of_Z (Qfloor q)
  | _ => a
  end.

(** Ordering; [None] when one side is [NaN]. *)
Definition compare (a b : number) : option comparison :=
  match a, b with
  | NaN, _ | _, NaN => None
  | PosInf, PosInf | NegInf, NegInf => Some Eq
  | PosInf, _ | _, NegInf => Some Gt
  | NegInf, _ | _, PosInf => Some Lt
  | Fin p, Fin q => Some (p ?= q)%Q
  end.

Definition lt (a b : number) : bool :=
  match compare a b with Some Lt => true | _ => false end.
Definition gt (a b : number) : bool :=
  match compare a b with Some Gt => true | _ => false end.
Definition le (a b : number) : bool :=
  match compare a b with Some Lt | Some Eq => true | _ => false end.
Definition ge (a b : number) : bool :=
  match compare a b with Some Gt | Some Eq => true | _ => false end.
(** [a === b] on numbers *)
Definition strict_eq (a b : number) : bool :=
  match compare a b with Some Eq => true | _ => false end.

Definition is_nan (a : number) : bool :=
  match a with NaN => true | _ => false end.

(** [Number.isFinite] *)
Definition is_finite (a : number) : bool :=
  match a with Fin _ => true | _ => false end.

(** [Math.max(a, b)] and [Math.min(a, b)]: [NaN] if either is. *)
Definition max (a b : number) : number :=
  match compare a b with
  | None => NaN
  | Some Lt => b
  | Some _ => a
  end.

Definition min (a b : number) : number :=
  match compare a b with
  | None => NaN
  | Some Gt => b
  | Some _ => a
  end.

(** Truthiness of a number: [0] and [NaN] are falsy. *)
Definition truthy (a : number) : bool :=
  match a with
  | NaN => false
  | Fin q => negb (Qeq_bool q 0)
  | _ => true
  end.

End Js.

Abbreviation number := Js.number.
Abbreviation NaN := Js.NaN.
Abbreviation PosInf := Js.PosInf.
Abbreviation NegInf := Js.NegInf.
Abbreviation Fin := Js.Fin.
Infix "=n=" := Js.num_eq (at level 70, no associativity).

(** ** Strings and class lists *)

(** A string assembled from literals and numbers. *)
Inductive piece : Type :=
| Lit (s : string)
| Num (n : number).

Definition jsstring : Type := list piece.

Definition lit (s : string) : jsstring := [Lit s].
Definition num (n : number) : jsstring := [Num n].

(** [DOMTokenList]: an ordered set of class names. *)
Definition classList_t : Type := list string.

Definition contains (c : string) (l : classList_t) : bool :=
  existsb (String.eqb c) l.

Definition cl_add (c : string) (l : classList_t) : classList_t :=
  if contains c l then l else (l ++ [c]).

Definition cl_remove (c : string) (l : classList_t) : classList_t :=
  filter (fun x => negb (String.eqb c x)) l.

Definition cl_toggle (c : string) (l : classList_t) : classList_t :=
  if contains c l then cl_remove c l else (l ++ [c]).

(** ** Configuration *)

(** The object handed to the constructor: every property may be absent. *)
Module Input.
Record Video : Type := {
  url : option string;
  title : option string;
  description : option string;
  type : option string }.

Record Ad : Type := {
  ad_url : option string;
  skipAfter : option number;
  ad_type : option string }.

Record Section_ : Type := {
  section_title : option string;
  section_description : option string }.

Record t : Type := {
  wrapperId : option string;
  mainVideo : option Video;
  adVideo : option Ad;
  thumbnailUrl : option string;
  skipBackwardSeconds : option number;
  skipForwardSeconds : option number;
  autoHideControlsDelay : option number;
  section : option Section_;
  infoText : option string }.
End Input.

(** [this.config] *)
Module Config.
Record Video : Type := {
  url : string;
  title : string;
  description : string;
  type : string }.

Record Ad : Type := {
  ad_url : string;
  skipAfter : number;
  ad_type : string }.

Record t : Type := {
  wrapperId : string;
  mainVideo : Video;
  adVideo : Ad;
  thumbnailUrl : string;
  skipBackwardSeconds : number;
  skipForwardSeconds : number;
  autoHideControlsDelay : number;
  section : option Input.Section_;
  infoText : string }.
End Config.

Definition nonempty (s : string) : bool :=
  match s with EmptyString => false | _ => true end.

(** [v || d]: the default replaces an absent and a falsy value alike. *)
Definition or_else {A : Type} (is_truthy : A -> bool) (v : option A) (d : A) : A :=
  match v with
  | Some x => if is_truthy x then x else d
  | None => d
  end.

(** [o?.f] *)
Definition opt_get {A B : Type} (o : option A) (f : A -> option B) : option B :=
  match o with
  | Some x => f x
  | None => None
  end.

Definition defaultInfoText : string :=
  "Video akan memutar iklan terlebih dahulu. Klik tombol Skip setelah beberapa detik atau tunggu hingga iklan selesai.".

(** The [this.config = { ... }] literal of the constructor. *)
Definition defaults (config : Input.t) (wrapper : string) : Config.t :=
  {| Config.wrapperId := wrapper;
     Config.mainVideo :=
       {| Config.url := or_else nonempty (opt_get (Input.mainVideo config) Input.url) "";
          Config.title := or_else nonempty (opt_get (Input.mainVideo config) Input.title) "Untitled Video";
          Config.description :=
            or_else nonempty (opt_get (Input.mainVideo config) Input.description) "No description available";
          Config.type := or_else nonempty (opt_get (Input.mainVideo config) Input.type) "video/mp4" |};
     Config.adVideo :=
       {| Config.ad_url := or_else nonempty (opt_get (Input.adVideo config) Input.ad_url) "";
          Config.skipAfter := or_else Js.truthy (opt_get (Input.adVideo config) Input.skipAfter) (Js.of_Z 5);
          Config.ad_type := or_else nonempty (opt_get (Input.adVideo config) Input.ad_type) "video/mp4" |};
     Config.thumbnailUrl :=
       or_else nonempty (Input.thumbnailUrl config)
         (or_else nonempty (opt_get (Input.mainVideo config) Input.url) "");
     Config.skipBackwardSeconds := or_else Js.truthy (Input.skipBackwardSeconds config) (Js.of_Z 10);
     Config.skipForwardSeconds := or_else Js.truthy (Input.skipForwardSeconds config) (Js.of_Z 10);
     Config.autoHideControlsDelay := or_else Js.truthy (Input.autoHideControlsDelay config) (Js.of_Z 3000);
     Config.section := Input.section config;
     Config.infoText := or_else nonempty (Input.infoText config) defaultInfoText |}.

(** ** The document *)

(** Splits a [className] string at spaces. *)
Fixpoint tokens_from (cur : string) (s : string) : list string :=
  match s with
  | EmptyString => if nonempty cur then [cur] else []
  | String c rest =>
      if Ascii.eqb c " "%char
      then (if nonempty cur then cur :: tokens_from "" rest else tokens_from "" rest)
      else tokens_from (cur ++ String c "")%string rest
  end.

Definition className (s : string) : classList_t := tokens_from "" s.

(** An element: the properties some handler reads or writes. *)
Record Element : Type := {
  classList : classList_t;
  style_opacity : string;
  style_width : jsstring;
  style_left : jsstring;
  textContent : jsstring;
  value : number }.

Definition createElement (classes : string) (text : jsstring) : Element :=
  {| classList := className classes;
     style_opacity := "";
     style_width := [];
     style_left := [];
     textContent := text;
     value := Js.zero |}.

(** Whether [p + '%'] is a percentage the style system accepts: the number
    is finite and, where the property takes no negative value, not
    negative. *)
Definition css_percentage (negative_allowed : bool) (p : number) : bool :=
  match p with
  | Fin q => negative_allowed || Qle_bool 0 q
  | _ => false
  end.

(** [el.style.width = p + '%'] and [el.style.left = p + '%']: a
    declaration that does not parse is dropped, and the property keeps the
    value it had. *)
Definition set_style_width (p : number) (e : Element) : Element :=
  if css_percentage false p then e <| style_width := [Num p; Lit "%"] |> else e.

Definition set_style_left (p : number) (e : Element) : Element :=
  if css_percentage true p then e <| style_left := [Num p; Lit "%"] |> else e.

(** The value of an [<input type="range" min="0" max="100">] after [v] has
    been put into it: [v] brought into the range, and the middle of the
    range when [v] is no number. *)
Definition range_value (v : number) : number :=
  if Js.is_finite v
  then if Js.lt v Js.zero then Js.zero
       else if Js.gt v (Js.of_Z 100) then Js.of_Z 100
       else v
  else Js.of_Z 50.

(** A [<video>]: the element, its [<source>] child, whether [load()] has
    been called, and the media attributes of the engine. *)
Record Video : Type := {
  node : Element;
  source_src : string;
  source_type : string;
  loaded : bool;
  paused : bool;
  currentTime : number;
  duration : number;
  volume : number;
  playbackRate : number }.

Definition createVideo (classes : string) : Video :=
  {| node := createElement classes [];
     source_src := "";
     source_type := "video/mp4";
     loaded := false;
     paused := true;
     currentTime := Js.zero;
     duration := NaN;
     volume := Js.of_Z 1;
     playbackRate := Js.of_Z 1 |}.

(** What an assignment to a media attribute can throw. *)
Inductive Exception : Type := TypeError.

(** The position nearest to [x] on the timeline of a media element whose
    duration is [d]: [x] itself while the duration is unknown, and within
    [0, d] once it is known. *)
Definition on_timeline (x d : number) : number :=
  match d with
  | NaN => x
  | _ => Js.max Js.zero (Js.min x d)
  end.

(** [video.currentTime = x]: a value that is not finite throws; a finite
    one is a seek, and a seek ends on the timeline. *)
Definition set_currentTime (x : number) (v : Video) : Exception + Video :=
  if Js.is_finite x
  then inr (v <| currentTime := on_timeline x (duration v) |>)
  else inl TypeError.

(** The engine has reached the position [t]. *)
Definition at_position (t : number) (v : Video) : Video :=
  if Js.is_finite t then v <| currentTime := on_timeline t (duration v) |> else v.

(** The engine has read the metadata: the duration is [d], and the start
    position asked for so far is brought onto the timeline. *)
Definition with_metadata (d : number) (v : Video) : Video :=
  v <| duration := d |> <| currentTime := on_timeline (currentTime v) d |>.

(** A button of the speed or quality submenu with its [data-] attribute. *)
Record MenuOption : Type := {
  option_classList : classList_t;
  data : string }.

Definition hide (e : Element) : Element := e <| classList ::= cl_add "hidden" |>.
Definition show (e : Element) : Element := e <| classList ::= cl_remove "hidden" |>.
Definition toggle_hidden (e : Element) : Element := e <| classList ::= cl_toggle "hidden" |>.
Definition is_hidden (e : Element) : bool := contains "hidden" (classList e).

(** [media.play()] and [media.pause()] *)
Definition media_play (v : Video) : Video := v <| paused := false |>.
Definition media_pause (v : Video) : Video := v <| paused := true |>.

(** Targets of [addEventListener]. *)
Inductive Target : Type :=
| playButton
| skipButtonT
| adVideoT
| mainVideoT
| centerPlayButtonT
| skipBackwardBtnT
| skipForwardBtnT
| progressBarContainer
| volumeBtn
| volumeSliderT
| fullscreenBtn
| videoContainer
| bottomControlsT
| settingsBtn
| speedMenuBtn
| qualityMenuBtn
| speedOption (i : nat)
| qualityOption (i : nat)
| settingsContainerT
| document.

Definition Target_eqb (a b : Target) : bool :=
  match a, b with
  | playButton, playButton | skipButtonT, skipButtonT | adVideoT, adVideoT
  | mainVideoT, mainVideoT | centerPlayButtonT, centerPlayButtonT
  | skipBackwardBtnT, skipBackwardBtnT | skipForwardBtnT, skipForwardBtnT
  | progressBarContainer, progressBarContainer | volumeBtn, volumeBtn
  | volumeSliderT, volumeSliderT | fullscreenBtn, fullscreenBtn
  | videoContainer, videoContainer | bottomControlsT, bottomControlsT
  | settingsBtn, settingsBtn | speedMenuBtn, speedMenuBtn
  | qualityMenuBtn, qualityMenuBtn | settingsContainerT, settingsContainerT
  | document, document => true
  | speedOption i, speedOption j | qualityOption i, qualityOption j => Nat.eqb i j
  | _, _ => false
  end.

(** One [addEventListener(type, ...)] on a target. *)
Definition Listener : Type := (Target * string)%type.

Definition Listener_eqb (a b : Listener) : bool :=
  Target_eqb (fst a) (fst b) && String.eqb (snd a) (snd b).

(** ** The player *)

Record Player : Type := {
  config : Config.t;
  (* state variables of the constructor *)
  adDuration : number;
  hideControlsTimeout : option nat;
  isUserInteracting : bool;
  isSettingsOpen : bool;
  (* getElements *)
  thumbnailVideo : Video;
  adVideo : Video;
  adOverlay : Element;
  skipButton : Element;
  skipCountdown : Element;
  skipTimer : Element;
  adTimer : Element;
  playOverlay : Element;
  adLoadingSpinner : Element;
  mainVideo : Video;
  mainVideoControls : Element;
  videoInfo : Element;
  videoTitle : Element;
  videoDescription : Element;
  centerPlayButton : Element;
  centerPlayIcon : Element;
  centerPauseIcon : Element;
  skipBackwardBtn : Element;
  skipForwardBtn : Element;
  bottomControls : Element;
  progressBar : Element;
  progressHandle : Element;
  currentTimeEl : Element;
  durationEl : Element;
  volumeIcon : Element;
  muteIcon : Element;
  volumeSlider : Element;
  fullscreenIcon : Element;
  exitFullscreenIcon : Element;
  settingsMenu : Element;
  settingsContainer : Element;
  speedSubmenu : Element;
  qualitySubmenu : Element;
  currentSpeed : Element;
  currentQuality : Element;
  speedOptions : list MenuOption;
  qualityOptions : list MenuOption;
  loadingSpinner : Element;
  infoTextEl : Element;
  (* the page: registered listeners, pending timers, fullscreen element *)
  listeners : list Listener;
  timers : list (nat * number);
  nextTimer : nat;
  fullscreenElement : bool }.

Definition option_base : string :=
  "w-full px-6 py-2 hover:bg-white/10 transition-colors text-left text-sm".

(** The buttons built by [speeds.forEach] and [qualities.forEach]. *)
Definition createOption (kind : string) (v : string) (selected : bool) : MenuOption :=
  {| option_classList :=
       className (kind ++ " " ++ option_base ++ (if selected then " bg-white/20" else ""))%string;
     data := v |}.

Definition initialSpeedOptions : list MenuOption :=
  [ createOption "speed-option" "0.5" false;
    createOption "speed-option" "0.75" false;
    createOption "speed-option" "1" true;
    createOption "speed-option" "1.25" false;
    createOption "speed-option" "1.5" false;
    createOption "speed-option" "2" false ].

Definition initialQualityOptions : list MenuOption :=
  [ createOption "quality-option" "auto" true;
    createOption "quality-option" "1080p" false;
    createOption "quality-option" "720p" false;
    createOption "quality-option" "480p" false;
    createOption "quality-option" "360p" false ].

Definition controls_fade : string := " opacity-0 transition-opacity duration-300".
Definition round_button : string :=
  "bg-black/60 hover:bg-black/80 text-white rounded-full p-3 transform hover:scale-110 transition-all shadow-2xl pointer-events-auto opacity-0".
Definition spinner_classes : string :=
  "absolute inset-0 flex items-center justify-center pointer-events-none hidden".

(** [createPlayerStructure] followed by [getElements]: the tree as built,
    before any source is set. *)
Definition createPlayerStructure (cfg : Config.t) : Player :=
  {| config := cfg;
     adDuration := Js.zero;
     hideControlsTimeout := None;
     isUserInteracting := false;
     isSettingsOpen := false;
     thumbnailVideo := createVideo "w-full aspect-video";
     adVideo := createVideo "w-full aspect-video hidden";
     adOverlay :=
       createElement
         "absolute inset-0 bg-gradient-to-t from-black/80 via-transparent to-black/50 pointer-events-none" [];
     skipButton :=
       createElement
         "absolute bottom-8 right-8 bg-white text-black px-6 py-3 rounded-lg font-bold hover:bg-gray-200 transition-all transform hover:scale-105 opacity-0 pointer-events-none"
         (lit "Skip Ad →");
     skipCountdown :=
       createElement "absolute bottom-8 right-8 bg-black/70 text-white px-6 py-3 rounded-lg font-bold" [];
     skipTimer := createElement "" (lit "5");
     adTimer := createElement "" (lit "--");
     playOverlay := createElement "absolute inset-0 flex items-center justify-center bg-black/40" [];
     adLoadingSpinner := createElement spinner_classes [];
     mainVideo := createVideo "w-full aspect-video hidden";
     mainVideoControls := createElement "hidden" [];
     videoInfo :=
       createElement
         ("absolute top-4 left-4 max-w-sm bg-gradient-to-r from-black/80 to-transparent p-3 pr-6 rounded-lg"
            ++ controls_fade)%string [];
     videoTitle := createElement "text-white text-base font-bold mb-1" [];
     videoDescription := createElement "text-gray-300 text-xs leading-relaxed" [];
     centerPlayButton :=
       createElement
         "bg-black/60 hover:bg-black/80 text-white rounded-full p-4 transform hover:scale-110 transition-all shadow-2xl pointer-events-auto opacity-0" [];
     centerPlayIcon := createElement "w-10 h-10" [];
     centerPauseIcon := createElement "w-10 h-10 hidden" [];
     skipBackwardBtn := createElement round_button [];
     skipForwardBtn := createElement round_button [];
     bottomControls :=
       createElement
         ("absolute bottom-0 left-0 right-0 bg-gradient-to-t from-black/90 via-black/70 to-transparent p-4"
            ++ controls_fade)%string [];
     progressBar :=
       (createElement "absolute h-full bg-red-600 rounded-full" []) <| style_width := lit "0%" |>;
     progressHandle :=
       (createElement
          "absolute w-3 h-3 bg-white rounded-full -top-1 -ml-1.5 opacity-0 group-hover:opacity-100 transition-opacity" [])
         <| style_left := lit "0%" |>;
     currentTimeEl := createElement "" (lit "0:00");
     durationEl := createElement "" (lit "0:00");
     volumeIcon := createElement "w-7 h-7" [];
     muteIcon := createElement "w-7 h-7 hidden" [];
     volumeSlider :=
       (createElement "w-20 h-1 bg-gray-600 rounded-lg appearance-none cursor-pointer" [])
         <| value := Js.of_Z 100 |>;
     fullscreenIcon := createElement "w-7 h-7" [];
     exitFullscreenIcon := createElement "w-7 h-7 hidden" [];
     settingsMenu :=
       createElement
         "hidden absolute top-12 right-0 bg-black/95 text-white rounded-lg shadow-2xl overflow-hidden w-56" [];
     settingsContainer := createElement ("absolute top-4 right-4" ++ controls_fade)%string [];
     speedSubmenu := createElement "hidden bg-black/98" [];
     qualitySubmenu := createElement "hidden bg-black/98" [];
     currentSpeed := createElement "text-sm text-gray-300 mr-2" (lit "1x");
     currentQuality := createElement "text-sm text-gray-300 mr-2" (lit "Auto");
     speedOptions := initialSpeedOptions;
     qualityOptions := initialQualityOptions;
     loadingSpinner := createElement spinner_classes [];
     infoTextEl := createElement "" (lit (Config.infoText cfg));
     listeners := [];
     timers := [];
     nextTimer := 1;
     fullscreenElement := false |}.

(** [source.src = ...; source.type = ...; video.load()]; on a fresh media
    element [load()] leaves the attributes as they are. *)
Definition set_source (src type : string) (v : Video) : Video :=
  v <| source_src := src |> <| source_type := type |> <| loaded := true |>.

(** The ad gets its source, and is loaded, only if an ad URL is configured. *)
Definition setVideoSources (s : Player) : Player :=
  let s :=
    s <| thumbnailVideo ::=
           set_source (Config.thumbnailUrl (config s)) (Config.type (Config.mainVideo (config s))) |> in
  let s :=
    if nonempty (Config.ad_url (Config.adVideo (config s)))
    then s <| adVideo ::=
                set_source (Config.ad_url (Config.adVideo (config s)))
                  (Config.ad_type (Config.adVideo (config s))) |>
    else s in
  s <| mainVideo ::=
         set_source (Config.url (Config.mainVideo (config s))) (Config.type (Config.mainVideo (config s))) |>.

Definition setVideoInfo (s : Player) : Player :=
  s <| videoTitle -> textContent := lit (Config.title (Config.mainVideo (config s))) |>
    <| videoDescription -> textContent := lit (Config.description (Config.mainVideo (config s))) |>
    <| infoTextEl -> textContent := lit (Config.infoText (config s)) |>
    <| skipTimer -> textContent := num (Config.skipAfter (Config.adVideo (config s))) |>.

(** ** Timers *)

(** [clearTimeout(handle)]: nothing happens for [null] or a handle that is
    no longer pending. *)
Definition clearTimeout (handle : option nat) (s : Player) : Player :=
  match handle with
  | Some id => s <| timers ::= filter (fun t => negb (Nat.eqb (fst t) id)) |>
  | None => s
  end.

(** [setTimeout(callback, delay)] with the only callback the program ever
    schedules, the one that fades the controls out; returns the handle. *)
Definition setTimeout (delay : number) (s : Player) : nat * Player :=
  (nextTimer s, s <| timers ::= cons (nextTimer s, delay) |> <| nextTimer ::= S |>).

Definition pending (id : nat) (s : Player) : bool :=
  existsb (fun t => Nat.eqb (fst t) id) (timers s).

(** The six assignments of [style.opacity] that the program repeats. *)
Definition set_controls_opacity (o : string) (s : Player) : Player :=
  s <| bottomControls -> style_opacity := o |>
    <| centerPlayButton -> style_opacity := o |>
    <| skipBackwardBtn -> style_opacity := o |>
    <| skipForwardBtn -> style_opacity := o |>
    <| videoInfo -> style_opacity := o |>
    <| settingsContainer -> style_opacity := o |>.

(** ** Ad stage *)

Definition classes_add (cs : list string) (l : classList_t) : classList_t :=
  fold_left (fun acc c => cl_add c acc) cs l.

Definition classes_remove (cs : list string) (l : classList_t) : classList_t :=
  fold_left (fun acc c => cl_remove c acc) cs l.

(** [playButton] click *)
Definition on_playButton_click (s : Player) : Player :=
  s <| thumbnailVideo -> node ::= hide |>
    <| adVideo -> node ::= show |>
    <| adVideo ::= media_play |>
    <| playOverlay ::= hide |>.

(** [adVideo] loadedmetadata *)
Definition on_ad_loadedmetadata (s : Player) : Player :=
  s <| adDuration := Js.floor (duration (adVideo s)) |>.

(** [adVideo] timeupdate *)
Definition on_ad_timeupdate (s : Player) : Player :=
  let currentTime_ := Js.floor (currentTime (adVideo s)) in
  let remainingTime := Js.floor (Js.sub (duration (adVideo s)) (currentTime (adVideo s))) in
  let s := s <| adTimer -> textContent := num remainingTime |> in
  if Js.ge currentTime_ (Config.skipAfter (Config.adVideo (config s)))
  then
    s <| skipCountdown ::= hide |>
      <| skipButton -> classList ::= classes_remove ["opacity-0"; "pointer-events-none"] |>
      <| skipButton -> classList ::= classes_add ["opacity-100"; "pointer-events-auto"] |>
  else
    s <| skipTimer -> textContent :=
           num (Js.sub (Config.skipAfter (Config.adVideo (config s))) currentTime_) |>.

(** [adVideo] play *)
Definition on_ad_play (s : Player) : Player :=
  s <| skipCountdown ::= show |>
    <| skipButton -> classList ::= classes_add ["opacity-0"; "pointer-events-none"] |>
    <| skipButton -> classList ::= classes_remove ["opacity-100"; "pointer-events-auto"] |>.

Definition skipToMainVideo (s : Player) : Player :=
  s <| adVideo ::= media_pause |>
    <| adVideo -> currentTime := Js.zero |>
    <| adVideo -> node ::= hide |>
    <| adOverlay ::= hide |>
    <| mainVideo -> node ::= show |>
    <| mainVideoControls ::= show |>
    <| mainVideo ::= media_play |>.

(** ** Main stage *)

Definition ten : number := Js.of_Z 10.
Definition sixty : number := Js.of_Z 60.
Definition hundred : number := Js.of_Z 100.

Definition formatTime (seconds : number) : jsstring :=
  let mins := Js.floor (Js.div seconds sixty) in
  let secs := Js.floor (Js.rem seconds sixty) in
  [Num mins; Lit ":"; Lit (if Js.lt secs ten then "0" else ""); Num secs].

Definition togglePlayPause (s : Player) : Player :=
  if paused (mainVideo s)
  then s <| mainVideo ::= media_play |>
  else s <| mainVideo ::= media_pause |>.

Definition updatePlayPauseIcons (isPlaying : bool) (s : Player) : Player :=
  if isPlaying
  then s <| centerPlayIcon ::= hide |> <| centerPauseIcon ::= show |>
  else s <| centerPlayIcon ::= show |> <| centerPauseIcon ::= hide |>.

(** The callback handed to [setTimeout] in [showControls]. *)
Definition hideControlsCallback (s : Player) : Player := set_controls_opacity "0" s.

Definition showControls (s : Player) : Player :=
  let s := set_controls_opacity "1" s in
  let s := clearTimeout (hideControlsTimeout s) s in
  if negb (paused (mainVideo s)) && negb (isUserInteracting s) && negb (isSettingsOpen s)
  then
    let '(id, s) := setTimeout (Config.autoHideControlsDelay (config s)) s in
    s <| hideControlsTimeout := Some id |>
  else s.

(** [mainVideo] play *)
Definition on_main_play (s : Player) : Player :=
  showControls (updatePlayPauseIcons true s).

(** [mainVideo] pause *)
Definition on_main_pause (s : Player) : Player :=
  let s := updatePlayPauseIcons false s in
  let s := clearTimeout (hideControlsTimeout s) s in
  set_controls_opacity "1" s.

(** [mainVideo] timeupdate *)
Definition on_main_timeupdate (s : Player) : Player :=
  let percent := Js.mul (Js.div (currentTime (mainVideo s)) (duration (mainVideo s))) hundred in
  s <| progressBar ::= set_style_width percent |>
    <| progressHandle ::= set_style_left percent |>
    <| currentTimeEl -> textContent := formatTime (currentTime (mainVideo s)) |>.

(** [mainVideo] loadedmetadata *)
Definition on_main_loadedmetadata (s : Player) : Player :=
  s <| durationEl -> textContent := formatTime (duration (mainVideo s)) |>.

(** ** Controls *)

(** [skipBackwardBtn] click.  When the assignment throws, the handler ends
    there and [showControls] is not reached. *)
Definition on_skipBackward_click (s : Player) : Player :=
  match
    set_currentTime
      (Js.max Js.zero (Js.sub (currentTime (mainVideo s)) (Config.skipBackwardSeconds (config s))))
      (mainVideo s)
  with
  | inr v => showControls (s <| mainVideo := v |>)
  | inl _ => s
  end.

(** [skipForwardBtn] click, likewise. *)
Definition on_skipForward_click (s : Player) : Player :=
  match
    set_currentTime
      (Js.min (duration (mainVideo s))
         (Js.add (currentTime (mainVideo s)) (Config.skipForwardSeconds (config s))))
      (mainVideo s)
  with
  | inr v => showControls (s <| mainVideo := v |>)
  | inl _ => s
  end.

(** [progressBarContainer] click at [clientX], the track spanning
    [rect_width] from [rect_left]. *)
Definition on_progressBar_click (clientX rect_left rect_width : number) (s : Player) : Player :=
  let percent := Js.div (Js.sub clientX rect_left) rect_width in
  match set_currentTime (Js.mul percent (duration (mainVideo s))) (mainVideo s) with
  | inr v => s <| mainVideo := v |>
  | inl _ => s
  end.

(** [volumeBtn] click *)
Definition on_volumeBtn_click (s : Player) : Player :=
  if Js.gt (volume (mainVideo s)) Js.zero
  then
    s <| mainVideo -> volume := Js.zero |>
      <| volumeSlider -> value := Js.zero |>
      <| volumeIcon ::= hide |>
      <| muteIcon ::= show |>
  else
    s <| mainVideo -> volume := Js.of_Z 1 |>
      <| volumeSlider -> value := hundred |>
      <| volumeIcon ::= show |>
      <| muteIcon ::= hide |>.

(** [volumeSlider] input, the slider having been moved to [v]. *)
Definition on_volumeSlider_input (v : number) (s : Player) : Player :=
  let s := s <| volumeSlider -> value := range_value v |> in
  let volume_ := Js.div (value (volumeSlider s)) hundred in
  let s := s <| mainVideo -> volume := volume_ |> in
  if Js.strict_eq volume_ Js.zero
  then s <| volumeIcon ::= hide |> <| muteIcon ::= show |>
  else s <| volumeIcon ::= show |> <| muteIcon ::= hide |>.

(** [fullscreenBtn] click: the request goes to the platform, which answers
    with a fullscreenchange. *)
Definition on_fullscreenBtn_click (s : Player) : Player := s.

(** [document] fullscreenchange, [active] telling whether
    [document.fullscreenElement] is set by now. *)
Definition on_fullscreenchange (active : bool) (s : Player) : Player :=
  let s := s <| fullscreenElement := active |> in
  if fullscreenElement s
  then s <| fullscreenIcon ::= hide |> <| exitFullscreenIcon ::= show |>
  else s <| fullscreenIcon ::= show |> <| exitFullscreenIcon ::= hide |>.

(** [videoContainer] mousemove and mouseenter *)
Definition on_container_mousemove (s : Player) : Player :=
  if negb (is_hidden (mainVideoControls s)) then showControls s else s.

(** [videoContainer] mouseleave *)
Definition on_container_mouseleave (s : Player) : Player :=
  if negb (paused (mainVideo s)) && negb (is_hidden (mainVideoControls s))
     && negb (isSettingsOpen s)
  then set_controls_opacity "0" s
  else s.

(** [bottomControls] mouseenter *)
Definition on_bottomControls_mouseenter (s : Player) : Player :=
  let s := s <| isUserInteracting := true |> in
  clearTimeout (hideControlsTimeout s) s.

(** [bottomControls] mouseleave *)
Definition on_bottomControls_mouseleave (s : Player) : Player :=
  showControls (s <| isUserInteracting := false |>).

(** ** Settings menu *)

(** [settingsBtn] click *)
Definition on_settingsBtn_click (s : Player) : Player :=
  let s := s <| isSettingsOpen ::= negb |> <| settingsMenu ::= toggle_hidden |> in
  if isSettingsOpen s
  then s <| speedSubmenu ::= hide |> <| qualitySubmenu ::= hide |>
  else s.

(** [speedMenuBtn] click *)
Definition on_speedMenuBtn_click (s : Player) : Player :=
  s <| speedSubmenu ::= toggle_hidden |> <| qualitySubmenu ::= hide |>.

(** [qualityMenuBtn] click *)
Definition on_qualityMenuBtn_click (s : Player) : Player :=
  s <| qualitySubmenu ::= toggle_hidden |> <| speedSubmenu ::= hide |>.

Definition digit_of (c : ascii) : option Z :=
  let n := Z.of_nat (nat_of_ascii c) in
  if ((48 <=? n) && (n <=? 57))%Z then Some (n - 48)%Z else None.

(** Reads digits after the decimal point: value and scale so far. *)
Fixpoint read_fraction (acc scale : Z) (s : string) : Z * Z :=
  match s with
  | EmptyString => (acc, scale)
  | String c rest =>
      match digit_of c with
      | Some d => read_fraction (acc * 10 + d) (scale * 10) rest
      | None => (acc, scale)
      end
  end.

Fixpoint read_decimal (seen : bool) (acc : Z) (s : string) : option (Z * Z) :=
  match s with
  | EmptyString => if seen then Some (acc, 1%Z) else None
  | String c rest =>
      match digit_of c with
      | Some d => read_decimal true (acc * 10 + d) rest
      | None =>
          if seen
          then Some (if Ascii.eqb c "."%char then read_fraction acc 1 rest else (acc, 1%Z))
          else None
      end
  end.

(** [parseFloat] on an unsigned decimal prefix, which is all the
    [data-speed] attributes hold; [NaN] when the string starts otherwise. *)
Definition parseFloat (s : string) : number :=
  match read_decimal false 0 s with
  | Some (n, scale) => Fin (n # Z.to_pos scale)
  | None => NaN
  end.

Definition select_option (i : nat) (l : list MenuOption) : list MenuOption :=
  let cleared := map (fun o => o <| option_classList ::= cl_remove "bg-white/20" |>) l in
  match nth_error cleared i with
  | Some o =>
      firstn i cleared ++ (o <| option_classList ::= cl_add "bg-white/20" |>) :: skipn (S i) cleared
  | None => cleared
  end.

(** Click on the [i]-th speed option. *)
Definition on_speedOption_click (i : nat) (s : Player) : Player :=
  match nth_error (speedOptions s) i with
  | None => s
  | Some option =>
      let speed := parseFloat (data option) in
      s <| mainVideo -> playbackRate := speed |>
        <| currentSpeed -> textContent :=
             (if Js.strict_eq speed (Js.of_Z 1) then lit "1x" else [Num speed; Lit "x"]) |>
        <| speedOptions ::= select_option i |>
        <| speedSubmenu ::= hide |>
        <| settingsMenu ::= hide |>
        <| isSettingsOpen := false |>
  end.

Definition to_upper (c : ascii) : ascii :=
  let n := nat_of_ascii c in
  if (97 <=? n)%nat && (n <=? 122)%nat then ascii_of_nat (n - 32) else c.

(** [quality.charAt(0).toUpperCase() + quality.slice(1)] *)
Definition capitalize (q : string) : string :=
  match q with
  | EmptyString => EmptyString
  | String c rest => String (to_upper c) rest
  end.

(** Click on the [i]-th quality option. *)
Definition on_qualityOption_click (i : nat) (s : Player) : Player :=
  match nth_error (qualityOptions s) i with
  | None => s
  | Some option =>
      s <| currentQuality -> textContent := lit (capitalize (data option)) |>
        <| qualityOptions ::= select_option i |>
        <| qualitySubmenu ::= hide |>
        <| settingsMenu ::= hide |>
        <| isSettingsOpen := false |>
  end.

(** [document] click; [inside] is [settingsContainer.contains(e.target)]. *)
Definition on_document_click (inside : bool) (s : Player) : Player :=
  if isSettingsOpen s && negb inside
  then
    s <| settingsMenu ::= hide |>
      <| speedSubmenu ::= hide |>
      <| qualitySubmenu ::= hide |>
      <| isSettingsOpen := false |>
  else s.

(** [settingsContainer] mouseenter *)
Definition on_settingsContainer_mouseenter (s : Player) : Player :=
  let s := s <| isUserInteracting := true |> in
  clearTimeout (hideControlsTimeout s) s.

(** [settingsContainer] mouseleave *)
Definition on_settingsContainer_mouseleave (s : Player) : Player :=
  if negb (isSettingsOpen s)
  then showControls (s <| isUserInteracting := false |>)
  else s.

(** ** Public methods *)

Definition play (s : Player) : Player := s <| mainVideo ::= media_play |>.

Definition pause (s : Player) : Player := s <| mainVideo ::= media_pause |>.

(** [setVolume(volume)].  The two tests let [NaN] through, and assigning
    [NaN] to [volume] throws: the slider is then not reached. *)
Definition setVolume (volume_ : number) (s : Player) : Exception + Player :=
  let clamped := Js.max Js.zero (Js.min (Js.of_Z 1) volume_) in
  if Js.is_finite clamped
  then
    let s := s <| mainVideo -> volume := clamped |> in
    inr (s <| volumeSlider -> value := Js.mul (volume (mainVideo s)) hundred |>)
  else inl TypeError.

(** [seekTo(seconds)]: what the assignment throws goes to the caller. *)
Definition seekTo (seconds : number) (s : Player) : Exception + Player :=
  match set_currentTime seconds (mainVideo s) with
  | inr v => inr (s <| mainVideo := v |>)
  | inl e => inl e
  end.

(** [x || 0] on a number *)
Definition or_zero (x : number) : number := if Js.truthy x then x else Js.zero.

Definition getCurrentTime (s : Player) : number := or_zero (currentTime (mainVideo s)).

Definition getDuration (s : Player) : number := or_zero (duration (mainVideo s)).

Definition destroy (s : Player) : Player := clearTimeout (hideControlsTimeout s) s.

(** ** Listeners and events *)

Definition registered (l : Listener) (s : Player) : bool :=
  existsb (Listener_eqb l) (listeners s).

(** Runs a handler if its listener is (still) attached. *)
Definition fire (l : Listener) (handler : Player -> Player) (s : Player) : Player :=
  if registered l s then handler s else s.

Definition addEventListeners (ls : list Listener) (s : Player) : Player :=
  s <| listeners ::= fun old => old ++ ls |>.

Definition option_listeners (mk : nat -> Target) (n : nat) : list Listener :=
  map (fun i => (mk i, "click")) (seq 0 n).

Definition bindAdEvents (s : Player) : Player :=
  addEventListeners
    [ (playButton, "click"); (adVideoT, "loadedmetadata"); (adVideoT, "timeupdate");
      (adVideoT, "play"); (skipButtonT, "click"); (adVideoT, "ended");
      (adVideoT, "waiting"); (adVideoT, "canplay"); (adVideoT, "playing");
      (adVideoT, "seeking"); (adVideoT, "seeked"); (adVideoT, "contextmenu") ] s.

Definition bindMainVideoEvents (s : Player) : Player :=
  addEventListeners
    [ (mainVideoT, "play"); (mainVideoT, "pause"); (mainVideoT, "timeupdate");
      (mainVideoT, "loadedmetadata"); (mainVideoT, "waiting"); (mainVideoT, "canplay");
      (mainVideoT, "playing"); (mainVideoT, "seeking"); (mainVideoT, "seeked");
      (mainVideoT, "click"); (mainVideoT, "contextmenu") ] s.

Definition bindControlEvents (s : Player) : Player :=
  addEventListeners
    [ (centerPlayButtonT, "click"); (skipBackwardBtnT, "click"); (skipForwardBtnT, "click");
      (progressBarContainer, "click"); (volumeBtn, "click"); (volumeSliderT, "input");
      (fullscreenBtn, "click"); (document, "fullscreenchange");
      (videoContainer, "mousemove"); (videoContainer, "mouseenter");
      (videoContainer, "mouseleave"); (bottomControlsT, "mouseenter");
      (bottomControlsT, "mouseleave") ] s.

Definition bindSettingsEvents (s : Player) : Player :=
  addEventListeners
    ([ (settingsBtn, "click"); (speedMenuBtn, "click"); (qualityMenuBtn, "click") ]
       ++ option_listeners speedOption (length (speedOptions s))
       ++ option_listeners qualityOption (length (qualityOptions s))
       ++ [ (document, "click"); (settingsContainerT, "mouseenter");
            (settingsContainerT, "mouseleave") ]) s.

Definition bindKeyboardEvents (s : Player) : Player :=
  addEventListeners [ (document, "keydown") ] s.

Inductive Error : Type :=
| requires_wrapperId
| wrapper_not_found (id : string).

(** [init()]; [ids] are the element ids present in the host page. *)
Definition init (ids : list string) (cfg : Config.t) : Error + Player :=
  if existsb (String.eqb (Config.wrapperId cfg)) ids
  then
    inr (bindKeyboardEvents
           (bindSettingsEvents
              (bindControlEvents
                 (bindMainVideoEvents
                    (bindAdEvents
                       (setVideoInfo (setVideoSources (createPlayerStructure cfg))))))))
  else inl (wrapper_not_found (Config.wrapperId cfg)).

(** [new VideoPlayer(config)] *)
Definition new_VideoPlayer (ids : list string) (config : option Input.t) : Error + Player :=
  match config with
  | None => inl requires_wrapperId
  | Some c =>
      match Input.wrapperId c with
      | None => inl requires_wrapperId
      | Some w =>
          if nonempty w then init ids (defaults c w) else inl requires_wrapperId
      end
  end.

(** What a click carries: the pointer abscissa and, for the seek track,
    its bounding rectangle at that moment. *)
Record MouseEvent : Type := {
  clientX : number;
  rect_left : number;
  rect_width : number }.

Definition synthetic_click : MouseEvent :=
  {| clientX := Js.zero; rect_left := Js.zero; rect_width := Js.zero |}.

(** A click that is not stopped reaches the [document] listener;
    [settingsContainer.contains(target)] holds for no target that lets it
    through except the container itself. *)
Definition bubble (inside : bool) (s : Player) : Player :=
  fire (document, "click") (on_document_click inside) s.

(** A click event on [t]: the listener of the target, then, unless it
    called [stopPropagation], the one on [document]. *)
Definition click (t : Target) (e : MouseEvent) (s : Player) : Player :=
  match t with
  | playButton => bubble false (fire (playButton, "click") on_playButton_click s)
  | skipButtonT => bubble false (fire (skipButtonT, "click") skipToMainVideo s)
  | mainVideoT => bubble false (fire (mainVideoT, "click") togglePlayPause s)
  | centerPlayButtonT => fire (centerPlayButtonT, "click") togglePlayPause s
  | skipBackwardBtnT => fire (skipBackwardBtnT, "click") on_skipBackward_click s
  | skipForwardBtnT => fire (skipForwardBtnT, "click") on_skipForward_click s
  | progressBarContainer =>
      bubble false
        (fire (progressBarContainer, "click")
           (on_progressBar_click (clientX e) (rect_left e) (rect_width e)) s)
  | volumeBtn => bubble false (fire (volumeBtn, "click") on_volumeBtn_click s)
  | fullscreenBtn => bubble false (fire (fullscreenBtn, "click") on_fullscreenBtn_click s)
  | settingsBtn => fire (settingsBtn, "click") on_settingsBtn_click s
  | speedMenuBtn => fire (speedMenuBtn, "click") on_speedMenuBtn_click s
  | qualityMenuBtn => fire (qualityMenuBtn, "click") on_qualityMenuBtn_click s
  | speedOption i => fire (speedOption i, "click") (on_speedOption_click i) s
  | qualityOption i => fire (qualityOption i, "click") (on_qualityOption_click i) s
  | settingsContainerT => bubble true s
  | adVideoT | volumeSliderT | videoContainer | bottomControlsT | document => bubble false s
  end.

Definition tenth : number := Fin (1 # 10).

(** The two statements shared by the backward button and [ArrowLeft], and
    by the forward button and [ArrowRight], are [on_skipBackward_click] and
    [on_skipForward_click]. *)
Definition on_document_keydown (key : string) (s : Player) : Player :=
  if is_hidden (mainVideoControls s) then s
  else if (key =? " ") || (key =? "k") then togglePlayPause s
  else if key =? "ArrowLeft" then on_skipBackward_click s
  else if key =? "ArrowRight" then on_skipForward_click s
  else if key =? "ArrowUp" then
    let s := s <| mainVideo -> volume := Js.min (Js.of_Z 1) (Js.add (volume (mainVideo s)) tenth) |> in
    s <| volumeSlider -> value := Js.mul (volume (mainVideo s)) hundred |>
  else if key =? "ArrowDown" then
    let s := s <| mainVideo -> volume := Js.max Js.zero (Js.sub (volume (mainVideo s)) tenth) |> in
    s <| volumeSlider -> value := Js.mul (volume (mainVideo s)) hundred |>
  else if key =? "f" then click fullscreenBtn synthetic_click s
  else if key =? "m" then click volumeBtn synthetic_click s
  else s.

(** Notifications of a media element.  [loadedmetadata] and [timeupdate]
    carry the duration and the position the engine has reached. *)
Inductive Notification : Type :=
| loadedmetadata (d : number)
| timeupdate (t : number)
| play_
| pause_
| ended
| waiting
| canplay
| playing
| seeking
| seeked
| contextmenu.

Definition ad_event (n : Notification) (s : Player) : Player :=
  match n with
  | loadedmetadata d =>
      fire (adVideoT, "loadedmetadata") on_ad_loadedmetadata (s <| adVideo ::= with_metadata d |>)
  | timeupdate t =>
      fire (adVideoT, "timeupdate") on_ad_timeupdate (s <| adVideo ::= at_position t |>)
  | play_ => fire (adVideoT, "play") on_ad_play s
  | pause_ => s
  | ended => fire (adVideoT, "ended") skipToMainVideo s
  | waiting => fire (adVideoT, "waiting") (fun s => s <| adLoadingSpinner ::= show |>) s
  | canplay => fire (adVideoT, "canplay") (fun s => s <| adLoadingSpinner ::= hide |>) s
  | playing => fire (adVideoT, "playing") (fun s => s <| adLoadingSpinner ::= hide |>) s
  | seeking => fire (adVideoT, "seeking") (fun s => s <| adLoadingSpinner ::= show |>) s
  | seeked => fire (adVideoT, "seeked") (fun s => s <| adLoadingSpinner ::= hide |>) s
  | contextmenu => s
  end.

Definition main_event (n : Notification) (s : Player) : Player :=
  match n with
  | loadedmetadata d =>
      fire (mainVideoT, "loadedmetadata") on_main_loadedmetadata (s <| mainVideo ::= with_metadata d |>)
  | timeupdate t =>
      fire (mainVideoT, "timeupdate") on_main_timeupdate (s <| mainVideo ::= at_position t |>)
  | play_ => fire (mainVideoT, "play") on_main_play s
  | pause_ => fire (mainVideoT, "pause") on_main_pause s
  | ended => s
  | waiting => fire (mainVideoT, "waiting") (fun s => s <| loadingSpinner ::= show |>) s
  | canplay => fire (mainVideoT, "canplay") (fun s => s <| loadingSpinner ::= hide |>) s
  | playing => fire (mainVideoT, "playing") (fun s => s <| loadingSpinner ::= hide |>) s
  | seeking => fire (mainVideoT, "seeking") (fun s => s <| loadingSpinner ::= show |>) s
  | seeked => fire (mainVideoT, "seeked") (fun s => s <| loadingSpinner ::= hide |>) s
  | contextmenu => s
  end.

Inductive MouseKind : Type := mousemove | mouseenter | mouseleave.

Inductive Method : Type :=
| m_play
| m_pause
| m_setVolume (v : number)
| m_seekTo (seconds : number)
| m_destroy.

(** Everything that can happen to a player between two handlers. *)
Inductive Event : Type :=
| Click (t : Target) (e : MouseEvent)
| Mouse (t : Target) (k : MouseKind)
| Input (v : number)
| Keydown (key : string)
| FullscreenChange (active : bool)
| AdVideo (n : Notification)
| MainVideo (n : Notification)
| EnginePaused (main : bool)
| Expire (id : nat)
| Call (m : Method).

Definition mouse (t : Target) (k : MouseKind) (s : Player) : Player :=
  match t, k with
  | videoContainer, mousemove => fire (videoContainer, "mousemove") on_container_mousemove s
  | videoContainer, mouseenter => fire (videoContainer, "mouseenter") on_container_mousemove s
  | videoContainer, mouseleave => fire (videoContainer, "mouseleave") on_container_mouseleave s
  | bottomControlsT, mouseenter => fire (bottomControlsT, "mouseenter") on_bottomControls_mouseenter s
  | bottomControlsT, mouseleave => fire (bottomControlsT, "mouseleave") on_bottomControls_mouseleave s
  | settingsContainerT, mouseenter =>
      fire (settingsContainerT, "mouseenter") on_settingsContainer_mouseenter s
  | settingsContainerT, mouseleave =>
      fire (settingsContainerT, "mouseleave") on_settingsContainer_mouseleave s
  | _, _ => s
  end.

(** A timer that is still pending expires: it leaves the table and its
    callback runs. *)
Definition timeout (id : nat) (s : Player) : Player :=
  if pending id s
  then hideControlsCallback (s <| timers ::= filter (fun t => negb (Nat.eqb (fst t) id)) |>)
  else s.

Definition call (m : Method) (s : Player) : Player :=
  match m with
  | m_play => play s
  | m_pause => pause s
  | m_setVolume v => match setVolume v s with inr s' => s' | inl _ => s end
  | m_seekTo x => match seekTo x s with inr s' => s' | inl _ => s end
  | m_destroy => destroy s
  end.

Definition dispatch (ev : Event) (s : Player) : Player :=
  match ev with
  | Click t e => click t e s
  | Mouse t k => mouse t k s
  | Input v => fire (volumeSliderT, "input") (on_volumeSlider_input v) s
  | Keydown key => fire (document, "keydown") (on_document_keydown key) s
  | FullscreenChange active => fire (document, "fullscreenchange") (on_fullscreenchange active) s
  | AdVideo n => ad_event n s
  | MainVideo n => main_event n s
  | EnginePaused true => s <| mainVideo ::= media_pause |>
  | EnginePaused false => s <| adVideo ::= media_pause |>
  | Expire id => timeout id s
  | Call m => call m s
  end.

Definition run (evs : list Event) (s : Player) : Player :=
  fold_left (fun s ev => dispatch ev s) evs s.

(** ** Stages and deliverable events *)

Inductive PlaybackStage : Type := Thumbnail | Ad | Main.

(** The program keeps no stage variable: the stage is what is displayed. *)
Definition stage (s : Player) : PlaybackStage :=
  if negb (is_hidden (node (mainVideo s))) then Main
  else if negb (is_hidden (node (adVideo s))) then Ad
  else Thumbnail.

Definition controls_displayed (s : Player) : bool := negb (is_hidden (mainVideoControls s)).

(** The class [hidden] is [display: none]: it takes an element and its
    subtree out of pointer hit-testing and out of keyboard focus.  The
    class [opacity-0] does neither and [pointer-events-none] stops the
    pointer only: a button that carries them still takes keyboard focus,
    and Enter clicks it. *)
Definition displayed (t : Target) (s : Player) : bool :=
  match t with
  | playButton => negb (is_hidden (playOverlay s))
  | skipButtonT => negb (is_hidden (adOverlay s))
  | adVideoT => negb (is_hidden (node (adVideo s)))
  | mainVideoT => negb (is_hidden (node (mainVideo s)))
  | centerPlayButtonT | skipBackwardBtnT | skipForwardBtnT | progressBarContainer
  | volumeBtn | volumeSliderT | fullscreenBtn | bottomControlsT | settingsBtn
  | settingsContainerT => controls_displayed s
  | speedMenuBtn | qualityMenuBtn =>
      controls_displayed s && negb (is_hidden (settingsMenu s))
  | speedOption _ =>
      controls_displayed s && negb (is_hidden (settingsMenu s))
      && negb (is_hidden (speedSubmenu s))
  | qualityOption _ =>
      controls_displayed s && negb (is_hidden (settingsMenu s))
      && negb (is_hidden (qualitySubmenu s))
  | videoContainer | document => true
  end.

Definition deliverable (ev : Event) (s : Player) : bool :=
  match ev with
  | Click t _ => displayed t s
  | Mouse t _ => displayed t s
  | Input _ => displayed volumeSliderT s
  | _ => true
  end.

Fixpoint deliverable_run (evs : list Event) (s : Player) : bool :=
  match evs with
  | [] => true
  | ev :: rest => deliverable ev s && deliverable_run rest (dispatch ev s)
  end.

(** The skip button as the pointer sees it. *)
Definition skip_inert (s : Player) : bool :=
  contains "opacity-0" (classList (skipButton s))
  && contains "pointer-events-none" (classList (skipButton s))
  && negb (contains "opacity-100" (classList (skipButton s)))
  && negb (contains "pointer-events-auto" (classList (skipButton s))).

Definition skip_active (s : Player) : bool :=
  contains "opacity-100" (classList (skipButton s))
  && contains "pointer-events-auto" (classList (skipButton s))
  && negb (contains "opacity-0" (classList (skipButton s)))
  && negb (contains "pointer-events-none" (classList (skipButton s))).

(** [clamp(x, lo, hi)] as the specification writes it. *)
Definition clamp (x lo hi : number) : number := Js.max lo (Js.min x hi).

(** At most one timer is pending, and it is the one whose handle the
    player holds. *)
Definition single_timer (s : Player) : Prop :=
  timers s = [] \/
  exists id delay, timers s = [(id, delay)] /\ hideControlsTimeout s = Some id.

(** ** Sample players *)

Definition sample_input (ad : option Input.Ad) : Input.t :=
  {| Input.wrapperId := Some "video-wrapper";
     Input.mainVideo :=
       Some {| Input.url := Some "main.mp4"; Input.title := None;
               Input.description := None; Input.type := None |};
     Input.adVideo := ad;
     Input.thumbnailUrl := None;
     Input.skipBackwardSeconds := None;
     Input.skipForwardSeconds := None;
     Input.autoHideControlsDelay := None;
     Input.section := None;
     Input.infoText := None |}.

Definition sample_ad (u : option string) (t : option number) : Input.Ad :=
  {| Input.ad_url := u; Input.skipAfter := t; Input.ad_type := None |}.

(** A player on a page that has the wrapper. *)
Definition mount (c : Input.t) : Player :=
  match new_VideoPlayer ["video-wrapper"] (Some c) with
  | inr p => p
  | inl _ => createPlayerStructure (defaults c "")
  end.

Definition sample_player : Player :=
  mount (sample_input (Some (sample_ad (Some "ad.mp4") (Some (Js.of_Z 5))))).

Definition no_ad_player : Player := mount (sample_input None).

Definition at_origin : MouseEvent := synthetic_click.

(** The state in which the [timeupdate] listener of the ad runs. *)
Definition ad_at (ct : number) (s : Player) : Player := s <| adVideo ::= at_position ct |>.

(** A player whose main video has announced its duration. *)
Definition with_duration (d : number) (s : Player) : Player :=
  dispatch (MainVideo (loadedmetadata d)) s.

(** A player in the main stage, 55 s into a video of 60 s. *)
Definition seeking_player : Player :=
  run [Click playButton at_origin; AdVideo ended; MainVideo (loadedmetadata (Fin 60));
       MainVideo (timeupdate (Fin 55))] sample_player.





(** Playback of the main video has started, the timer is armed, and the
    settings button is then reached with the keyboard. *)
Definition before_expiry : list Event :=
  [ Click playButton at_origin; AdVideo play_; AdVideo (timeupdate (Fin 5));
    Click skipButtonT at_origin; MainVideo play_;
    Keydown "Tab"; Keydown "Enter"; Click settingsBtn at_origin ].

(** The skip button is reached with the keyboard before the play button
    has been used. *)
Definition skip_first : list Event :=
  [ Keydown "Tab"; Keydown "Enter"; Click skipButtonT at_origin ].

(** ** Invariants *)

(** A handler leaves a part of the state alone. *)
Definition keeps {A : Type} (view : Player -> A) (h : Player -> Player) : Prop :=
  forall s, view (h s) = view s.

Definition preserves (I : Player -> Prop) (h : Player -> Player) : Prop :=
  forall s, I s -> I (h s).

Definition bindings (s : Player) : list Listener * Config.t := (listeners s, config s).

(** What decides the stage: overlay, thumbnail, the two video nodes and
    whether the ad is playing. *)
Definition sequencer_view (s : Player) : Element * Video * Element * bool * Element :=
  (playOverlay s, thumbnailVideo s, node (adVideo s), paused (adVideo s), node (mainVideo s)).

Definition timer_view (s : Player) : list (nat * number) * option nat * bool :=
  (timers s, hideControlsTimeout s, isUserInteracting s).

(** At most one timer is pending, and none while the pointer is over the
    control surface. *)
Definition timer_discipline (s : Player) : Prop :=
  single_timer s /\ (isUserInteracting s = true -> timers s = []).

(** The play affordance has been used: overlay and thumbnail are gone. *)
Definition left_thumbnail (s : Player) : Prop :=
  is_hidden (playOverlay s) = true /\ is_hidden (node (thumbnailVideo s)) = true.

(** Main is displayed and the ad is put away. *)
Definition ad_put_away (s : Player) : Prop :=
  is_hidden (node (adVideo s)) = true
  /\ is_hidden (node (mainVideo s)) = false
  /\ paused (adVideo s) = true.

Definition main_entered (s : Player) : Prop := left_thumbnail s /\ ad_put_away s.

(** ** The claims as the specification words them *)

(** A position update reported at [t] leaves the fill and the handle as
    they are while the duration is unknown or zero, and otherwise shows
    the clamped percent of the position the video is at. *)
Definition progress_guarded (s : Player) (t : number) : Prop :=
  let s' := dispatch (MainVideo (timeupdate t)) s in
  let d := duration (mainVideo s') in
  let position := currentTime (mainVideo s') in
  (Js.is_nan d = true \/ Js.strict_eq d Js.zero = true ->
   style_width (progressBar s') = style_width (progressBar s)
   /\ style_left (progressHandle s') = style_left (progressHandle s))
  /\ (Js.gt d Js.zero = true ->
      exists p, style_width (progressBar s') = [Num p; Lit "%"]
                /\ style_left (progressHandle s') = [Num p; Lit "%"]
                /\ p =n= Js.mul (clamp (Js.div position d) Js.zero (Js.of_Z 1)) hundred).



(** Without an ad source the play affordance goes straight to the main
    content. *)
Definition start_skips_absent_ad (s : Player) : Prop :=
  Config.ad_url (Config.adVideo (config s)) = "" ->
  let s' := dispatch (Click playButton at_origin) s in
  is_hidden (node (adVideo s')) = true /\ paused (adVideo s') = true
  /\ is_hidden (node (mainVideo s')) = false /\ paused (mainVideo s') = false.

(** Whatever is delivered after Main has been entered, the ad and the
    thumbnail are not shown again and the ad is not played again. *)
Definition one_way (p : Player) (before after : list Event) : Prop :=
  deliverable_run (before ++ after) p = true ->
  stage (run before p) = Main ->
  let s := run (before ++ after) p in
  is_hidden (node (adVideo s)) = true
  /\ is_hidden (node (thumbnailVideo s)) = true
  /\ paused (adVideo s) = true.

(** [seekTo] leaves the position within the known duration. *)
Definition seekTo_clamped (s : Player) (seconds : number) : Prop :=
  forall d, duration (mainVideo s) = Fin d -> (0 <= d)%Q ->
            currentTime (mainVideo (dispatch (Call (m_seekTo seconds)) s))
            =n= clamp seconds Js.zero (Fin d).


(** ** Views and invariants of the controls *)

Definition position_view (s : Player) : number * number :=
  (currentTime (mainVideo s), duration (mainVideo s)).

(** What an event can do to the position of the main video: leave it, seek
    to a finite position, or bring it onto a timeline just announced. *)
Definition position_step (s s' : Player) : Prop :=
  position_view s' = position_view s
  \/ (exists x, Js.is_finite x = true
                /\ position_view s'
                   = (on_timeline x (duration (mainVideo s)), duration (mainVideo s)))
  \/ (exists d, position_view s' = (on_timeline (currentTime (mainVideo s)) d, d)).

(** The position of the main video is finite, and within the duration
    once that is known to be positive. *)
Definition on_the_timeline (s : Player) : Prop :=
  exists q, currentTime (mainVideo s) = Fin q
            /\ (Js.gt (duration (mainVideo s)) Js.zero = true ->
                (0 <= q)%Q /\ Js.le (Fin q) (duration (mainVideo s)) = true).

(** What the volume handlers work on. *)
Definition volume_view (s : Player) : Video * Element * Element * Element :=
  (mainVideo s, volumeSlider s, volumeIcon s, muteIcon s).

(** Of each pair of icons exactly one is shown. *)
Definition icon_pairs (s : Player) : Prop :=
  is_hidden (centerPauseIcon s) = negb (is_hidden (centerPlayIcon s))
  /\ is_hidden (muteIcon s) = negb (is_hidden (volumeIcon s))
  /\ is_hidden (exitFullscreenIcon s) = negb (is_hidden (fullscreenIcon s)).

(** [isSettingsOpen] tells whether the settings menu is shown, and the
    two submenus are not shown together. *)
Definition menu_coherent (s : Player) : Prop :=
  isSettingsOpen s = negb (is_hidden (settingsMenu s))
  /\ is_hidden (speedSubmenu s) || is_hidden (qualitySubmenu s) = true.

(** The elements that only [skipToMainVideo] shows or hides. *)
Definition overlay_view (s : Player) : Element * Element * Element :=
  (adOverlay s, node (mainVideo s), mainVideoControls s).

(** The option that carries the highlight class. *)
Definition highlighted (o : MenuOption) : bool := contains "bg-white/20" (option_classList o).

(** [opt.classList.remove('bg-white/20')] and
    [option.classList.add('bg-white/20')] *)
Definition unmark (o : MenuOption) : MenuOption :=
  o <| option_classList ::= cl_remove "bg-white/20" |>.
Definition mark (o : MenuOption) : MenuOption :=
  o <| option_classList ::= cl_add "bg-white/20" |>.

Definition menu_view (s : Player)
  : list MenuOption * list MenuOption * number * jsstring * jsstring :=
  (speedOptions s, qualityOptions s, playbackRate (mainVideo s),
   textContent (currentSpeed s), textContent (currentQuality s)).

(** What the settings menu shows is what is in force: the highlighted
    speed is the playback rate and the label beside "Speed" is its text,
    the highlighted quality is the one named beside "Quality", and the
    options on offer are those the menu was built with. *)
Definition menu_agrees (s : Player) : Prop :=
  map (fun o => parseFloat (data o)) (filter highlighted (speedOptions s))
  = [playbackRate (mainVideo s)]
  /\ textContent (currentSpeed s)
     = (if Js.strict_eq (playbackRate (mainVideo s)) (Js.of_Z 1)
        then lit "1x" else [Num (playbackRate (mainVideo s)); Lit "x"])
  /\ map (fun o => lit (capitalize (data o))) (filter highlighted (qualityOptions s))
     = [textContent (currentQuality s)]
  /\ map data (speedOptions s) = map data initialSpeedOptions
  /\ map data (qualityOptions s) = map data initialQualityOptions.

(** * Proofs *)

Arguments cl_add : simpl never.
Arguments cl_remove : simpl never.
Arguments cl_toggle : simpl never.
Arguments contains : simpl never.

(** Unfolds every handler down to record updates. *)
Ltac handlers :=
  unfold dispatch, click, mouse, ad_event, main_event, timeout, call, bubble, fire,
    on_document_keydown, click, bubble, fire,
    on_playButton_click, on_ad_loadedmetadata, on_ad_timeupdate, on_ad_play,
    skipToMainVideo, on_main_play, on_main_pause, on_main_timeupdate,
    on_main_loadedmetadata, on_skipBackward_click, on_skipForward_click,
    on_progressBar_click, on_volumeBtn_click, on_volumeSlider_input,
    on_fullscreenBtn_click, on_fullscreenchange, on_container_mousemove,
    on_container_mouseleave, on_bottomControls_mouseenter, on_bottomControls_mouseleave,
    on_settingsBtn_click, on_speedMenuBtn_click, on_qualityMenuBtn_click,
    on_speedOption_click, on_qualityOption_click, on_document_click,
    on_settingsContainer_mouseenter, on_settingsContainer_mouseleave,
    play, pause, setVolume, seekTo, destroy, togglePlayPause, updatePlayPauseIcons,
    set_currentTime, at_position, with_metadata, set_style_width, set_style_left,
    hideControlsCallback, showControls, setTimeout, clearTimeout, set_controls_opacity.

(** Case analysis on every test a handler makes. *)
Ltac branch :=
  repeat match goal with
    | |- context [if ?b then _ else _] => destruct b
    | |- context [match nth_error ?l ?i with _ => _ end] => destruct (nth_error l i)
    | |- context [match hideControlsTimeout ?s with _ => _ end] =>
        destruct (hideControlsTimeout s)
    end.

(** The same, state variables first, for a state given field by field. *)
Ltac split_tests :=
  repeat (match goal with
    | |- context [match ?h with Some _ => _ | None => _ end] => is_var h; destruct h
    | |- context [Nat.eqb ?a ?a] => rewrite (Nat.eqb_refl a)
    | |- context [if ?x then _ else _] => is_var x; destruct x
    | |- context [negb ?x] => is_var x; destruct x
    | |- context [Nat.eqb ?a ?b] => destruct (Nat.eqb a b)
    | |- context [if ?b then _ else _] => destruct b
    | |- context [match nth_error ?l ?i with _ => _ end] => destruct (nth_error l i)
    end; cbn).

Ltac solve_keeps := intros ?; handlers; branch; reflexivity.

(** ** Class lists *)

Lemma contains_app c (l1 l2 : classList_t) :
  contains c (l1 ++ l2) = contains c l1 || contains c l2.
Proof. unfold contains. apply existsb_app. Qed.

Lemma contains_cl_add_same c l : contains c (cl_add c l) = true.
Proof.
  unfold cl_add. destruct (contains c l) eqn:E; [exact E|].
  rewrite contains_app. unfold contains at 2. cbn.
  rewrite String.eqb_refl. now rewrite orb_true_r.
Qed.

Lemma contains_cl_add_other c d l :
  String.eqb c d = false -> contains c (cl_add d l) = contains c l.
Proof.
  intros H. unfold cl_add. destruct (contains d l); [reflexivity|].
  rewrite contains_app. unfold contains at 2. cbn. rewrite H. now rewrite !orb_false_r.
Qed.

Lemma contains_cl_remove_same c l : contains c (cl_remove c l) = false.
Proof.
  unfold contains, cl_remove. induction l as [|x l IH]; cbn; [reflexivity|].
  destruct (String.eqb c x) eqn:E; cbn; [exact IH|]. now rewrite E.
Qed.

Lemma contains_cl_remove_other c d l :
  String.eqb c d = false -> contains c (cl_remove d l) = contains c l.
Proof.
  intros H. unfold contains, cl_remove. induction l as [|x l IH]; cbn; [reflexivity|].
  destruct (String.eqb d x) eqn:E; cbn.
  - apply String.eqb_eq in E. subst x. now rewrite H.
  - now rewrite IH.
Qed.

Lemma cl_add_idem c l : cl_add c (cl_add c l) = cl_add c l.
Proof. unfold cl_add at 1. now rewrite contains_cl_add_same. Qed.

Lemma cl_remove_idem c l : cl_remove c (cl_remove c l) = cl_remove c l.
Proof.
  unfold cl_remove. induction l as [|x l IH]; cbn; [reflexivity|].
  destruct (String.eqb c x) eqn:E; cbn; [exact IH|]. rewrite E. cbn. now rewrite IH.
Qed.

(** Membership after a chain of [add] and [remove]. *)
Ltac cls :=
  repeat first
    [ rewrite contains_cl_add_same
    | rewrite contains_cl_remove_same
    | rewrite contains_cl_add_other by reflexivity
    | rewrite contains_cl_remove_other by reflexivity ].

(** ** Numbers *)

Lemma num_eq_refl a : a =n= a.
Proof. destruct a; cbn; auto. reflexivity. Qed.

Lemma num_eq_sym a b : a =n= b -> b =n= a.
Proof. destruct a, b; cbn; auto. intros H. now symmetry. Qed.

Lemma num_eq_trans a b c : a =n= b -> b =n= c -> a =n= c.
Proof. destruct a, b, c; cbn; auto; try contradiction. intros H1 H2. now rewrite H1. Qed.

Lemma Js_lt_not_ge a b : Js.lt a b = true -> Js.ge a b = false.
Proof. unfold Js.lt, Js.ge. destruct (Js.compare a b) as [[]|]; congruence. Qed.

Lemma Js_zero_falsy q : (q == 0)%Q -> Js.truthy (Fin q) = false.
Proof. intros H. cbn. apply Qeq_bool_iff in H. now rewrite H. Qed.

Lemma max_zero_nonneg q : (0 <= q)%Q -> Js.max Js.zero (Fin q) =n= Fin q.
Proof.
  intros H. unfold Js.max, Js.zero, Js.compare.
  destruct (Qcompare_spec 0 q) as [E|L|G].
  - exact E.
  - apply num_eq_refl.
  - exfalso. apply (Qlt_not_le _ _ G H).
Qed.

Lemma max_zero_nonpos q : (q <= 0)%Q -> Js.max Js.zero (Fin q) = Js.zero.
Proof.
  intros H. unfold Js.max, Js.zero, Js.compare.
  destruct (Qcompare_spec 0 q) as [E|L|G]; try reflexivity.
  exfalso. apply (Qlt_not_le _ _ L H).
Qed.

Lemma min_of_le x y : (x <= y)%Q -> Js.min (Fin x) (Fin y) = Fin x.
Proof.
  intros H. unfold Js.min, Js.compare.
  destruct (Qcompare_spec x y) as [E|L|G]; try reflexivity.
  exfalso. apply (Qlt_not_le _ _ G H).
Qed.

Lemma min_of_ge x y : (y <= x)%Q -> Js.min (Fin x) (Fin y) =n= Fin y.
Proof.
  intros H. unfold Js.min, Js.compare.
  destruct (Qcompare_spec x y) as [E|L|G].
  - exact E.
  - exfalso. apply (Qlt_not_le _ _ L H).
  - apply num_eq_refl.
Qed.

Lemma max_zero_num_eq a b : a =n= b -> Js.max Js.zero a =n= Js.max Js.zero b.
Proof.
  destruct a as [| | |p], b as [| | |q]; intros H; try contradiction;
    try apply num_eq_refl.
  unfold Js.max, Js.zero, Js.compare.
  change (p == q)%Q in H. rewrite H.
  destruct (0 ?= q)%Q; [apply num_eq_refl | exact H | apply num_eq_refl].
Qed.

Lemma mul_hundred_num_eq a b : a =n= b -> Js.mul a hundred =n= Js.mul b hundred.
Proof.
  destruct a as [| | |p], b as [| | |q]; intros H; try contradiction;
    try apply num_eq_refl.
  change (p == q)%Q in H. change (p * inject_Z 100 == q * inject_Z 100)%Q.
  now rewrite H.
Qed.

(** A position within the duration is a fraction between 0 and 1. *)
Lemma percent_in_range q d :
  (0 <= q)%Q -> Js.lt Js.zero d = true -> Js.le (Fin q) d = true ->
  Js.mul (Js.div (Fin q) d) hundred
  =n= Js.mul (clamp (Js.div (Fin q) d) Js.zero (Js.of_Z 1)) hundred.
Proof.
  intros Hq Hd Hle. apply mul_hundred_num_eq. apply num_eq_sym. unfold clamp.
  destruct d as [| | |dq]; try discriminate.
  - (* an unbounded duration *)
    change (Js.div (Fin q) PosInf) with Js.zero. apply num_eq_refl.
  - unfold Js.lt, Js.zero, Js.compare in Hd.
    destruct (Qcompare_spec 0 dq) as [E|L|G]; try discriminate.
    unfold Js.le, Js.compare in Hle.
    assert (Hqd : (q <= dq)%Q).
    { destruct (Qcompare_spec q dq) as [E|L'|G]; try discriminate.
      - rewrite E. apply Qle_refl.
      - now apply Qlt_le_weak. }
    unfold Js.div, Js.Qsign.
    destruct (Qcompare_spec dq 0) as [E|L'|G].
    + exfalso. rewrite E in L. apply (Qlt_irrefl _ L).
    + exfalso. apply (Qlt_irrefl 0). now apply Qlt_trans with dq.
    + assert (H1 : (q / dq <= 1)%Q) by (apply Qle_shift_div_r; [exact L | now rewrite Qmult_1_l]).
      assert (H0 : (0 <= q / dq)%Q) by (apply Qle_shift_div_l; [exact L | now rewrite Qmult_0_l]).
      change (Js.of_Z 1) with (Fin 1).
      rewrite (min_of_le _ _ H1). now apply max_zero_nonneg.
Qed.

(** ** Frames *)

Lemma keeps_fire {A : Type} (view : Player -> A) l h s :
  keeps view h -> view (fire l h s) = view s.
Proof. intros K. unfold fire. destruct (registered l s); [apply K | reflexivity]. Qed.

Lemma preserves_fire (I : Player -> Prop) l h s : preserves I h -> I s -> I (fire l h s).
Proof. intros P H. unfold fire. destruct (registered l s); [now apply P | exact H]. Qed.

(** Peels the listeners of an event off, outermost first. *)
Ltac peel view :=
  unfold dispatch, click, mouse, ad_event, main_event, call, bubble;
  repeat (rewrite (keeps_fire view) by solve_keeps);
  try reflexivity.

(** No handler detaches a listener or touches the configuration. *)
Lemma bindings_dispatch ev s : bindings (dispatch ev s) = bindings s.
Proof.
  destruct ev as [t e|t k|v|key|a|n|n|m|i|m];
    try destruct t; try destruct k; try destruct n; try destruct m.
  all: peel bindings.
  all: handlers; branch; reflexivity.
Qed.

Lemma listeners_dispatch ev s : listeners (dispatch ev s) = listeners s.
Proof. exact (f_equal fst (bindings_dispatch ev s)). Qed.


Lemma registered_dispatch l ev s : registered l (dispatch ev s) = registered l s.
Proof. unfold registered. now rewrite listeners_dispatch. Qed.

Lemma mainVideo_showControls s : mainVideo (showControls s) = mainVideo s.
Proof.
  unfold showControls, setTimeout, clearTimeout, set_controls_opacity. branch; reflexivity.
Qed.

Lemma keeps_sequencer_document_click inside : keeps sequencer_view (on_document_click inside).
Proof. solve_keeps. Qed.

(** Only the play button, [skipToMainVideo] and the engine move the
    sequencer. *)
Lemma sequencer_frame ev s :
  sequencer_view (dispatch ev s) = sequencer_view s
  \/ sequencer_view (dispatch ev s) = sequencer_view (skipToMainVideo s)
  \/ sequencer_view (dispatch ev s) = sequencer_view (s <| adVideo ::= media_pause |>)
  \/ exists e, ev = Click playButton e.
Proof.
  destruct ev as [t e|t k|v|key|a|n|n|m|i|m];
    try destruct t; try destruct k; try destruct n; try destruct m.
  1: right; right; right; now exists e.
  1: { (* the skip button *)
       cbn [dispatch click]. unfold bubble.
       rewrite (keeps_fire sequencer_view) by apply keeps_sequencer_document_click.
       unfold fire. destruct (registered _ s); [right; left; reflexivity | left; reflexivity]. }
  all: try (left; peel sequencer_view; fail).
  all: first
         [ (* the ad has ended *)
           cbn [dispatch ad_event]; unfold fire;
           destruct (registered _ s); [right; left; reflexivity | left; reflexivity]
         | (* the engine paused the ad *)
           right; right; left; reflexivity
         | left; peel sequencer_view; handlers; branch; reflexivity ].
Qed.

(** ** Construction *)

Lemma new_VideoPlayer_inv ids c p :
  new_VideoPlayer ids (Some c) = inr p ->
  exists w, Input.wrapperId c = Some w /\ config p = defaults c w
            /\ skipButton p = skipButton (createPlayerStructure (defaults c w))
            /\ listeners p = listeners sample_player
            /\ timer_discipline p.
Proof.
  unfold new_VideoPlayer, init. destruct (Input.wrapperId c) as [w|]; [|discriminate].
  destruct (nonempty w); [|discriminate].
  cbn [Config.wrapperId defaults].
  destruct (existsb (String.eqb w) ids); [|discriminate].
  intros H. injection H as <-. exists w. unfold setVideoSources. cbv zeta.
  match goal with |- context [if ?b then _ else _] => destruct b end.
  all: repeat split; left; reflexivity.
Qed.

Lemma registered_new ids c p l :
  new_VideoPlayer ids (Some c) = inr p ->
  registered l p = registered l sample_player.
Proof.
  intros H. destruct (new_VideoPlayer_inv _ _ _ H) as (w & _ & _ & _ & L & _).
  unfold registered. rewrite L. reflexivity.
Qed.

(** ** The hide timer *)

Ltac timer_goal U :=
  unfold timer_discipline, single_timer; cbn;
  split;
  [ first [ left; reflexivity | right; eexists; eexists; split; reflexivity ]
  | first [ exact U
          | intros _; reflexivity
          | intros V; discriminate V
          | intros _; specialize (U eq_refl); discriminate U ] ].

(** One handler, from a state that has nothing pending, or one timer
    pending while the pointer is off the controls. *)
Ltac solve_timer :=
  let s := fresh "s" in
  let S := fresh "S" in
  let U := fresh "U" in
  intros s [S U];
  destruct s as [? ? ? ? ? ? ? ? ? ? ? ? ? ? [? ? ? ? ? ? ? ? ?] ? ? ? ? ? ? ? ? ? ? ? ? ? ? ? ? ? ? ? ? ? ? ? ? ? ? ? ? ? ? ?];
  unfold single_timer in S; cbn in S, U;
  destruct S as [S|(? & ? & S & ?)]; subst;
  [ | match type of U with ?b = true -> _ =>
        destruct b; [specialize (U eq_refl); discriminate U|] end ];
  handlers; unfold constant; cbn; split_tests; timer_goal U.

Lemma keeps_timer_view h : keeps timer_view h -> preserves timer_discipline h.
Proof.
  intros K s. specialize (K s). unfold timer_view in K. injection K as K1 K2 K3.
  unfold timer_discipline, single_timer. now rewrite K1, K2, K3.
Qed.

Ltac timer_handler := first [apply keeps_timer_view; solve_keeps | solve_timer].

Lemma timer_discipline_click t e : preserves timer_discipline (click t e).
Proof.
  destruct t; intros s I; cbn [click]; unfold bubble.
  all: repeat (apply preserves_fire; [timer_handler|]).
  all: exact I.
Qed.

Lemma timer_discipline_keydown key : preserves timer_discipline (on_document_keydown key).
Proof.
  intros s I. unfold on_document_keydown.
  repeat match goal with |- context [if ?b then _ else _] => destruct b end.
  all: try exact I.
  all: try (apply timer_discipline_click; exact I).
  all: revert s I; timer_handler.
Qed.

(** Every event keeps the timer discipline: re-arming cancels first, and
    the pointer entering the control surface cancels. *)
Lemma timer_discipline_dispatch ev : preserves timer_discipline (dispatch ev).
Proof.
  destruct ev as [t e|t k|v|key|a|n|n|m|i|m].
  - apply timer_discipline_click.
  - destruct t, k; intros s I; cbn [dispatch mouse].
    all: try exact I.
    all: apply preserves_fire; [timer_handler | exact I].
  - intros s I. cbn [dispatch]. apply preserves_fire; [timer_handler | exact I].
  - intros s I. cbn [dispatch]. apply preserves_fire; [apply timer_discipline_keydown | exact I].
  - intros s I. cbn [dispatch]. apply preserves_fire; [timer_handler | exact I].
  - destruct n; intros s I; cbn [dispatch ad_event].
    all: try exact I.
    all: apply preserves_fire; [timer_handler|].
    all: first [exact I | revert s I; timer_handler].
  - destruct n; intros s I; cbn [dispatch main_event].
    all: try exact I.
    all: apply preserves_fire; [timer_handler|].
    all: first [exact I | revert s I; timer_handler].
  - destruct m; cbn [dispatch]; timer_handler.
  - cbn [dispatch]. timer_handler.
  - destruct m; cbn [dispatch call]; timer_handler.
Qed.

Lemma timer_discipline_run evs s :
  timer_discipline s -> timer_discipline (run evs s).
Proof.
  revert s. induction evs as [|ev evs IH]; intros s H; [exact H|].
  cbn [run fold_left]. apply IH. now apply timer_discipline_dispatch.
Qed.





(** From a state given field by field, with nothing pending or the held
    timer pending. *)
Ltac by_timer_cases I :=
  match type of I with
  | timer_discipline ?s =>
      destruct I as [I _];
      destruct s as [? ? ? ? ? ? ? ? ? ? ? ? ? ? [? ? ? ? ? ? ? ? ?] ? ? ? ? ? ? ? ? ? ? ? ? ? ? ? ? ? ? ? ? ? ? ? ? ? ? ? ? ? ? ?];
      unfold single_timer in I; cbn in *;
      destruct I as [I|(? & ? & I & ?)]; subst
  end.

(** The pause notification cancels the timer. *)
Lemma on_main_pause_cancels s : timer_discipline s -> timers (on_main_pause s) = [].
Proof.
  intros I. by_timer_cases I; handlers; unfold constant; cbn; split_tests; reflexivity.
Qed.

(** [showControls] arms nothing while paused, while the settings menu is
    open or while the pointer is over the control surface. *)
Lemma showControls_suppressed s :
  timer_discipline s ->
  paused (mainVideo s) = true \/ isSettingsOpen s = true \/ isUserInteracting s = true ->
  timers (showControls s) = [].
Proof.
  intros I H. by_timer_cases I.
  all: destruct H as [H|[H|H]]; subst.
  all: handlers; unfold constant; cbn; split_tests; reflexivity.
Qed.

(** ** The sequencer *)

Lemma main_entered_view a b :
  sequencer_view a = sequencer_view b -> main_entered b -> main_entered a.
Proof.
  unfold sequencer_view. intros H. injection H as H1 H2 H3 H4 H5.
  unfold main_entered, left_thumbnail, ad_put_away. now rewrite H1, H2, H3, H4, H5.
Qed.

Lemma left_thumbnail_view a b :
  sequencer_view a = sequencer_view b -> left_thumbnail b -> left_thumbnail a.
Proof.
  unfold sequencer_view. intros H. injection H as H1 H2 H3 H4 H5.
  unfold left_thumbnail. now rewrite H1, H2.
Qed.

Lemma main_entered_skipToMainVideo s : left_thumbnail s -> main_entered (skipToMainVideo s).
Proof.
  intros [H1 H2]. unfold main_entered, left_thumbnail, ad_put_away, is_hidden, skipToMainVideo.
  cbn. cls. repeat split; assumption.
Qed.

Lemma left_thumbnail_playButton s : left_thumbnail (on_playButton_click s).
Proof.
  unfold left_thumbnail, is_hidden, on_playButton_click. cbn. cls. split; reflexivity.
Qed.

(** Nothing ever shows the play overlay or the thumbnail again. *)
Lemma left_thumbnail_dispatch ev s : left_thumbnail s -> left_thumbnail (dispatch ev s).
Proof.
  intros L. destruct (sequencer_frame ev s) as [H|[H|[H|[e ->]]]].
  - now apply (left_thumbnail_view _ _ H).
  - apply (left_thumbnail_view _ _ H). now apply main_entered_skipToMainVideo.
  - now apply (left_thumbnail_view _ _ H).
  - cbn [dispatch click]. unfold bubble.
    apply (left_thumbnail_view _ (fire (playButton, "click") on_playButton_click s)).
    + apply keeps_fire. apply keeps_sequencer_document_click.
    + unfold fire. destruct (registered _ s); [apply left_thumbnail_playButton | exact L].
Qed.

Lemma left_thumbnail_run evs s : left_thumbnail s -> left_thumbnail (run evs s).
Proof.
  revert s. induction evs as [|ev evs IH]; intros s H; [exact H|].
  cbn [run fold_left]. apply IH. now apply left_thumbnail_dispatch.
Qed.

Lemma main_entered_dispatch ev s :
  main_entered s -> deliverable ev s = true -> main_entered (dispatch ev s).
Proof.
  intros M D. destruct (sequencer_frame ev s) as [H|[H|[H|[e ->]]]].
  - now apply (main_entered_view _ _ H).
  - apply (main_entered_view _ _ H). apply main_entered_skipToMainVideo. apply M.
  - apply (main_entered_view _ _ H).
    destruct M as (L & A & B & _). repeat split; try assumption; apply L.
  - (* the play button sits in the overlay, which is no longer displayed *)
    destruct M as [[O _] _]. cbn in D. rewrite O in D. discriminate D.
Qed.

Lemma main_entered_run evs s :
  main_entered s -> deliverable_run evs s = true -> main_entered (run evs s).
Proof.
  revert s. induction evs as [|ev evs IH]; intros s M D; [exact M|].
  cbn [deliverable_run] in D. apply andb_true_iff in D as [D1 D2].
  cbn [run fold_left]. apply IH; [now apply main_entered_dispatch | exact D2].
Qed.

Lemma main_entered_stage s : main_entered s -> stage s = Main.
Proof. intros (_ & _ & H & _). unfold stage. now rewrite H. Qed.

(** No handler issues a playback command to the thumbnail. *)
Lemma thumbnail_paused_dispatch ev s :
  paused (thumbnailVideo (dispatch ev s)) = paused (thumbnailVideo s).
Proof.
  destruct (sequencer_frame ev s) as [H|[H|[H|[e ->]]]].
  1-3: unfold sequencer_view in H; injection H as _ H _ _ _; now rewrite H.
  cbn [dispatch click]. unfold bubble.
  transitivity (paused (thumbnailVideo (fire (playButton, "click") on_playButton_click s))).
  - apply (keeps_fire (fun p => paused (thumbnailVideo p))). solve_keeps.
  - unfold fire. destruct (registered _ s); reflexivity.
Qed.

Lemma thumbnail_paused_run evs s :
  paused (thumbnailVideo (run evs s)) = paused (thumbnailVideo s).
Proof.
  revert s. induction evs as [|ev evs IH]; intros s; [reflexivity|].
  cbn [run fold_left]. rewrite IH. apply thumbnail_paused_dispatch.
Qed.

(** ** Handlers one by one *)

Lemma skipToMainVideo_idem s : skipToMainVideo (skipToMainVideo s) = skipToMainVideo s.
Proof.
  unfold skipToMainVideo. cbn. rewrite !cl_add_idem, !cl_remove_idem. reflexivity.
Qed.

Lemma skipToMainVideo_after_document_click inside s :
  skipToMainVideo (on_document_click inside (skipToMainVideo s))
  = on_document_click inside (skipToMainVideo s).
Proof.
  unfold on_document_click.
  change (isSettingsOpen (skipToMainVideo s)) with (isSettingsOpen s).
  destruct (isSettingsOpen s && negb inside).
  - unfold skipToMainVideo. cbn. rewrite !cl_add_idem, !cl_remove_idem. reflexivity.
  - apply skipToMainVideo_idem.
Qed.

Lemma on_ad_timeupdate_before s :
  Js.ge (Js.floor (currentTime (adVideo s))) (Config.skipAfter (Config.adVideo (config s))) = false ->
  skipButton (on_ad_timeupdate s) = skipButton s
  /\ skipCountdown (on_ad_timeupdate s) = skipCountdown s
  /\ textContent (skipTimer (on_ad_timeupdate s))
     = num (Js.sub (Config.skipAfter (Config.adVideo (config s)))
                   (Js.floor (currentTime (adVideo s)))).
Proof.
  intros H. unfold on_ad_timeupdate. destruct s. cbn in *. rewrite H. cbn. repeat split.
Qed.



Lemma dispatch_ad_timeupdate ct s :
  registered (adVideoT, "timeupdate") s = true ->
  dispatch (AdVideo (timeupdate ct)) s = on_ad_timeupdate (ad_at ct s).
Proof.
  intros R. cbn [dispatch ad_event]. unfold fire.
  change (registered (adVideoT, "timeupdate") (s <| adVideo ::= at_position ct |>))
    with (registered (adVideoT, "timeupdate") s).
  now rewrite R.
Qed.

(** Below the threshold the button and the countdown element are left as
    they are, and the countdown shows what is left. *)
Lemma ad_timeupdate_below s ct :
  registered (adVideoT, "timeupdate") s = true ->
  Js.ge (Js.floor (currentTime (adVideo (ad_at ct s)))) (Config.skipAfter (Config.adVideo (config s)))
  = false ->
  skipButton (dispatch (AdVideo (timeupdate ct)) s) = skipButton s
  /\ skipCountdown (dispatch (AdVideo (timeupdate ct)) s) = skipCountdown s
  /\ textContent (skipTimer (dispatch (AdVideo (timeupdate ct)) s))
     = num (Js.sub (Config.skipAfter (Config.adVideo (config s)))
              (Js.floor (currentTime (adVideo (ad_at ct s)))))
  /\ adVideo (dispatch (AdVideo (timeupdate ct)) s) = adVideo (ad_at ct s).
Proof.
  intros R L. rewrite (dispatch_ad_timeupdate ct s R).
  destruct (on_ad_timeupdate_before (ad_at ct s) L) as (B & C & X).
  split; [exact B|]. split; [exact C|]. split; [exact X|].
  unfold on_ad_timeupdate. cbv zeta.
  match goal with |- context [if ?b then _ else _] => destruct b end; reflexivity.
Qed.

Lemma on_main_timeupdate_mainVideo s : mainVideo (on_main_timeupdate s) = mainVideo s.
Proof. reflexivity. Qed.

Lemma dispatch_main_timeupdate t s :
  registered (mainVideoT, "timeupdate") s = true ->
  dispatch (MainVideo (timeupdate t)) s
  = on_main_timeupdate (s <| mainVideo ::= at_position t |>).
Proof.
  intros R. cbn [dispatch main_event]. unfold fire.
  change (registered (mainVideoT, "timeupdate") (s <| mainVideo ::= at_position t |>))
    with (registered (mainVideoT, "timeupdate") s).
  now rewrite R.
Qed.

Lemma on_playButton_click_spec s :
  is_hidden (node (thumbnailVideo (on_playButton_click s))) = true
  /\ is_hidden (node (adVideo (on_playButton_click s))) = false
  /\ paused (adVideo (on_playButton_click s)) = false
  /\ is_hidden (playOverlay (on_playButton_click s)) = true
  /\ mainVideo (on_playButton_click s) = mainVideo s
  /\ mainVideoControls (on_playButton_click s) = mainVideoControls s.
Proof.
  unfold on_playButton_click, is_hidden. destruct s. cbn. cls. repeat split.
Qed.

(** ** The timeline *)

Lemma Js_max_Fin a b : Js.max (Fin a) (Fin b) = Fin (Qmax a b).
Proof.
  unfold Js.max, Js.compare, Qmax, GenericMinMax.gmax. destruct (a ?= b)%Q; reflexivity.
Qed.

Lemma Js_min_Fin a b : Js.min (Fin a) (Fin b) = Fin (Qmin a b).
Proof.
  unfold Js.min, Js.compare, Qmin, GenericMinMax.gmin. destruct (a ?= b)%Q; reflexivity.
Qed.

Lemma Js_le_Fin a b : Js.le (Fin a) (Fin b) = true <-> (a <= b)%Q.
Proof.
  unfold Js.le, Js.compare. destruct (Qcompare_spec a b) as [E|L|G]; split; intros H;
    try reflexivity; try discriminate.
  - rewrite E. apply Qle_refl.
  - now apply Qlt_le_weak.
  - exfalso. apply (Qlt_not_le _ _ G H).
Qed.

Lemma Js_gt_Fin a b : Js.gt (Fin a) (Fin b) = true <-> (b < a)%Q.
Proof.
  unfold Js.gt, Js.compare. destruct (Qcompare_spec a b) as [E|L|G]; split; intros H;
    try reflexivity; try discriminate; try assumption.
  - exfalso. rewrite E in H. apply (Qlt_irrefl _ H).
  - exfalso. apply (Qlt_irrefl a). now apply Qlt_trans with b.
Qed.

Lemma strict_eq_Fin a b : Js.strict_eq (Fin a) (Fin b) = true <-> (a == b)%Q.
Proof.
  unfold Js.strict_eq, Js.compare. destruct (Qcompare_spec a b) as [E|L|G]; split; intros H;
    try reflexivity; try discriminate; try assumption.
  - exfalso. rewrite H in L. apply (Qlt_irrefl _ L).
  - exfalso. rewrite H in G. apply (Qlt_irrefl _ G).
Qed.

Lemma Js_lt_Fin a b : Js.lt (Fin a) (Fin b) = true <-> (a < b)%Q.
Proof.
  unfold Js.lt, Js.compare. destruct (Qcompare_spec a b) as [E|L|G]; split; intros H;
    try reflexivity; try discriminate; try assumption.
  - exfalso. rewrite E in H. apply (Qlt_irrefl _ H).
  - exfalso. apply (Qlt_irrefl a). now apply Qlt_trans with b.
Qed.

Lemma bindings_run evs s : bindings (run evs s) = bindings s.
Proof.
  revert s. induction evs as [|ev evs IH]; intros s; [reflexivity|].
  cbn [run fold_left]. rewrite IH. apply bindings_dispatch.
Qed.

Lemma registered_run l evs s : registered l (run evs s) = registered l s.
Proof.
  unfold registered.
  change (listeners (run evs s)) with (fst (bindings (run evs s))).
  now rewrite bindings_run.
Qed.

Lemma config_run evs s : config (run evs s) = config s.
Proof. exact (f_equal snd (bindings_run evs s)). Qed.

Lemma on_timeline_clamp x d : Js.is_nan d = false -> on_timeline x d = clamp x Js.zero d.
Proof. destruct d; try discriminate; reflexivity. Qed.

(** The start of the timeline is on it whatever the duration. *)
Lemma on_timeline_zero d : on_timeline Js.zero d = Js.zero.
Proof.
  destruct d as [| | |q]; try reflexivity.
  unfold on_timeline, Js.zero. rewrite Js_min_Fin, Js_max_Fin. f_equal.
  unfold Qmax, Qmin, GenericMinMax.gmax, GenericMinMax.gmin.
  destruct (0 ?= q)%Q eqn:E; try reflexivity.
  destruct (0 ?= q)%Q eqn:F; try reflexivity; discriminate.
Qed.

(** A seek ends at a finite position, within the duration once that is
    known to be positive. *)
Lemma on_timeline_in_range x d :
  Js.is_finite x = true ->
  exists q, on_timeline x d = Fin q
            /\ (Js.gt d Js.zero = true -> (0 <= q)%Q /\ Js.le (Fin q) d = true).
Proof.
  destruct x as [| | |x]; try discriminate. intros _.
  destruct d as [| | |d]; unfold on_timeline.
  - exists x. split; [reflexivity | discriminate].
  - change (Js.min (Fin x) PosInf) with (Fin x). unfold Js.zero. rewrite Js_max_Fin.
    exists (Qmax 0 x). split; [reflexivity|]. intros _. split; [apply Q.le_max_l | reflexivity].
  - change (Js.min (Fin x) NegInf) with NegInf. change (Js.max Js.zero NegInf) with (Fin 0).
    exists 0%Q. split; [reflexivity | discriminate].
  - unfold Js.zero. rewrite Js_min_Fin, Js_max_Fin.
    exists (Qmax 0 (Qmin x d)). split; [reflexivity|]. intros G.
    apply Js_gt_Fin in G. split; [apply Q.le_max_l|]. apply Js_le_Fin.
    apply Q.max_lub; [now apply Qlt_le_weak | apply Q.le_min_r].
Qed.




(** [adVideo.currentTime = 0] in [skipToMainVideo] is a seek to the start,
    which is on every timeline. *)
Lemma set_currentTime_zero v : set_currentTime Js.zero v = inr (v <| currentTime := Js.zero |>).
Proof. unfold set_currentTime. cbn [Js.is_finite Js.zero]. now rewrite on_timeline_zero. Qed.

Lemma set_currentTime_finite q v :
  set_currentTime (Fin q) v = inr (v <| currentTime := on_timeline (Fin q) (duration v) |>).
Proof. reflexivity. Qed.






(** [ArrowLeft] and [ArrowRight] run the statements of the two buttons. *)
Lemma dispatch_arrow key s :
  registered (document, "keydown") s = true -> controls_displayed s = true ->
  dispatch (Keydown key) s = on_document_keydown key s
  /\ on_document_keydown "ArrowLeft" s = on_skipBackward_click s
  /\ on_document_keydown "ArrowRight" s = on_skipForward_click s.
Proof.
  intros R D. cbn [dispatch]. unfold fire. rewrite R. unfold on_document_keydown.
  unfold controls_displayed in D. apply negb_true_iff in D. rewrite D. repeat split.
Qed.

(** Repeating a seek that leaves the position where it is. *)
Lemma iter_stays (h : Player -> Player) (Inv : Player -> Prop) (target : number) :
  (forall p, Inv p -> Inv (h p)) ->
  (forall p, Inv p -> currentTime (mainVideo p) =n= target ->
             currentTime (mainVideo (h p)) =n= target) ->
  forall n p, Inv p -> currentTime (mainVideo p) =n= target ->
              Inv (Nat.iter n h p) /\ currentTime (mainVideo (Nat.iter n h p)) =n= target.
Proof.
  intros HI H n. induction n as [|n IH]; intros p Hp Ht; [now split|].
  cbn [Nat.iter]. destruct (IH p Hp Ht) as [I1 I2]. split; [now apply HI | now apply H].
Qed.

(** Where an event can take the position of the main video. *)
Lemma position_step_backward s : position_step s (on_skipBackward_click s).
Proof.
  unfold position_step, position_view, on_skipBackward_click, set_currentTime.
  match goal with |- context [if ?b then _ else _] => destruct b eqn:F end.
  - right. left. eexists. split; [exact F|]. rewrite mainVideo_showControls. reflexivity.
  - left. reflexivity.
Qed.

Lemma position_step_forward s : position_step s (on_skipForward_click s).
Proof.
  unfold position_step, position_view, on_skipForward_click, set_currentTime.
  match goal with |- context [if ?b then _ else _] => destruct b eqn:F end.
  - right. left. eexists. split; [exact F|]. rewrite mainVideo_showControls. reflexivity.
  - left. reflexivity.
Qed.

Lemma position_step_progress x l w s : position_step s (on_progressBar_click x l w s).
Proof.
  unfold position_step, position_view, on_progressBar_click, set_currentTime. cbv zeta.
  match goal with |- context [if ?b then _ else _] => destruct b eqn:F end.
  - right. left. eexists. split; [exact F | reflexivity].
  - left. reflexivity.
Qed.

Lemma position_step_bubble inside s s' : position_step s s' -> position_step s (bubble inside s').
Proof.
  unfold position_step, bubble.
  rewrite (keeps_fire position_view _ (on_document_click inside)) by solve_keeps. trivial.
Qed.

Lemma position_step_fire l h s : position_step s (h s) -> position_step s (fire l h s).
Proof. intros H. unfold fire. destruct (registered l s); [exact H | left; reflexivity]. Qed.

Lemma position_step_keydown key s : position_step s (on_document_keydown key s).
Proof.
  unfold on_document_keydown.
  destruct (is_hidden (mainVideoControls s)); [left; reflexivity|].
  destruct ((key =? " ") || (key =? "k")).
  { left. unfold togglePlayPause. destruct (paused (mainVideo s)); reflexivity. }
  destruct (key =? "ArrowLeft"); [apply position_step_backward|].
  destruct (key =? "ArrowRight"); [apply position_step_forward|].
  destruct (key =? "ArrowUp"); [left; reflexivity|].
  destruct (key =? "ArrowDown"); [left; reflexivity|].
  destruct (key =? "f").
  { cbn [click]. apply position_step_bubble, position_step_fire. left. reflexivity. }
  destruct (key =? "m").
  { cbn [click]. apply position_step_bubble, position_step_fire. left.
    unfold on_volumeBtn_click. branch; reflexivity. }
  left. reflexivity.
Qed.

Lemma position_frame ev s : position_step s (dispatch ev s).
Proof.
  destruct ev as [t e|t k|v|key|a|n|n|m|i|m];
    try destruct t; try destruct k; try destruct n; try destruct m.
  all: try (left; peel position_view; fail).
  all: try (left; peel position_view; handlers; branch; reflexivity).
  all: cbn [dispatch click main_event call].
  - apply position_step_fire, position_step_backward.
  - apply position_step_fire, position_step_forward.
  - apply position_step_bubble, position_step_fire, position_step_progress.
  - apply position_step_fire, position_step_keydown.
  - (* the metadata of the main video *)
    right. right. exists d. unfold fire.
    match goal with |- context [if ?b then _ else _] => destruct b end; reflexivity.
  - (* a position update of the main video *)
    unfold fire, at_position.
    match goal with |- context [if ?b then _ else _] => destruct b end;
      destruct (Js.is_finite t) eqn:F;
      first [ left; reflexivity | right; left; exists t; split; [exact F | reflexivity] ].
  - (* seekTo *)
    unfold seekTo, set_currentTime. destruct (Js.is_finite seconds) eqn:F.
    + right. left. exists seconds. split; [exact F | reflexivity].
    + left. reflexivity.
Qed.

Lemma on_the_timeline_step s s' : position_step s s' -> on_the_timeline s -> on_the_timeline s'.
Proof.
  unfold position_step, position_view, on_the_timeline.
  intros [E|[(x & F & E)|(d & E)]] (q & Hq & Hr); injection E as -> ->.
  - exists q. split; assumption.
  - apply (on_timeline_in_range x _ F).
  - rewrite Hq. apply on_timeline_in_range. reflexivity.
Qed.

Lemma on_the_timeline_run evs s : on_the_timeline s -> on_the_timeline (run evs s).
Proof.
  revert s. induction evs as [|ev evs IH]; intros s H; [exact H|].
  cbn [run fold_left]. apply IH. apply (on_the_timeline_step s); [apply position_frame | exact H].
Qed.

(** ** Progress and the skip button *)

Lemma on_the_timeline_new ids c p : new_VideoPlayer ids (Some c) = inr p -> on_the_timeline p.
Proof.
  unfold new_VideoPlayer, init. destruct (Input.wrapperId c) as [w|]; [|discriminate].
  destruct (nonempty w); [|discriminate].
  cbn [Config.wrapperId defaults].
  destruct (existsb (String.eqb w) ids); [|discriminate].
  intros H. injection H as <-. unfold setVideoSources. cbv zeta.
  match goal with |- context [if ?b then _ else _] => destruct b end.
  all: exists 0%Q; split; [reflexivity | discriminate].
Qed.

(** What the handler computes is kept by the style system exactly when the
    duration is known and not zero. *)
Lemma percent_dropped pos d :
  Js.is_nan d = true \/ Js.strict_eq d Js.zero = true ->
  Js.is_finite (Js.mul (Js.div pos d) hundred) = false.
Proof.
  intros [N|Z].
  - destruct d; try discriminate. destruct pos; reflexivity.
  - destruct d as [| | |d]; try discriminate.
    unfold Js.strict_eq, Js.zero, Js.compare in Z.
    destruct (Qcompare_spec d 0) as [E|L|G]; try discriminate.
    destruct pos as [| | |p]; try reflexivity.
    + unfold Js.div, Js.Qsign. apply Qeq_alt in E. rewrite E. reflexivity.
    + unfold Js.div, Js.Qsign. apply Qeq_alt in E. rewrite E. reflexivity.
    + unfold Js.div, Js.Qsign. apply Qeq_alt in E. rewrite E.
      destruct (p ?= 0)%Q; reflexivity.
Qed.

Lemma css_percentage_finite b p : Js.is_finite p = false -> css_percentage b p = false.
Proof. destruct p; try discriminate; reflexivity. Qed.

Lemma percent_kept q d :
  (0 <= q)%Q -> Js.gt d Js.zero = true -> Js.le (Fin q) d = true ->
  css_percentage false (Js.mul (Js.div (Fin q) d) hundred) = true
  /\ css_percentage true (Js.mul (Js.div (Fin q) d) hundred) = true.
Proof.
  intros Hq Hd Hle. destruct d as [| | |d]; try discriminate.
  - split; reflexivity.
  - apply Js_gt_Fin in Hd.
    assert (S : Js.div (Fin q) (Fin d) = Fin (q / d)).
    { unfold Js.div, Js.Qsign. apply Qgt_alt in Hd. now rewrite Hd. }
    rewrite S. change (Js.mul (Fin (q / d)) hundred) with (Fin (q / d * inject_Z 100)).
    split; [|reflexivity]. cbn [css_percentage orb]. apply Qle_bool_iff.
    apply Qmult_le_0_compat; [|discriminate].
    apply Qle_shift_div_l; [exact Hd | now rewrite Qmult_0_l].
Qed.

Lemma skip_active_latched ev s :
  ev <> AdVideo play_ -> skip_active s = true -> skip_active (dispatch ev s) = true.
Proof.
  intros N A.
  destruct ev as [t e|t k|v|key|a|n|n|m|i|m];
    try destruct t; try destruct k; try destruct n; try destruct m;
    try (exfalso; apply N; reflexivity).
  all: handlers; branch; try exact A.
  all: unfold skip_active, classes_add, classes_remove in *; cbn; cls; reflexivity.
Qed.

Lemma skip_active_run evs s :
  Forall (fun ev => ev <> AdVideo play_) evs -> skip_active s = true ->
  skip_active (run evs s) = true.
Proof.
  intros F. revert s. induction F as [|ev evs N F IH]; intros s A; [exact A|].
  cbn [run fold_left]. apply IH. now apply skip_active_latched.
Qed.


(** ** The model at work *)

(** [M:SS] without hours: 4503 s reads ["75:03"]. *)
Example formatTime_over_an_hour :
  formatTime (Fin 4503) = [Num (Fin 75); Lit ":"; Lit "0"; Num (Fin 3)].
Proof. reflexivity. Qed.

Example formatTime_unknown : formatTime NaN = [Num NaN; Lit ":"; Lit ""; Num NaN].
Proof. reflexivity. Qed.

Example parseFloat_speeds :
  map (fun o => parseFloat (data o)) initialSpeedOptions
  = [Fin 0.5; Fin 0.75; Fin 1; Fin 1.25; Fin 1.5; Fin 2].
Proof. reflexivity. Qed.

(** [setVolume] clamps: 1.5 is stored as 1 and -0.2 as 0; [NaN] throws. *)
Example setVolume_clamps :
  volume (mainVideo (dispatch (Call (m_setVolume (Fin 1.5))) sample_player)) = Fin 1
  /\ volume (mainVideo (dispatch (Call (m_setVolume (Fin (-0.2)))) sample_player)) = Fin 0
  /\ value (volumeSlider (dispatch (Call (m_setVolume (Fin 1.5))) sample_player)) = Fin (1 * 100)
  /\ setVolume NaN sample_player = inl TypeError.
Proof. repeat split. Qed.

(** While the duration is unknown the style system drops ["NaN%"] and the
    fill stays where it was; 30 s into 120 s it is at a quarter. *)
Example progress_fill :
  duration (mainVideo sample_player) = NaN
  /\ style_width (progressBar sample_player) = lit "0%"
  /\ style_width (progressBar (dispatch (MainVideo (timeupdate (Fin 3))) sample_player))
     = lit "0%"
  /\ style_width
       (progressBar
          (run [MainVideo (loadedmetadata (Fin 120)); MainVideo (timeupdate (Fin 30))]
             sample_player))
     = [Num (Fin (30 / 120 * 100)); Lit "%"]
  /\ textContent (currentTimeEl (dispatch (MainVideo (timeupdate (Fin 3))) sample_player))
     = formatTime (Fin 3).
Proof. vm_compute. repeat split. Qed.

(** A seek ends on the timeline: beyond the end it ends at the end, before
    the start at the start; the metadata brings a start position asked for
    earlier onto the timeline. *)
Example seeks :
  currentTime (mainVideo (dispatch (Call (m_seekTo (Fin 100))) seeking_player)) = Fin 60
  /\ currentTime (mainVideo (dispatch (Call (m_seekTo (Fin (-3)))) seeking_player)) = Fin 0
  /\ currentTime (mainVideo (dispatch (Call (m_seekTo (Fin 100))) sample_player)) = Fin 100
  /\ currentTime
       (mainVideo
          (run [Call (m_seekTo (Fin 100)); MainVideo (loadedmetadata (Fin 60))] sample_player))
     = Fin 60.
Proof. vm_compute. repeat split. Qed.

(** With [skipAfter: 5], updates at 0, 1, ..., 4 leave the skip button
    inert and the one at 5 activates it. *)
Example skip_after_five :
  map (fun n => skip_active
                  (run (map (fun k => AdVideo (timeupdate (Js.of_Z (Z.of_nat k)))) (seq 0 (S n)))
                     (run [Click playButton at_origin; AdVideo play_] sample_player)))
      (seq 0 6)
  = [false; false; false; false; false; true].
Proof. vm_compute. reflexivity. Qed.

(** The ad ends: the main stage is displayed, the ad is rewound and hidden. *)
Example ad_ended :
  let s := run [Click playButton at_origin; AdVideo play_; AdVideo (timeupdate (Fin 12));
                AdVideo ended] sample_player in
  stage s = Main /\ currentTime (adVideo s) = Fin 0 /\ is_hidden (node (adVideo s)) = true.
Proof. vm_compute. repeat split. Qed.

(** Playback starts, the timer expires and the controls fade; the pointer
    moves, they come back and a new timer is armed. *)
Example hide_and_show :
  let playing := run [Click playButton at_origin; AdVideo ended; MainVideo play_] sample_player in
  let faded := dispatch (Expire 1) playing in
  let moved := dispatch (Mouse videoContainer mousemove) faded in
  style_opacity (bottomControls playing) = "1"
  /\ timers playing = [(1%nat, Js.of_Z 3000)]
  /\ style_opacity (bottomControls faded) = "0"
  /\ timers faded = []
  /\ style_opacity (bottomControls moved) = "1"
  /\ timers moved = [(2%nat, Js.of_Z 3000)].
Proof. vm_compute. repeat split. Qed.

(** The constructor fails without a wrapper id and without the wrapper. *)
Example construction_errors :
  new_VideoPlayer ["video-wrapper"] None = inl requires_wrapperId
  /\ new_VideoPlayer [] (Some (sample_input None)) = inl (wrapper_not_found "video-wrapper").
Proof. split; reflexivity. Qed.

(** * The claims *)

(** ** C1: position updates of the main video *)

(** C1: on a player built by the constructor, after any sequence of
    events, a position update of the main video leaves the fill of the
    progress bar and the offset of the handle as they are while the
    duration is unknown or zero: the handler has no test of its own, but
    what it hands to the two style properties is then ["NaN%"] or
    ["Infinity%"], which the style system drops.  With a duration above
    zero both show [clamp(position / duration, 0, 1) * 100] percent, the
    position of a media element being within its duration. *)
Theorem timeupdate_percent ids c p evs (t : number) :
  new_VideoPlayer ids (Some c) = inr p ->
  progress_guarded (run evs p) t.
Proof.
  intros H.
  assert (R : registered (mainVideoT, "timeupdate") (run evs p) = true).
  { rewrite registered_run. now rewrite (registered_new _ _ _ _ H). }
  pose proof (on_the_timeline_run evs p (on_the_timeline_new _ _ _ H)) as T.
  pose proof (on_the_timeline_step _ _ (position_frame (MainVideo (timeupdate t)) (run evs p)) T)
    as (q & Hq & Hr).
  set (s := run evs p) in *. unfold progress_guarded. cbv zeta.
  set (s' := dispatch (MainVideo (timeupdate t)) s) in *.
  assert (E : s' = on_main_timeupdate (s <| mainVideo ::= at_position t |>))
    by (apply dispatch_main_timeupdate; exact R).
  assert (M : mainVideo s' = at_position t (mainVideo s)) by (rewrite E; reflexivity).
  assert (W : forall pc, pc = Js.mul (Js.div (currentTime (mainVideo s')) (duration (mainVideo s')))
                                hundred ->
               style_width (progressBar s')
               = (if css_percentage false pc then [Num pc; Lit "%"] else style_width (progressBar s))
               /\ style_left (progressHandle s')
                  = (if css_percentage true pc then [Num pc; Lit "%"]
                     else style_left (progressHandle s))).
  { intros pc ->. rewrite M, E. unfold on_main_timeupdate, set_style_width, set_style_left.
    cbv zeta.
    change (currentTime (mainVideo (s <| mainVideo ::= at_position t |>)))
      with (currentTime (at_position t (mainVideo s))).
    change (duration (mainVideo (s <| mainVideo ::= at_position t |>)))
      with (duration (at_position t (mainVideo s))).
    split.
    - destruct (css_percentage false _); reflexivity.
    - destruct (css_percentage true _); reflexivity. }
  destruct (W _ eq_refl) as [W1 W2]. split.
  - intros D. pose proof (percent_dropped (currentTime (mainVideo s')) _ D) as F.
    rewrite W1, W2, !(css_percentage_finite _ _ F). split; reflexivity.
  - intros G. rewrite Hq in W1, W2 |- *. destruct (Hr G) as [Q0 Qd].
    destruct (percent_kept q _ Q0 G Qd) as [K1 K2]. rewrite K1 in W1. rewrite K2 in W2.
    eexists. split; [exact W1|]. split; [exact W2|].
    apply percent_in_range; try assumption.
    destruct (duration (mainVideo s')) as [| | |d]; try discriminate; [reflexivity|].
    apply Js_lt_Fin. now apply Js_gt_Fin in G.
Qed.

Lemma timeupdate_percent_witness :
  progress_guarded
    (run [Click playButton at_origin; AdVideo ended; MainVideo (loadedmetadata (Fin 120))]
       sample_player)
    (Fin 30)
  /\ progress_guarded sample_player (Fin 3).
Proof.
  split.
  - apply (timeupdate_percent ["video-wrapper"]
             (sample_input (Some (sample_ad (Some "ad.mp4") (Some (Js.of_Z 5)))))
             sample_player
             [Click playButton at_origin; AdVideo ended; MainVideo (loadedmetadata (Fin 120))]).
    reflexivity.
  - apply (timeupdate_percent ["video-wrapper"]
             (sample_input (Some (sample_ad (Some "ad.mp4") (Some (Js.of_Z 5)))))
             sample_player []).
    reflexivity.
Defined.

(** ** C2: the play affordance without an ad source *)

(** C2, as stated, fails: with no ad source configured, the play button
    still hides the thumbnail, shows the ad element and plays it; the main
    video stays hidden and paused. *)
Lemma start_without_ad_starts_ad_stage :
  ~ start_skips_absent_ad no_ad_player
  /\ Config.ad_url (Config.adVideo (config no_ad_player)) = ""
  /\ source_src (adVideo no_ad_player) = ""
  /\ loaded (adVideo no_ad_player) = false
  /\ stage no_ad_player = Thumbnail
  /\ stage (dispatch (Click playButton at_origin) no_ad_player) = Ad
  /\ paused (adVideo (dispatch (Click playButton at_origin) no_ad_player)) = false
  /\ is_hidden (node (mainVideo (dispatch (Click playButton at_origin) no_ad_player))) = true
  /\ paused (mainVideo (dispatch (Click playButton at_origin) no_ad_player)) = true.
Proof.
  split.
  - intros H. destruct (H eq_refl) as (A & _). vm_compute in A. discriminate A.
  - vm_compute. repeat split.
Qed.

(** C2, amended: whatever the configured ad source, the play button hides
    the thumbnail and the play overlay, shows the ad element and plays it,
    and leaves the main video and its controls as they were. *)
Theorem start_begins_ad_stage (s : Player) :
  registered (playButton, "click") s = true ->
  let s' := dispatch (Click playButton at_origin) s in
  is_hidden (node (thumbnailVideo s')) = true
  /\ is_hidden (node (adVideo s')) = false
  /\ paused (adVideo s') = false
  /\ is_hidden (playOverlay s') = true
  /\ mainVideo s' = mainVideo s
  /\ mainVideoControls s' = mainVideoControls s
  /\ (is_hidden (node (mainVideo s)) = true -> stage s' = Ad).
Proof.
  intros R s'. subst s'. cbn [dispatch click]. unfold bubble, fire. rewrite R.
  change (registered (document, "click") (on_playButton_click s))
    with (registered (document, "click") s).
  destruct (on_playButton_click_spec s) as (A & B & C & D & E & F).
  assert (G : forall inside,
             let p := on_document_click inside (on_playButton_click s) in
             thumbnailVideo p = thumbnailVideo (on_playButton_click s)
             /\ adVideo p = adVideo (on_playButton_click s)
             /\ playOverlay p = playOverlay (on_playButton_click s)
             /\ mainVideo p = mainVideo (on_playButton_click s)
             /\ mainVideoControls p = mainVideoControls (on_playButton_click s)).
  { intros inside. unfold on_document_click.
    destruct (isSettingsOpen (on_playButton_click s) && negb inside); cbn; repeat split. }
  destruct (registered (document, "click") s).
  - destruct (G false) as (G1 & G2 & G3 & G4 & G5).
    unfold stage. rewrite G1, G2, G3, G4, G5, E. repeat split; try assumption.
    intros H. rewrite H, B. reflexivity.
  - unfold stage. rewrite E. repeat split; try assumption.
    intros H. rewrite H, B. reflexivity.
Qed.

Lemma start_begins_ad_stage_witness :
  stage (dispatch (Click playButton at_origin) no_ad_player) = Ad.
Proof.
  apply (start_begins_ad_stage no_ad_player); reflexivity.
Defined.

(** ** C3: no way back from the main stage *)

(** C3, as stated, fails: the program keeps no stage and guards neither
    handler.  The skip button lies in the ad overlay, which is displayed
    from the start, so it can be reached with the keyboard before the play
    button was used; Main is then entered with the play overlay still
    displayed, and the play button shows the ad and plays it. *)
Lemma skip_before_start_returns_to_ad :
  ~ one_way sample_player skip_first [Click playButton at_origin]
  /\ deliverable_run (skip_first ++ [Click playButton at_origin]) sample_player = true
  /\ stage sample_player = Thumbnail
  /\ stage (run skip_first sample_player) = Main
  /\ is_hidden (playOverlay (run skip_first sample_player)) = false
  /\ is_hidden (node (adVideo (run (skip_first ++ [Click playButton at_origin]) sample_player)))
     = false
  /\ paused (adVideo (run (skip_first ++ [Click playButton at_origin]) sample_player)) = false.
Proof.
  split.
  - intros H. destruct (H eq_refl eq_refl) as (A & _). vm_compute in A. discriminate A.
  - vm_compute. repeat split.
Qed.

(** C3, amended: once the play affordance has been used (overlay and
    thumbnail hidden) and Main has been entered through [skipToMainVideo],
    no sequence of events delivered to displayed elements leaves the main
    stage: the ad and the thumbnail stay hidden, the ad stays paused and
    the thumbnail is never played. *)
Theorem main_stage_is_final (s0 : Player) (during after : list Event) :
  is_hidden (playOverlay s0) = true ->
  is_hidden (node (thumbnailVideo s0)) = true ->
  deliverable_run after (skipToMainVideo (run during s0)) = true ->
  let s := run after (skipToMainVideo (run during s0)) in
  stage s = Main
  /\ is_hidden (node (adVideo s)) = true
  /\ paused (adVideo s) = true
  /\ is_hidden (node (thumbnailVideo s)) = true
  /\ paused (thumbnailVideo s) = paused (thumbnailVideo s0)
  /\ is_hidden (playOverlay s) = true.
Proof.
  intros Ho Ht D s.
  assert (M : main_entered (skipToMainVideo (run during s0))).
  { apply main_entered_skipToMainVideo. apply left_thumbnail_run. now split. }
  pose proof (main_entered_run after _ M D) as K. fold s in K.
  pose proof (main_entered_stage s K) as St.
  destruct K as ((O & T) & A & _ & P). repeat split; try assumption.
  subst s. rewrite thumbnail_paused_run.
  change (paused (thumbnailVideo (skipToMainVideo (run during s0))))
    with (paused (thumbnailVideo (run during s0))).
  apply thumbnail_paused_run.
Qed.

Lemma main_stage_is_final_witness :
  stage
    (run [MainVideo play_; Keydown " "; Click mainVideoT at_origin; AdVideo ended;
          Mouse videoContainer mousemove; Expire 1]
       (skipToMainVideo
          (run [AdVideo play_; AdVideo (timeupdate (Fin 5))]
             (dispatch (Click playButton at_origin) sample_player))))
  = Main.
Proof.
  apply (main_stage_is_final (dispatch (Click playButton at_origin) sample_player)
           [AdVideo play_; AdVideo (timeupdate (Fin 5))]
           [MainVideo play_; Keydown " "; Click mainVideoT at_origin; AdVideo ended;
            Mouse videoContainer mousemove; Expire 1]); reflexivity.
Defined.

(** ** C4: the hide timer *)

(** C4 at the failing input: the main video plays and the timer is armed;
    the settings button is activated from the keyboard, so no [mouseenter]
    has cancelled the timer and the click handler does not cancel it
    either; the timer then expires with the menu open and fades every
    control out, the settings container included. *)
Theorem timer_fires_with_settings_open :
  deliverable_run (before_expiry ++ [Expire 1]) sample_player = true
  /\ stage (run before_expiry sample_player) = Main
  /\ paused (mainVideo (run before_expiry sample_player)) = false
  /\ isSettingsOpen (run before_expiry sample_player) = true
  /\ is_hidden (settingsMenu (run before_expiry sample_player)) = false
  /\ timers (run before_expiry sample_player) = [(1%nat, Js.of_Z 3000)]
  /\ style_opacity (settingsContainer (run before_expiry sample_player)) = "1"
  /\ isSettingsOpen (run (before_expiry ++ [Expire 1]) sample_player) = true
  /\ style_opacity (settingsContainer (run (before_expiry ++ [Expire 1]) sample_player)) = "0"
  /\ style_opacity (bottomControls (run (before_expiry ++ [Expire 1]) sample_player)) = "0".
Proof. vm_compute. repeat split. Qed.

(** What does hold of the timer, for every player and every sequence of
    events: at most one timer is pending, none is pending while the pointer
    is over the control surface, the pause notification cancels it, and
    [showControls] arms none while paused, while the menu is open or while
    the pointer is over the controls. *)
Lemma timer_discipline_everywhere ids c p evs :
  new_VideoPlayer ids (Some c) = inr p ->
  let s := run evs p in
  single_timer s
  /\ (isUserInteracting s = true -> timers s = [])
  /\ timers (on_main_pause s) = []
  /\ (paused (mainVideo s) = true \/ isSettingsOpen s = true \/ isUserInteracting s = true ->
      timers (showControls s) = []).
Proof.
  intros H s.
  destruct (new_VideoPlayer_inv _ _ _ H) as (_ & _ & _ & _ & _ & I).
  pose proof (timer_discipline_run evs p I) as J. fold s in J.
  split; [apply J|]. split; [apply J|]. split.
  - now apply on_main_pause_cancels.
  - now apply showControls_suppressed.
Qed.

(** ** C5: the skip threshold *)




(** ** C6: entering the main stage twice *)

(** C6: [skipToMainVideo] run twice gives the state it gives run once, and
    so do its two triggers, the ad's [ended] notification and a click on
    the skip button followed by a late [ended]; in that state the ad is
    paused at position zero and hidden with its overlay, and the main video
    and its controls are displayed, the video playing. *)
Theorem skipToMainVideo_idempotent (s : Player) :
  skipToMainVideo (skipToMainVideo s) = skipToMainVideo s
  /\ dispatch (AdVideo ended) (dispatch (AdVideo ended) s) = dispatch (AdVideo ended) s
  /\ (registered (skipButtonT, "click") s = true ->
      dispatch (AdVideo ended) (dispatch (Click skipButtonT at_origin) s)
      = dispatch (Click skipButtonT at_origin) s)
  /\ paused (adVideo (skipToMainVideo s)) = true
  /\ currentTime (adVideo (skipToMainVideo s)) = Js.zero
  /\ is_hidden (node (adVideo (skipToMainVideo s))) = true
  /\ is_hidden (adOverlay (skipToMainVideo s)) = true
  /\ is_hidden (node (mainVideo (skipToMainVideo s))) = false
  /\ is_hidden (mainVideoControls (skipToMainVideo s)) = false
  /\ paused (mainVideo (skipToMainVideo s)) = false.
Proof.
  split; [apply skipToMainVideo_idem|].
  split.
  { cbn. unfold fire. destruct (registered (adVideoT, "ended") s) eqn:R.
    - change (registered (adVideoT, "ended") (skipToMainVideo s))
        with (registered (adVideoT, "ended") s).
      rewrite R. apply skipToMainVideo_idem.
    - rewrite R. reflexivity. }
  split.
  { intros R1.
    pose proof (registered_dispatch (adVideoT, "ended") (Click skipButtonT at_origin) s) as E.
    set (s1 := dispatch (Click skipButtonT at_origin) s) in *.
    change (dispatch (AdVideo ended) s1) with (fire (adVideoT, "ended") skipToMainVideo s1).
    unfold fire at 1. rewrite E.
    destruct (registered (adVideoT, "ended") s); [|reflexivity].
    subst s1. cbn [dispatch click]. unfold bubble, fire. rewrite R1.
    change (registered (document, "click") (skipToMainVideo s))
      with (registered (document, "click") s).
    destruct (registered (document, "click") s).
    - apply skipToMainVideo_after_document_click.
    - apply skipToMainVideo_idem. }
  unfold is_hidden. repeat split; cbn; cls; reflexivity.
Qed.

Lemma skipToMainVideo_idempotent_witness :
  dispatch (AdVideo ended)
    (dispatch (Click skipButtonT at_origin) (dispatch (Click playButton at_origin) sample_player))
  = dispatch (Click skipButtonT at_origin) (dispatch (Click playButton at_origin) sample_player).
Proof.
  apply (skipToMainVideo_idempotent (dispatch (Click playButton at_origin) sample_player)).
  reflexivity.
Defined.

(** ** C7: seeking by the configured step *)




(** ** C8: [seekTo] *)

(** C8, as stated, fails for the target beyond every duration: with the
    video 55 s into its 60 s, [seekTo(Infinity)] throws [TypeError] and the
    position stays at 55, not at the duration; and [seekTo(-Infinity)]
    throws likewise and does not end at 0. *)
Lemma seekTo_out_of_range :
  ~ seekTo_clamped seeking_player PosInf
  /\ duration (mainVideo seeking_player) = Fin 60
  /\ currentTime (mainVideo seeking_player) = Fin 55
  /\ seekTo PosInf seeking_player = inl TypeError
  /\ currentTime (mainVideo (dispatch (Call (m_seekTo PosInf)) seeking_player)) = Fin 55
  /\ seekTo NegInf seeking_player = inl TypeError
  /\ currentTime (mainVideo (dispatch (Call (m_seekTo NegInf)) seeking_player)) = Fin 55.
Proof.
  split.
  - intros H. specialize (H 60%Q eq_refl). vm_compute in H.
    assert (E : 55%Z = 60%Z) by (apply H; discriminate). discriminate E.
  - vm_compute. repeat split.
Qed.

(** C8, amended: [seekTo] hands its argument to the media element without
    a test of its own.  A target that is not finite throws [TypeError] and
    leaves the player as it is.  A finite target is a seek: once the
    duration is known the position ends at [clamp(target, 0, duration)];
    while it is unknown the target is kept as it is, and is brought within
    the duration when the metadata arrives.  Nothing else changes. *)
Theorem seekTo_on_timeline (s : Player) (seconds : number) :
  (Js.is_finite seconds = false ->
   seekTo seconds s = inl TypeError /\ dispatch (Call (m_seekTo seconds)) s = s)
  /\ (Js.is_finite seconds = true ->
      let s' := dispatch (Call (m_seekTo seconds)) s in
      seekTo seconds s = inr s'
      /\ s' = s <| mainVideo -> currentTime := on_timeline seconds (duration (mainVideo s)) |>
      /\ (Js.is_nan (duration (mainVideo s)) = false ->
          currentTime (mainVideo s') = clamp seconds Js.zero (duration (mainVideo s)))
      /\ (duration (mainVideo s) = NaN ->
          currentTime (mainVideo s') = seconds
          /\ forall d, Js.is_nan d = false ->
                       currentTime (mainVideo (dispatch (MainVideo (loadedmetadata d)) s'))
                       = clamp seconds Js.zero d)).
Proof.
  split.
  - intros F. cbn [dispatch call]. unfold seekTo, set_currentTime. rewrite F. split; reflexivity.
  - intros F s'. subst s'. cbn [dispatch call]. unfold seekTo, set_currentTime. rewrite F.
    split; [reflexivity|]. split; [reflexivity|]. split.
    + intros N. apply on_timeline_clamp. exact N.
    + intros D. split; [cbn; rewrite D; reflexivity|].
      intros d N. cbn [main_event]. unfold fire.
      match goal with |- context [if ?b then _ else _] => destruct b end.
      all: change (currentTime (mainVideo _)) with (on_timeline (on_timeline seconds (duration (mainVideo s))) d).
      all: rewrite D; apply on_timeline_clamp; exact N.
Qed.

Lemma seekTo_on_timeline_witness :
  currentTime (mainVideo (dispatch (Call (m_seekTo (Fin 100))) seeking_player))
  = clamp (Fin 100) Js.zero (Fin 60)
  /\ currentTime (mainVideo (dispatch (Call (m_seekTo (Fin (-3)))) seeking_player))
     = clamp (Fin (-3)) Js.zero (Fin 60)
  /\ seekTo NaN seeking_player = inl TypeError.
Proof.
  destruct (seekTo_on_timeline seeking_player (Fin 100)) as (_ & A).
  destruct (seekTo_on_timeline seeking_player (Fin (-3))) as (_ & B).
  destruct (seekTo_on_timeline seeking_player NaN) as (C & _).
  destruct (A eq_refl) as (_ & _ & A3 & _). destruct (B eq_refl) as (_ & _ & B3 & _).
  destruct (C eq_refl) as (C1 & _).
  split; [exact (A3 eq_refl)|]. split; [exact (B3 eq_refl) | exact C1].
Defined.

(** ** C9: [destroy] *)




(** ** C10: a configured zero *)

(** C10: the defaults are taken with [||], so a configured [0] gives what
    an absent value gives: a [skipAfter] of zero is stored as 5 and an
    [autoHideControlsDelay] of zero as 3000; and with a [skipAfter] of zero
    the skip button of the new player is still inert at the first position
    update of the ad. *)
Theorem zero_is_default (c : Input.t) (w : string) :
  (forall ad q,
      Input.adVideo c = Some ad -> Input.skipAfter ad = Some (Fin q) -> (q == 0)%Q ->
      Config.skipAfter (Config.adVideo (defaults c w)) = Js.of_Z 5)
  /\ (forall q,
         Input.autoHideControlsDelay c = Some (Fin q) -> (q == 0)%Q ->
         Config.autoHideControlsDelay (defaults c w) = Js.of_Z 3000)
  /\ (forall ids p ad q,
         new_VideoPlayer ids (Some c) = inr p ->
         Input.adVideo c = Some ad -> Input.skipAfter ad = Some (Fin q) -> (q == 0)%Q ->
         Config.skipAfter (Config.adVideo (config p)) = Js.of_Z 5
         /\ skip_inert (dispatch (AdVideo (timeupdate Js.zero)) p) = true).
Proof.
  assert (A : forall w' ad q,
             Input.adVideo c = Some ad -> Input.skipAfter ad = Some (Fin q) -> (q == 0)%Q ->
             Config.skipAfter (Config.adVideo (defaults c w')) = Js.of_Z 5).
  { intros w' ad q Ha Hs Hq. unfold defaults. cbn. rewrite Ha. cbn. rewrite Hs.
    unfold or_else. now rewrite (Js_zero_falsy q Hq). }
  split; [apply A|]. split.
  - intros q Hd Hq. unfold defaults. cbn. rewrite Hd.
    unfold or_else. now rewrite (Js_zero_falsy q Hq).
  - intros ids p ad q Hp Ha Hs Hq.
    pose proof (registered_new _ _ _ (adVideoT, "timeupdate") Hp) as R.
    destruct (new_VideoPlayer_inv _ _ _ Hp) as (w' & _ & Hc & Hb & _).
    assert (T : Config.skipAfter (Config.adVideo (config p)) = Js.of_Z 5)
      by (rewrite Hc; eapply A; eassumption).
    split; [exact T|].
    assert (R' : registered (adVideoT, "timeupdate") p = true) by (rewrite R; reflexivity).
    assert (L : Js.ge (Js.floor (currentTime (adVideo (ad_at Js.zero p))))
                  (Config.skipAfter (Config.adVideo (config p))) = false).
    { rewrite T.
      change (currentTime (adVideo (ad_at Js.zero p)))
        with (on_timeline Js.zero (duration (adVideo p))).
      rewrite on_timeline_zero. reflexivity. }
    destruct (ad_timeupdate_below p Js.zero R' L) as (B & _).
    unfold skip_inert. rewrite B, Hb. reflexivity.
Qed.

Lemma zero_is_default_witness :
  Config.skipAfter
    (Config.adVideo
       (defaults (sample_input (Some (sample_ad (Some "ad.mp4") (Some Js.zero)))) "video-wrapper"))
  = Js.of_Z 5
  /\ skip_inert
       (dispatch (AdVideo (timeupdate Js.zero))
          (mount (sample_input (Some (sample_ad (Some "ad.mp4") (Some Js.zero))))))
     = true.
Proof.
  destruct (zero_is_default (sample_input (Some (sample_ad (Some "ad.mp4") (Some Js.zero))))
              "video-wrapper") as (A & _ & B).
  split.
  - apply (A (sample_ad (Some "ad.mp4") (Some Js.zero)) 0%Q); reflexivity.
  - apply (B ["video-wrapper"] _ (sample_ad (Some "ad.mp4") (Some Js.zero)) 0%Q); reflexivity.
Defined.

(** * Further properties *)

(** ** Numbers, continued *)

Lemma min_of_gt x y : (y < x)%Q -> Js.min (Fin x) (Fin y) = Fin y.
Proof.
  intros H. unfold Js.min, Js.compare.
  destruct (Qcompare_spec x y) as [E|L|G]; try reflexivity.
  - exfalso. rewrite E in H. apply (Qlt_irrefl _ H).
  - exfalso. apply (Qlt_irrefl x). now apply Qlt_trans with y.
Qed.

Lemma max_zero_pos q : (0 < q)%Q -> Js.max Js.zero (Fin q) = Fin q.
Proof.
  intros H. unfold Js.max, Js.zero, Js.compare.
  destruct (Qcompare_spec 0 q) as [E|L|G]; try reflexivity.
  - exfalso. rewrite <- E in H. apply (Qlt_irrefl _ H).
  - exfalso. apply (Qlt_irrefl 0). now apply Qlt_trans with q.
Qed.

(** [Math.max(0, Math.min(1, v))]: 0 below zero, 1 above one, [v] in
    between. *)
Lemma unit_clamp_cases q :
  ((q < 0)%Q /\ Js.max Js.zero (Js.min (Js.of_Z 1) (Fin q)) = Js.zero)
  \/ ((0 <= q)%Q /\ (q <= 1)%Q /\ Js.max Js.zero (Js.min (Js.of_Z 1) (Fin q)) =n= Fin q)
  \/ ((1 < q)%Q /\ Js.max Js.zero (Js.min (Js.of_Z 1) (Fin q)) = Js.of_Z 1).
Proof.
  change (Js.of_Z 1) with (Fin 1).
  destruct (Qlt_le_dec q 0) as [L0|G0].
  - left. split; [exact L0|].
    rewrite min_of_gt by (apply Qlt_trans with 0; [exact L0 | reflexivity]).
    apply max_zero_nonpos. now apply Qlt_le_weak.
  - destruct (Qlt_le_dec 1 q) as [L1|G1].
    + right. right. split; [exact L1|].
      rewrite min_of_le by now apply Qlt_le_weak. apply max_zero_pos. reflexivity.
    + right. left. split; [exact G0|]. split; [exact G1|].
      eapply num_eq_trans; [apply max_zero_num_eq; apply (min_of_ge 1 q G1)|].
      now apply max_zero_nonneg.
Qed.

(** ** Volume *)

(** X1: [setVolume(v)] stores [Math.max(0, Math.min(1, v))] for every [v]
    but [NaN]: the volume ends within [0, 1], is [v] itself when [v] lies
    there, 1 when [v] is above and 0 when it is below; the slider is set
    to the stored volume times 100, and the volume and mute icons are left
    as they were, also when the volume becomes 0. *)
Theorem setVolume_in_unit_interval (s : Player) (v : number) :
  Js.is_nan v = false ->
  let s' := dispatch (Call (m_setVolume v)) s in
  Js.le Js.zero (volume (mainVideo s')) = true
  /\ Js.le (volume (mainVideo s')) (Js.of_Z 1) = true
  /\ value (volumeSlider s') = Js.mul (volume (mainVideo s')) hundred
  /\ (Js.le Js.zero v = true -> Js.le v (Js.of_Z 1) = true -> volume (mainVideo s') =n= v)
  /\ (Js.gt v (Js.of_Z 1) = true -> volume (mainVideo s') = Js.of_Z 1)
  /\ (Js.lt v Js.zero = true -> volume (mainVideo s') = Js.zero)
  /\ volumeIcon s' = volumeIcon s /\ muteIcon s' = muteIcon s.
Proof.
  intros N s'. subst s'. cbn [dispatch call]. unfold setVolume. cbv zeta.
  assert (F : Js.is_finite (Js.max Js.zero (Js.min (Js.of_Z 1) v)) = true).
  { destruct v as [| | |q]; [discriminate N | reflexivity | reflexivity |].
    change (Js.of_Z 1) with (Fin 1). unfold Js.zero. now rewrite Js_min_Fin, Js_max_Fin. }
  rewrite F.
  change (volume (mainVideo _)) with (Js.max Js.zero (Js.min (Js.of_Z 1) v)).
  destruct v as [| | |q]; try discriminate.
  - repeat split; intros; try reflexivity; discriminate.
  - repeat split; intros; try reflexivity; discriminate.
  - destruct (unit_clamp_cases q) as [(L & E)|[(G0 & G1 & E)|(L & E)]].
    + rewrite E. repeat split; try reflexivity.
      * intros H _. apply Js_le_Fin in H. exfalso. apply (Qlt_not_le _ _ L H).
      * intros H. apply Js_gt_Fin in H. exfalso. apply (Qlt_irrefl 1).
        apply Qlt_trans with q; [exact H|]. apply Qlt_trans with 0; [exact L | reflexivity].
    + destruct (Js.max Js.zero (Js.min (Js.of_Z 1) (Fin q))) as [| | |r]; try contradiction.
      change (r == q)%Q in E. repeat split.
      * apply Js_le_Fin. now rewrite E.
      * apply Js_le_Fin. change (inject_Z 1) with 1%Q. now rewrite E.
      * intros _ _. exact E.
      * intros H. apply Js_gt_Fin in H. exfalso. apply (Qlt_not_le _ _ H G1).
      * intros H. apply Js_lt_Fin in H. exfalso. apply (Qlt_not_le _ _ H G0).
    + rewrite E. repeat split; try reflexivity.
      * intros _ H. apply Js_le_Fin in H. exfalso. apply (Qlt_not_le _ _ L H).
      * intros H. apply Js_lt_Fin in H. exfalso. apply (Qlt_irrefl 1).
        apply Qlt_trans with q; [exact L|]. apply Qlt_trans with 0; [exact H | reflexivity].
Qed.

Lemma setVolume_in_unit_interval_witness :
  volume (mainVideo (dispatch (Call (m_setVolume (Fin 1.5))) sample_player)) = Js.of_Z 1
  /\ volume (mainVideo (dispatch (Call (m_setVolume (Fin (-0.2)))) sample_player)) = Js.zero.
Proof.
  split.
  - apply (setVolume_in_unit_interval sample_player (Fin 1.5) eq_refl). reflexivity.
  - apply (setVolume_in_unit_interval sample_player (Fin (-0.2)) eq_refl). reflexivity.
Defined.

Lemma keeps_volume_document_click inside : keeps volume_view (on_document_click inside).
Proof. solve_keeps. Qed.

Lemma volume_view_bubble inside s : volume_view (bubble inside s) = volume_view s.
Proof. unfold bubble. apply keeps_fire. apply keeps_volume_document_click. Qed.

Lemma keydown_ArrowUp s :
  controls_displayed s = true ->
  on_document_keydown "ArrowUp" s
  = s <| mainVideo -> volume := Js.min (Js.of_Z 1) (Js.add (volume (mainVideo s)) tenth) |>
      <| volumeSlider -> value :=
           Js.mul (Js.min (Js.of_Z 1) (Js.add (volume (mainVideo s)) tenth)) hundred |>.
Proof.
  intros D. unfold controls_displayed in D. apply negb_true_iff in D.
  unfold on_document_keydown. rewrite D. reflexivity.
Qed.

Lemma keydown_ArrowDown s :
  controls_displayed s = true ->
  on_document_keydown "ArrowDown" s
  = s <| mainVideo -> volume := Js.max Js.zero (Js.sub (volume (mainVideo s)) tenth) |>
      <| volumeSlider -> value :=
           Js.mul (Js.max Js.zero (Js.sub (volume (mainVideo s)) tenth)) hundred |>.
Proof.
  intros D. unfold controls_displayed in D. apply negb_true_iff in D.
  unfold on_document_keydown. rewrite D. reflexivity.
Qed.

Lemma volume_assignment s a b :
  let s' := s <| mainVideo -> volume := a |> <| volumeSlider -> value := b |> in
  volume (mainVideo s') = a /\ value (volumeSlider s') = b
  /\ volumeIcon s' = volumeIcon s /\ muteIcon s' = muteIcon s.
Proof. repeat split. Qed.

(** X2: with the main controls displayed and the volume within [0, 1],
    ArrowUp stores [Math.min(1, volume + 0.1)] and ArrowDown
    [Math.max(0, volume - 0.1)]: the volume stays within [0, 1], moves by a
    tenth unless that would leave the interval, and then stops at 1 or 0;
    the slider follows with the volume times 100, the icons do not change. *)
Theorem volume_keys_stay_in_unit_interval (s : Player) (x : Q) :
  registered (document, "keydown") s = true ->
  controls_displayed s = true ->
  volume (mainVideo s) = Fin x -> (0 <= x)%Q -> (x <= 1)%Q ->
  let up := dispatch (Keydown "ArrowUp") s in
  let down := dispatch (Keydown "ArrowDown") s in
  (exists r, volume (mainVideo up) = Fin r /\ (x <= r)%Q /\ (r <= 1)%Q
             /\ ((x + (1 # 10) < 1)%Q -> (r == x + (1 # 10))%Q)
             /\ ((1 <= x + (1 # 10))%Q -> (r == 1)%Q)
             /\ value (volumeSlider up) = Fin (r * 100))
  /\ (exists r, volume (mainVideo down) = Fin r /\ (0 <= r)%Q /\ (r <= x)%Q
                /\ ((0 < x - (1 # 10))%Q -> (r == x - (1 # 10))%Q)
                /\ ((x - (1 # 10) <= 0)%Q -> (r == 0)%Q)
                /\ value (volumeSlider down) = Fin (r * 100))
  /\ volumeIcon up = volumeIcon s /\ muteIcon up = muteIcon s
  /\ volumeIcon down = volumeIcon s /\ muteIcon down = muteIcon s.
Proof.
  intros R D V H0 H1 up down.
  destruct (dispatch_arrow "ArrowUp" s R D) as (Eu & _).
  destruct (dispatch_arrow "ArrowDown" s R D) as (Ed & _).
  subst up down. rewrite Eu, Ed, (keydown_ArrowUp s D), (keydown_ArrowDown s D).
  match goal with |- context [volume (mainVideo (?p <| mainVideo -> volume := ?a |> <| volumeSlider -> value := ?b |>))] =>
    destruct (volume_assignment p a b) as (-> & -> & -> & ->) end.
  match goal with |- context [volume (mainVideo (?p <| mainVideo -> volume := ?a |> <| volumeSlider -> value := ?b |>))] =>
    destruct (volume_assignment p a b) as (-> & -> & -> & ->) end.
  rewrite V.
  change (Js.add (Fin x) tenth) with (Fin (x + (1 # 10))).
  change (Js.sub (Fin x) tenth) with (Fin (x - (1 # 10))).
  change (Js.of_Z 1) with (Fin 1).
  assert (Hup : (x <= x + (1 # 10))%Q).
  { rewrite <- (Qplus_0_r x) at 1. apply Qplus_le_r. discriminate. }
  assert (Hdn : (x - (1 # 10) <= x)%Q).
  { rewrite <- (Qplus_0_r x) at 2. unfold Qminus. apply Qplus_le_r. discriminate. }
  split; [|split; [|repeat split]].
  - destruct (Qlt_le_dec (x + (1 # 10)) 1) as [L|G].
    + exists (x + (1 # 10))%Q. rewrite (min_of_gt _ _ L).
      split; [reflexivity|]. split; [exact Hup|]. split; [now apply Qlt_le_weak|].
      split; [reflexivity|]. split; [|reflexivity].
      intros G. exfalso. apply (Qlt_not_le _ _ L G).
    + exists 1%Q. rewrite (min_of_le _ _ G).
      split; [reflexivity|]. split; [exact H1|]. split; [apply Qle_refl|].
      split; [|split; reflexivity].
      intros L. exfalso. apply (Qlt_not_le _ _ L G).
  - destruct (Qlt_le_dec 0 (x - (1 # 10))) as [L|G].
    + exists (x - (1 # 10))%Q. rewrite (max_zero_pos _ L).
      split; [reflexivity|]. split; [now apply Qlt_le_weak|]. split; [exact Hdn|].
      split; [reflexivity|]. split; [|reflexivity].
      intros G. exfalso. apply (Qlt_not_le _ _ L G).
    + exists 0%Q. rewrite (max_zero_nonpos _ G).
      split; [reflexivity|]. split; [apply Qle_refl|]. split; [exact H0|].
      split; [|split; reflexivity].
      intros L. exfalso. apply (Qlt_not_le _ _ L G).
Qed.

Lemma volume_keys_stay_in_unit_interval_witness :
  exists r, volume (mainVideo (dispatch (Keydown "ArrowUp") seeking_player)) = Fin r /\ (r == 1)%Q.
Proof.
  destruct (volume_keys_stay_in_unit_interval seeking_player 1 eq_refl eq_refl eq_refl)
    as ((r & E & _ & _ & _ & H & _) & _); try discriminate.
  exists r. split; [exact E | apply H; discriminate].
Defined.

(** X3: the volume button mutes an audible player (volume 0, slider 0,
    mute icon shown) and sets a silent one to full volume (volume 1,
    slider 100, volume icon shown); the volume before muting is not kept,
    so muting and unmuting ends at 1 whatever the volume was.  The [m] key
    does what a click on the button does. *)
Theorem mute_toggle (s : Player) (e : MouseEvent) :
  registered (volumeBtn, "click") s = true ->
  let s1 := dispatch (Click volumeBtn e) s in
  let s2 := dispatch (Click volumeBtn e) s1 in
  (Js.gt (volume (mainVideo s)) Js.zero = true ->
   volume (mainVideo s1) = Js.zero /\ value (volumeSlider s1) = Js.zero
   /\ is_hidden (volumeIcon s1) = true /\ is_hidden (muteIcon s1) = false
   /\ volume (mainVideo s2) = Js.of_Z 1 /\ value (volumeSlider s2) = hundred
   /\ is_hidden (volumeIcon s2) = false /\ is_hidden (muteIcon s2) = true)
  /\ (Js.gt (volume (mainVideo s)) Js.zero = false ->
      volume (mainVideo s1) = Js.of_Z 1 /\ value (volumeSlider s1) = hundred
      /\ is_hidden (volumeIcon s1) = false /\ is_hidden (muteIcon s1) = true)
  /\ (registered (document, "keydown") s = true -> controls_displayed s = true ->
      dispatch (Keydown "m") s = dispatch (Click volumeBtn synthetic_click) s).
Proof.
  intros R s1 s2.
  assert (K : forall p, registered (volumeBtn, "click") p = true ->
                        volume_view (dispatch (Click volumeBtn e) p)
                        = volume_view (on_volumeBtn_click p)).
  { intros p Rp. cbn [dispatch click]. rewrite volume_view_bubble. unfold fire. now rewrite Rp. }
  assert (R1 : registered (volumeBtn, "click") s1 = true)
    by (subst s1; now rewrite registered_dispatch).
  pose proof (K s R) as V1. pose proof (K s1 R1) as V2. fold s1 in V1. fold s2 in V2.
  unfold volume_view in V1, V2.
  injection V1 as A1 B1 C1 D1. injection V2 as A2 B2 C2 D2.
  split; [|split].
  - intros G.
    assert (E : on_volumeBtn_click s
                = s <| mainVideo -> volume := Js.zero |> <| volumeSlider -> value := Js.zero |>
                    <| volumeIcon ::= hide |> <| muteIcon ::= show |>)
      by (unfold on_volumeBtn_click; now rewrite G).
    rewrite E in A1, B1, C1, D1.
    assert (V : volume (mainVideo s1) = Js.zero) by now rewrite A1.
    assert (G1 : Js.gt (volume (mainVideo s1)) Js.zero = false) by now rewrite V.
    assert (E1 : on_volumeBtn_click s1
                 = s1 <| mainVideo -> volume := Js.of_Z 1 |> <| volumeSlider -> value := hundred |>
                      <| volumeIcon ::= show |> <| muteIcon ::= hide |>)
      by (unfold on_volumeBtn_click; now rewrite G1).
    rewrite E1 in A2, B2, C2, D2.
    rewrite A1, B1, C1, D1, A2, B2, C2, D2. unfold is_hidden, hide, show. cbn. cls.
    repeat split.
  - intros G.
    assert (E : on_volumeBtn_click s
                = s <| mainVideo -> volume := Js.of_Z 1 |> <| volumeSlider -> value := hundred |>
                    <| volumeIcon ::= show |> <| muteIcon ::= hide |>)
      by (unfold on_volumeBtn_click; now rewrite G).
    rewrite E in A1, B1, C1, D1.
    rewrite A1, B1, C1, D1. unfold is_hidden, hide, show. cbn. cls. repeat split.
  - intros Rk D. destruct (dispatch_arrow "m" s Rk D) as (Em & _). rewrite Em.
    unfold controls_displayed in D. apply negb_true_iff in D.
    unfold on_document_keydown. rewrite D. reflexivity.
Qed.

Lemma mute_toggle_witness :
  volume (mainVideo (dispatch (Keydown "ArrowDown") seeking_player)) = Fin (1 - (1 # 10))
  /\ volume
       (mainVideo
          (dispatch (Click volumeBtn at_origin)
             (dispatch (Click volumeBtn at_origin) (dispatch (Keydown "ArrowDown") seeking_player))))
     = Js.of_Z 1.
Proof.
  split; [reflexivity|].
  apply (mute_toggle (dispatch (Keydown "ArrowDown") seeking_player) at_origin eq_refl).
  reflexivity.
Defined.

Lemma range_value_within v : (0 <= v)%Q -> (v <= 100)%Q -> range_value (Fin v) = Fin v.
Proof.
  intros H0 H1. unfold range_value. cbn [Js.is_finite].
  destruct (Js.lt (Fin v) Js.zero) eqn:L.
  { apply Js_lt_Fin in L. exfalso. apply (Qlt_not_le _ _ L H0). }
  destruct (Js.gt (Fin v) (Js.of_Z 100)) eqn:G; [|reflexivity].
  apply Js_gt_Fin in G. exfalso. apply (Qlt_not_le _ _ G H1).
Qed.

(** X4: moving the slider to [v], a value of its range from 0 to 100,
    stores [v / 100] as the volume; the mute icon is shown, and the volume
    icon hidden, exactly when [v] is 0. *)
Theorem slider_sets_volume (s : Player) (v : Q) :
  registered (volumeSliderT, "input") s = true ->
  (0 <= v)%Q -> (v <= 100)%Q ->
  let s' := dispatch (Input (Fin v)) s in
  volume (mainVideo s') = Fin (v / 100)
  /\ value (volumeSlider s') = Fin v
  /\ is_hidden (muteIcon s') = negb (Qeq_bool v 0)
  /\ is_hidden (volumeIcon s') = Qeq_bool v 0.
Proof.
  intros R H0 H1 s'. subst s'. cbn [dispatch]. unfold fire. rewrite R.
  unfold on_volumeSlider_input. rewrite (range_value_within v H0 H1). cbv zeta.
  change (value (volumeSlider (s <| volumeSlider -> value := Fin v |>))) with (Fin v).
  change (Js.div (Fin v) hundred) with (Fin (v / 100)).
  assert (Z : Js.strict_eq (Fin (v / 100)) Js.zero = Qeq_bool v 0).
  { destruct (Qeq_bool v 0) eqn:E.
    - apply strict_eq_Fin. apply Qeq_bool_iff in E. rewrite E. reflexivity.
    - destruct (Js.strict_eq (Fin (v / 100)) Js.zero) eqn:F; [|reflexivity].
      apply strict_eq_Fin in F. exfalso. apply Qeq_bool_neq in E. apply E.
      assert (H : (v == v / 100 * 100)%Q) by (field_simplify_eq; reflexivity || discriminate).
      rewrite H, F. reflexivity. }
  rewrite Z. destruct (Qeq_bool v 0); unfold is_hidden, hide, show; cbn; cls; repeat split.
Qed.

Lemma slider_sets_volume_witness :
  volume (mainVideo (dispatch (Input (Fin 40)) sample_player)) = Fin (40 / 100)
  /\ is_hidden (muteIcon (dispatch (Input (Fin 0)) sample_player)) = false.
Proof.
  destruct (slider_sets_volume sample_player 40 eq_refl) as (A & _); try discriminate.
  destruct (slider_sets_volume sample_player 0 eq_refl) as (_ & _ & B & _); try discriminate.
  split; [exact A | exact B].
Defined.

(** ** Icons and the settings menu *)

Lemma contains_cl_toggle c l : contains c (cl_toggle c l) = negb (contains c l).
Proof.
  unfold cl_toggle. destruct (contains c l) eqn:E.
  - now rewrite contains_cl_remove_same.
  - rewrite contains_app, E. unfold contains. cbn. now rewrite String.eqb_refl.
Qed.

Lemma icon_pairs_dispatch ev : preserves icon_pairs (dispatch ev).
Proof.
  intros s H.
  destruct ev as [t e|t k|v|key|a|n|n|m|i|m];
    try destruct t; try destruct k; try destruct n; try destruct m.
  all: handlers; branch; try exact H.
  all: destruct H as (H1 & H2 & H3); unfold icon_pairs, is_hidden, hide, show in *; cbn; cls;
    repeat split; assumption.
Qed.

Lemma menu_coherent_dispatch ev : preserves menu_coherent (dispatch ev).
Proof.
  intros s H.
  destruct ev as [t e|t k|v|key|a|n|n|m|i|m];
    try destruct t; try destruct k; try destruct n; try destruct m.
  all: handlers; branch; try exact H.
  all: destruct H as (H1 & H2);
    unfold menu_coherent, is_hidden, hide, show, toggle_hidden in *; cbn in *;
    rewrite ?contains_cl_toggle; cls; rewrite ?orb_true_r; cbn;
    (split; [first [assumption | reflexivity | exact (f_equal negb H1)] | assumption || reflexivity]).
Qed.

Lemma new_VideoPlayer_built ids c p :
  new_VideoPlayer ids (Some c) = inr p ->
  exists w, Input.wrapperId c = Some w /\ nonempty w = true
            /\ existsb (String.eqb w) ids = true
            /\ p = bindKeyboardEvents
                     (bindSettingsEvents
                        (bindControlEvents
                           (bindMainVideoEvents
                              (bindAdEvents
                                 (setVideoInfo
                                    (setVideoSources (createPlayerStructure (defaults c w)))))))).
Proof.
  unfold new_VideoPlayer, init. destruct (Input.wrapperId c) as [w|]; [|discriminate].
  destruct (nonempty w) eqn:N; [|discriminate].
  cbn [Config.wrapperId defaults].
  destruct (existsb (String.eqb w) ids) eqn:E; [|discriminate].
  intros H. injection H as <-. exists w. repeat split; assumption.
Qed.

Ltac new_player H :=
  destruct (new_VideoPlayer_built _ _ _ H) as (?w & _ & _ & _ & ->);
  unfold setVideoSources; cbv zeta;
  match goal with |- context [if ?b then _ else _] => destruct b end.

Lemma icon_pairs_new ids c p : new_VideoPlayer ids (Some c) = inr p -> icon_pairs p.
Proof. intros H. new_player H; repeat split. Qed.

Lemma menu_coherent_new ids c p : new_VideoPlayer ids (Some c) = inr p -> menu_coherent p.
Proof. intros H. new_player H; repeat split. Qed.

Lemma preserves_run (I : Player -> Prop) :
  (forall ev, preserves I (dispatch ev)) -> forall evs, preserves I (run evs).
Proof.
  intros P evs. induction evs as [|ev evs IH]; intros s H; [exact H|].
  cbn [run fold_left]. apply IH. now apply P.
Qed.

(** X5: on a player built by the constructor, after any sequence of
    events, exactly one icon of each pair is shown: play or pause in the
    centre button, volume or mute, enter or exit fullscreen. *)
Theorem icon_pairs_everywhere ids c p evs :
  new_VideoPlayer ids (Some c) = inr p ->
  let s := run evs p in
  is_hidden (centerPauseIcon s) = negb (is_hidden (centerPlayIcon s))
  /\ is_hidden (muteIcon s) = negb (is_hidden (volumeIcon s))
  /\ is_hidden (exitFullscreenIcon s) = negb (is_hidden (fullscreenIcon s)).
Proof.
  intros H s. apply (preserves_run icon_pairs icon_pairs_dispatch).
  now apply (icon_pairs_new ids c).
Qed.

Lemma icon_pairs_everywhere_witness :
  let s := run [Click playButton at_origin; AdVideo ended; MainVideo play_; Input (Fin 0);
                Keydown "m"; FullscreenChange true] sample_player in
  is_hidden (centerPauseIcon s) = negb (is_hidden (centerPlayIcon s))
  /\ is_hidden (muteIcon s) = negb (is_hidden (volumeIcon s))
  /\ is_hidden (exitFullscreenIcon s) = negb (is_hidden (fullscreenIcon s)).
Proof.
  apply (icon_pairs_everywhere ["video-wrapper"]
           (sample_input (Some (sample_ad (Some "ad.mp4") (Some (Js.of_Z 5)))))
           sample_player).
  reflexivity.
Defined.

(** X6: on a player built by the constructor, after any sequence of
    events, [isSettingsOpen] holds exactly when the settings menu is shown,
    and the speed and quality submenus are never shown together. *)
Theorem settings_flag_mirrors_menu ids c p evs :
  new_VideoPlayer ids (Some c) = inr p ->
  let s := run evs p in
  isSettingsOpen s = negb (is_hidden (settingsMenu s))
  /\ is_hidden (speedSubmenu s) || is_hidden (qualitySubmenu s) = true.
Proof.
  intros H s. apply (preserves_run menu_coherent menu_coherent_dispatch).
  now apply (menu_coherent_new ids c).
Qed.

Lemma settings_flag_mirrors_menu_witness :
  let s := run [Click playButton at_origin; AdVideo ended; Click settingsBtn at_origin;
                Click speedMenuBtn at_origin; Click qualityMenuBtn at_origin] sample_player in
  isSettingsOpen s = negb (is_hidden (settingsMenu s))
  /\ is_hidden (speedSubmenu s) || is_hidden (qualitySubmenu s) = true.
Proof.
  apply (settings_flag_mirrors_menu ["video-wrapper"]
           (sample_input (Some (sample_ad (Some "ad.mp4") (Some (Js.of_Z 5)))))
           sample_player).
  reflexivity.
Defined.

(** ** [formatTime] *)

Lemma Qfloor_div_sixty q : Qfloor (q / inject_Z 60) = (Qfloor q / 60)%Z.
Proof.
  destruct q as [n d]. unfold Qdiv, Qmult, Qinv, Qfloor, inject_Z. cbn [Qnum Qden].
  rewrite Z.mul_1_r, Pos2Z.inj_mul, Z.div_div by lia. reflexivity.
Qed.

Lemma Qfloor_minus_Z q k : Qfloor (q - inject_Z k) = (Qfloor q - k)%Z.
Proof.
  destruct q as [n d]. unfold Qminus, Qplus, Qopp, Qfloor, inject_Z. cbn [Qnum Qden].
  rewrite Z.mul_1_r, Pos.mul_1_r.
  replace (n + - k * Z.pos d)%Z with (n + (- k) * Z.pos d)%Z by lia.
  rewrite Z.div_add by lia. lia.
Qed.

Lemma Qtrunc_nonneg q : (0 <= q)%Q -> Js.Qtrunc (q / inject_Z 60) = Qfloor (q / inject_Z 60).
Proof.
  intros H. unfold Js.Qtrunc, Js.Qsign.
  destruct (Qcompare_spec (q / inject_Z 60) 0) as [E|L|G]; try reflexivity.
  exfalso. apply (Qlt_not_le _ _ L).
  apply Qle_shift_div_l; [reflexivity|]. now rewrite Qmult_0_l.
Qed.

Lemma Js_lt_of_Z a b : Js.lt (Js.of_Z a) (Js.of_Z b) = (a <? b)%Z.
Proof.
  unfold Js.lt, Js.of_Z, Js.compare, Qcompare, inject_Z. cbn [Qnum Qden].
  rewrite !Z.mul_1_r. unfold Z.ltb. destruct (a ?= b)%Z; reflexivity.
Qed.

(** X7: for a finite, non-negative number of seconds [formatTime] gives
    minutes, a colon and seconds, where with [total] the whole seconds
    elapsed the minutes are [total / 60] (not reduced to hours) and the
    seconds [total mod 60], written with a leading zero exactly when below
    10; so [60 * minutes + seconds = total] and [0 <= seconds < 60]. *)
Theorem formatTime_minutes_seconds (q : Q) :
  (0 <= q)%Q ->
  let total := Qfloor q in
  formatTime (Fin q)
  = [Num (Js.of_Z (total / 60)); Lit ":";
     Lit (if (total mod 60 <? 10)%Z then "0" else ""); Num (Js.of_Z (total mod 60))]
  /\ (0 <= total mod 60 < 60)%Z
  /\ (60 * (total / 60) + total mod 60 = total)%Z
  /\ (0 <= total / 60)%Z.
Proof.
  intros H total.
  assert (T : (0 <= total)%Z).
  { subst total. rewrite <- (Qfloor_Z 0). now apply Qfloor_resp_le. }
  split; [|split; [|split]].
  - unfold formatTime. cbv zeta.
    assert (M : Js.floor (Js.div (Fin q) sixty) = Js.of_Z (total / 60)).
    { change (Js.div (Fin q) sixty) with (Fin (q / inject_Z 60)).
      unfold Js.floor. now rewrite Qfloor_div_sixty. }
    assert (S : Js.floor (Js.rem (Fin q) sixty) = Js.of_Z (total mod 60)).
    { change (Js.rem (Fin q) sixty)
        with (Fin (q - inject_Z 60 * inject_Z (Js.Qtrunc (q / inject_Z 60)))).
      unfold Js.floor. rewrite (Qtrunc_nonneg q H), Qfloor_div_sixty, <- inject_Z_mult.
      rewrite Qfloor_minus_Z. fold total. f_equal. rewrite Z.mod_eq by lia. reflexivity. }
    rewrite M, S. unfold ten. rewrite Js_lt_of_Z. reflexivity.
  - apply Z.mod_pos_bound. lia.
  - symmetry. apply Z.div_mod. lia.
  - apply Z.div_pos; lia.
Qed.

Lemma formatTime_minutes_seconds_witness :
  formatTime (Fin (7265 # 2)) = [Num (Js.of_Z 60); Lit ":"; Lit ""; Num (Js.of_Z 32)].
Proof. apply (formatTime_minutes_seconds (7265 # 2)). discriminate. Defined.

(** ** Seeking on the track, and the skip button *)

Lemma div_by_positive p q : (0 < q)%Q -> Js.div (Fin p) (Fin q) = Fin (p / q).
Proof.
  intros H. unfold Js.div, Js.Qsign. apply Qgt_alt in H. now rewrite H.
Qed.

(** X8: a click on the seek track at abscissa [x], the track spanning a
    positive width [w] from [l] and [x] lying on it, with a known
    duration [d], sets the position to [(x - l) / w * d], which lies
    within [0, d]; it neither starts nor pauses playback and, unlike the
    skip buttons, arms or cancels no timer. *)
Theorem progress_click_within_track (s : Player) (e : MouseEvent) (x l w d : Q) :
  registered (progressBarContainer, "click") s = true ->
  clientX e = Fin x -> rect_left e = Fin l -> rect_width e = Fin w ->
  duration (mainVideo s) = Fin d ->
  (0 < w)%Q -> (l <= x)%Q -> (x <= l + w)%Q -> (0 <= d)%Q ->
  let s' := dispatch (Click progressBarContainer e) s in
  exists r, currentTime (mainVideo s') = Fin r
            /\ (r == (x - l) / w * d)%Q /\ (0 <= r)%Q /\ (r <= d)%Q
            /\ paused (mainVideo s') = paused (mainVideo s)
            /\ timers s' = timers s.
Proof.
  intros R X L W D Hw Hl Hr Hd s'.
  assert (V : volume_view s'
              = volume_view (on_progressBar_click (clientX e) (rect_left e) (rect_width e) s)).
  { subst s'. cbn [dispatch click]. rewrite volume_view_bubble. unfold fire. now rewrite R. }
  assert (T : timers s' = timers s).
  { subst s'. cbn [dispatch click]. unfold bubble.
    rewrite (keeps_fire timers) by solve_keeps.
    rewrite (keeps_fire timers) by solve_keeps. reflexivity. }
  unfold volume_view in V. injection V as V _ _ _.
  assert (P0 : (0 <= (x - l) / w)%Q).
  { apply Qle_shift_div_l; [exact Hw|]. lra. }
  assert (P1 : ((x - l) / w <= 1)%Q).
  { apply Qle_shift_div_r; [exact Hw|]. lra. }
  assert (M0 : (0 <= (x - l) / w * d)%Q) by now apply Qmult_le_0_compat.
  assert (M1 : ((x - l) / w * d <= d)%Q).
  { rewrite <- (Qmult_1_l d) at 2. apply Qmult_le_compat_r; assumption. }
  exists (Qmax 0 (Qmin ((x - l) / w * d) d)). rewrite V, X, L, W.
  unfold on_progressBar_click. cbv zeta.
  change (Js.sub (Fin x) (Fin l)) with (Fin (x - l)).
  rewrite (div_by_positive _ _ Hw), D.
  change (Js.mul (Fin ((x - l) / w)) (Fin d)) with (Fin ((x - l) / w * d)).
  rewrite set_currentTime_finite, D.
  assert (E : (Qmax 0 (Qmin ((x - l) / w * d) d) == (x - l) / w * d)%Q).
  { rewrite Q.min_l by exact M1. apply Q.max_r. exact M0. }
  split; [unfold on_timeline, Js.zero; now rewrite Js_min_Fin, Js_max_Fin|].
  split; [exact E|]. split; [now rewrite E|]. split; [now rewrite E|].
  split; [reflexivity | exact T].
Qed.

Lemma progress_click_within_track_witness :
  exists r, currentTime
              (mainVideo
                 (dispatch (Click progressBarContainer
                              {| clientX := Fin 150; rect_left := Fin 100; rect_width := Fin 200 |})
                    seeking_player)) = Fin r
            /\ (r == 15)%Q.
Proof.
  destruct (progress_click_within_track seeking_player
              {| clientX := Fin 150; rect_left := Fin 100; rect_width := Fin 200 |}
              150 100 200 60 eq_refl eq_refl eq_refl eq_refl eq_refl)
    as (r & E & Q & _); try reflexivity; try discriminate.
  exists r. split; [exact E | rewrite Q; reflexivity].
Defined.

(** X9: eligibility for skipping is latched.  Once the skip button is
    enabled no event but a [play] notification of the ad disables it: the
    position-update handler enables the button at the threshold and, below
    the threshold, only rewrites the countdown, so a later update at an
    earlier position leaves the button enabled. *)
Theorem skip_stays_enabled (s : Player) (evs : list Event) :
  skip_active s = true ->
  Forall (fun ev => ev <> AdVideo play_) evs ->
  skip_active (run evs s) = true.
Proof. intros A F. now apply skip_active_run. Qed.

Lemma skip_stays_enabled_witness :
  skip_active
    (run [AdVideo (timeupdate (Fin 2)); EnginePaused false; AdVideo (timeupdate (Fin 0))]
       (run [Click playButton at_origin; AdVideo play_; AdVideo (timeupdate (Fin 5))] sample_player))
  = true.
Proof.
  apply skip_stays_enabled; [reflexivity|].
  repeat constructor; discriminate.
Defined.

(** ** What never changes, and what changes once *)

(** Only [skipToMainVideo] touches the ad overlay, the main video element
    and the main controls. *)
Lemma overlay_frame ev s :
  overlay_view (dispatch ev s) = overlay_view s
  \/ overlay_view (dispatch ev s) = overlay_view (skipToMainVideo s).
Proof.
  destruct ev as [t e|t k|v|key|a|n|n|m|i|m];
    try destruct t; try destruct k; try destruct n; try destruct m.
  all: try (left; peel overlay_view; fail).
  all: try (left; peel overlay_view; handlers; branch; reflexivity).
  all: unfold dispatch, click, ad_event, bubble;
    rewrite ?(keeps_fire overlay_view _ (on_document_click false)) by solve_keeps;
    unfold fire; destruct (registered _ s); [right | left]; reflexivity.
Qed.

(** X10: from any state and for any sequence of events, the ad overlay
    (with the skip button in it) is not shown again once hidden, and the
    main video and its controls are not hidden again once shown. *)
Theorem main_stage_elements_one_way (s : Player) (evs : list Event) :
  (is_hidden (adOverlay s) = true -> is_hidden (adOverlay (run evs s)) = true)
  /\ (is_hidden (node (mainVideo s)) = false -> is_hidden (node (mainVideo (run evs s))) = false)
  /\ (is_hidden (mainVideoControls s) = false -> is_hidden (mainVideoControls (run evs s)) = false).
Proof.
  revert s. induction evs as [|ev evs IH]; intros s; [repeat split; trivial|].
  cbn [run fold_left]. destruct (IH (dispatch ev s)) as (A & B & C).
  assert (K : (is_hidden (adOverlay s) = true -> is_hidden (adOverlay (dispatch ev s)) = true)
              /\ (is_hidden (node (mainVideo s)) = false
                  -> is_hidden (node (mainVideo (dispatch ev s))) = false)
              /\ (is_hidden (mainVideoControls s) = false
                  -> is_hidden (mainVideoControls (dispatch ev s)) = false)).
  { destruct (overlay_frame ev s) as [E|E]; unfold overlay_view in E;
      injection E as -> -> ->; [repeat split; trivial|].
    unfold skipToMainVideo, is_hidden, hide, show. cbn. cls. repeat split; trivial. }
  destruct K as (A' & B' & C'). repeat split; auto.
Qed.

Lemma main_stage_elements_one_way_witness :
  is_hidden
    (mainVideoControls
       (run [Keydown "f"; Mouse videoContainer mouseleave; Call m_destroy] seeking_player))
  = false.
Proof.
  apply (main_stage_elements_one_way seeking_player
           [Keydown "f"; Mouse videoContainer mouseleave; Call m_destroy]).
  reflexivity.
Defined.

(** X11: no handler and no public method adds or removes a listener or
    changes the configuration: after any sequence of events the listeners
    and the configuration are those the player started with. *)
Theorem listeners_and_config_fixed (s : Player) (evs : list Event) :
  listeners (run evs s) = listeners s
  /\ config (run evs s) = config s
  /\ (forall l, registered l (run evs s) = registered l s).
Proof.
  assert (B : bindings (run evs s) = bindings s).
  { revert s. induction evs as [|ev evs IH]; intros s; [reflexivity|].
    cbn [run fold_left]. rewrite IH. apply bindings_dispatch. }
  unfold bindings in B. injection B as L C. repeat split; try assumption.
  intros l. unfold registered. now rewrite L.
Qed.

Lemma keydown_while_hidden key s :
  is_hidden (mainVideoControls s) = true -> dispatch (Keydown key) s = s.
Proof.
  intros H. cbn [dispatch]. unfold fire, on_document_keydown. rewrite H.
  destruct (registered _ s); reflexivity.
Qed.

(** X12: a player just built waits in the thumbnail stage: the play
    overlay is shown, the main controls are hidden, the three videos are
    paused, no timer is pending, the menu is closed; the thumbnail and the
    main video have their source and are loaded, the ad is loaded exactly
    when an ad URL is configured; and the key handler of the player does
    nothing, whatever keys are pressed: the listener on [document] returns
    at once while the main controls are hidden.  (A key that activates a
    focused button reaches the player as a click, not through this
    listener.) *)
Theorem new_player_waits ids c p keys :
  new_VideoPlayer ids (Some c) = inr p ->
  stage p = Thumbnail
  /\ is_hidden (playOverlay p) = false
  /\ is_hidden (mainVideoControls p) = true
  /\ paused (thumbnailVideo p) = true /\ paused (adVideo p) = true /\ paused (mainVideo p) = true
  /\ loaded (thumbnailVideo p) = true /\ loaded (mainVideo p) = true
  /\ loaded (adVideo p) = nonempty (Config.ad_url (Config.adVideo (config p)))
  /\ source_src (mainVideo p) = Config.url (Config.mainVideo (config p))
  /\ source_src (thumbnailVideo p) = Config.thumbnailUrl (config p)
  /\ timers p = [] /\ hideControlsTimeout p = None
  /\ isSettingsOpen p = false /\ isUserInteracting p = false
  /\ run (map Keydown keys) p = p.
Proof.
  intros H.
  assert (K : is_hidden (mainVideoControls p) = true
              -> run (map Keydown keys) p = p).
  { intros D. induction keys as [|k keys IH]; [reflexivity|].
    cbn [map run fold_left]. rewrite (keydown_while_hidden k p D). exact IH. }
  assert (D : is_hidden (mainVideoControls p) = true) by (new_player H; reflexivity).
  specialize (K D). clear D. revert K. generalize (run (map Keydown keys) p). intros r.
  destruct (new_VideoPlayer_built _ _ _ H) as (w & _ & _ & _ & ->).
  unfold setVideoSources. cbv zeta.
  match goal with |- context [if ?b then _ else _] => destruct b eqn:E end.
  all: intros K; repeat split; first [exact K | symmetry; exact E].
Qed.

Lemma new_player_waits_witness :
  stage sample_player = Thumbnail
  /\ loaded (adVideo no_ad_player) = false
  /\ run (map Keydown [" "; "ArrowRight"; "m"; "f"]) sample_player = sample_player.
Proof.
  split; [|split].
  - apply (new_player_waits ["video-wrapper"]
             (sample_input (Some (sample_ad (Some "ad.mp4") (Some (Js.of_Z 5)))))
             sample_player [] eq_refl).
  - pose proof (new_player_waits ["video-wrapper"] (sample_input None) no_ad_player [] eq_refl)
      as (_ & _ & _ & _ & _ & _ & _ & _ & L & _).
    exact L.
  - apply (new_player_waits ["video-wrapper"]
             (sample_input (Some (sample_ad (Some "ad.mp4") (Some (Js.of_Z 5)))))
             sample_player [" "; "ArrowRight"; "m"; "f"] eq_refl).
Defined.

(** ** Construction, continued *)

Lemma existsb_eqb_In w ids : existsb (String.eqb w) ids = true <-> In w ids.
Proof.
  rewrite existsb_exists. split.
  - intros (x & I & E). apply String.eqb_eq in E. now subst.
  - intros I. exists w. split; [exact I | apply String.eqb_refl].
Qed.

Lemma nonempty_iff w : nonempty w = true <-> w <> "".
Proof. destruct w; cbn; split; congruence. Qed.

(** X13: the constructor succeeds exactly when a configuration is given
    whose [wrapperId] is a non-empty string naming an element of the page;
    it fails with "requires a wrapperId" exactly when the configuration or
    the id is missing or the id is empty, and with "wrapper not found"
    exactly when the id is non-empty and names no element.  A player that
    is built holds the defaulted configuration, has no timer pending and
    has 54 listeners attached. *)
Theorem construction_succeeds_iff (ids : list string) (config_ : option Input.t) :
  ((exists p, new_VideoPlayer ids config_ = inr p)
   <-> exists c w, config_ = Some c /\ Input.wrapperId c = Some w /\ w <> "" /\ In w ids)
  /\ (new_VideoPlayer ids config_ = inl requires_wrapperId
      <-> config_ = None
          \/ exists c, config_ = Some c
                       /\ (Input.wrapperId c = None \/ Input.wrapperId c = Some ""))
  /\ (forall w, new_VideoPlayer ids config_ = inl (wrapper_not_found w)
                <-> exists c, config_ = Some c /\ Input.wrapperId c = Some w
                              /\ w <> "" /\ ~ In w ids)
  /\ (forall c w p, config_ = Some c -> Input.wrapperId c = Some w ->
                    new_VideoPlayer ids config_ = inr p ->
                    config p = defaults c w /\ timers p = [] /\ length (listeners p) = 54%nat).
Proof.
  split; [|split; [|split]].
  - split.
    + intros (p & H). destruct config_ as [c|]; [|discriminate].
      destruct (new_VideoPlayer_built _ _ _ H) as (w & W & N & E & _).
      exists c, w. repeat split; try assumption.
      * now apply nonempty_iff.
      * now apply existsb_eqb_In.
    + intros (c & w & -> & W & N & I). unfold new_VideoPlayer, init. rewrite W.
      apply nonempty_iff in N. rewrite N. cbn [Config.wrapperId defaults].
      apply existsb_eqb_In in I. rewrite I. eexists. reflexivity.
  - unfold new_VideoPlayer, init. split.
    + destruct config_ as [c|]; [|now left]. intros H. right. exists c. split; [reflexivity|].
      revert H. destruct (Input.wrapperId c) as [w|]; [|now left]. intros H. right.
      destruct w; [reflexivity|]. cbn [nonempty Config.wrapperId defaults] in H.
      destruct (existsb _ ids); discriminate.
    + intros [->|(c & -> & [W|W])]; [reflexivity| |]; rewrite W; reflexivity.
  - intros w. unfold new_VideoPlayer, init. split.
    + destruct config_ as [c|]; [|discriminate].
      destruct (Input.wrapperId c) as [w'|] eqn:W; [|discriminate].
      destruct (nonempty w') eqn:N; [|discriminate]. cbn [Config.wrapperId defaults].
      destruct (existsb (String.eqb w') ids) eqn:E; [discriminate|].
      intros H. injection H as ->. exists c. split; [reflexivity|]. split; [exact W|]. split.
      * now apply nonempty_iff.
      * intros I. apply existsb_eqb_In in I. congruence.
    + intros (c & -> & W & N & I). rewrite W. apply nonempty_iff in N. rewrite N.
      cbn [Config.wrapperId defaults].
      destruct (existsb (String.eqb w) ids) eqn:E; [|reflexivity].
      exfalso. apply I. now apply existsb_eqb_In.
  - intros c w p -> W H.
    destruct (new_VideoPlayer_built _ _ _ H) as (w' & W' & _ & _ & ->).
    assert (w' = w) as -> by congruence.
    unfold setVideoSources. cbv zeta.
    match goal with |- context [if ?b then _ else _] => destruct b end; repeat split.
Qed.

Lemma construction_succeeds_iff_witness :
  exists p, new_VideoPlayer ["sidebar"; "video-wrapper"] (Some (sample_input None)) = inr p.
Proof.
  apply (construction_succeeds_iff ["sidebar"; "video-wrapper"] (Some (sample_input None))).
  exists (sample_input None), "video-wrapper".
  split; [reflexivity|]. split; [reflexivity|]. split; [discriminate|]. right. left. reflexivity.
Defined.

Lemma or_else_truthy {A : Type} (f : A -> bool) (v : option A) (d : A) :
  f d = true -> f (or_else f v d) = true.
Proof. intros H. unfold or_else. destruct v as [x|]; [|exact H]. destruct (f x) eqn:E; assumption. Qed.

Lemma or_else_kept {A : Type} (f : A -> bool) (x d : A) : f x = true -> or_else f (Some x) d = x.
Proof. intros H. unfold or_else. now rewrite H. Qed.

(** X14: whatever the configuration handed in, no option that is
    defaulted with [||] is stored falsy: the four numbers are neither 0
    nor [NaN], and title, description, the two media types and the info
    text are non-empty; the thumbnail has a source whenever the main video
    has one; and a truthy number handed in is stored unchanged. *)
Theorem defaults_never_falsy (c : Input.t) (w : string) :
  let cfg := defaults c w in
  Js.truthy (Config.skipAfter (Config.adVideo cfg)) = true
  /\ Js.truthy (Config.skipBackwardSeconds cfg) = true
  /\ Js.truthy (Config.skipForwardSeconds cfg) = true
  /\ Js.truthy (Config.autoHideControlsDelay cfg) = true
  /\ nonempty (Config.title (Config.mainVideo cfg)) = true
  /\ nonempty (Config.description (Config.mainVideo cfg)) = true
  /\ nonempty (Config.type (Config.mainVideo cfg)) = true
  /\ nonempty (Config.ad_type (Config.adVideo cfg)) = true
  /\ nonempty (Config.infoText cfg) = true
  /\ (Config.thumbnailUrl cfg = "" -> Config.url (Config.mainVideo cfg) = "")
  /\ (forall x, Input.skipBackwardSeconds c = Some x -> Js.truthy x = true ->
                Config.skipBackwardSeconds cfg = x)
  /\ (forall x, Input.skipForwardSeconds c = Some x -> Js.truthy x = true ->
                Config.skipForwardSeconds cfg = x)
  /\ (forall x, Input.autoHideControlsDelay c = Some x -> Js.truthy x = true ->
                Config.autoHideControlsDelay cfg = x).
Proof.
  intros cfg. subst cfg. cbn [defaults Config.skipAfter Config.adVideo Config.skipBackwardSeconds
    Config.skipForwardSeconds Config.autoHideControlsDelay Config.title Config.mainVideo
    Config.description Config.type Config.ad_type Config.infoText Config.thumbnailUrl Config.url].
  repeat match goal with |- _ /\ _ => split end.
  1-9: apply or_else_truthy; reflexivity.
  - unfold or_else at 1. destruct (Input.thumbnailUrl c) as [u|]; [destruct u; cbn|]; trivial.
    discriminate.
  - intros x -> T. now apply or_else_kept.
  - intros x -> T. now apply or_else_kept.
  - intros x -> T. now apply or_else_kept.
Qed.

Lemma defaults_never_falsy_witness :
  Config.skipForwardSeconds
    (defaults
       {| Input.wrapperId := Some "w"; Input.mainVideo := None; Input.adVideo := None;
          Input.thumbnailUrl := None; Input.skipBackwardSeconds := Some NaN;
          Input.skipForwardSeconds := Some (Fin 30); Input.autoHideControlsDelay := None;
          Input.section := None; Input.infoText := Some "" |} "w")
  = Fin 30.
Proof.
  destruct (defaults_never_falsy
              {| Input.wrapperId := Some "w"; Input.mainVideo := None; Input.adVideo := None;
                 Input.thumbnailUrl := None; Input.skipBackwardSeconds := Some NaN;
                 Input.skipForwardSeconds := Some (Fin 30); Input.autoHideControlsDelay := None;
                 Input.section := None; Input.infoText := Some "" |} "w")
    as (_ & _ & _ & _ & _ & _ & _ & _ & _ & _ & _ & H & _).
  exact (H (Fin 30) eq_refl eq_refl).
Defined.

Lemma or_zero_spec x :
  Js.is_nan (or_zero x) = false
  /\ (Js.is_nan x = false -> or_zero x =n= x)
  /\ (Js.is_nan x = true -> or_zero x = Js.zero).
Proof.
  unfold or_zero. destruct x as [| | |q].
  1-3: cbn; repeat split; try discriminate; trivial.
  unfold Js.truthy. destruct (Qeq_bool q 0) eqn:E; cbn.
  - split; [reflexivity|]. split; [|discriminate].
    intros _. apply Qeq_bool_iff in E. now symmetry.
  - split; [reflexivity|]. split; [|discriminate]. intros _. reflexivity.
Qed.

(** X15: [getCurrentTime] and [getDuration] never return [NaN], since a
    falsy attribute is replaced by 0, and return a truthy attribute as it
    is.  After [seekTo(x)] with a finite [x], [getCurrentTime] returns the
    position the seek has ended at; a [seekTo] that throws leaves what it
    returns unchanged.  Once the metadata has announced a duration [d],
    [getDuration] returns [d], or 0 when [d] is [NaN]. *)
Theorem getters_never_nan (s : Player) (x d : number) :
  Js.is_nan (getCurrentTime s) = false
  /\ Js.is_nan (getDuration s) = false
  /\ (Js.truthy (currentTime (mainVideo s)) = true ->
      getCurrentTime s = currentTime (mainVideo s))
  /\ (Js.truthy (duration (mainVideo s)) = true -> getDuration s = duration (mainVideo s))
  /\ (Js.is_finite x = true ->
      getCurrentTime (dispatch (Call (m_seekTo x)) s)
      =n= on_timeline x (duration (mainVideo s)))
  /\ (Js.is_finite x = false ->
      getCurrentTime (dispatch (Call (m_seekTo x)) s) = getCurrentTime s)
  /\ (Js.is_nan d = false -> getDuration (dispatch (MainVideo (loadedmetadata d)) s) =n= d)
  /\ (Js.is_nan d = true -> getDuration (dispatch (MainVideo (loadedmetadata d)) s) = Js.zero).
Proof.
  split; [apply or_zero_spec|]. split; [apply or_zero_spec|].
  split; [unfold getCurrentTime, or_zero; now intros ->|].
  split; [unfold getDuration, or_zero; now intros ->|].
  assert (D : duration (mainVideo (dispatch (MainVideo (loadedmetadata d)) s)) = d).
  { cbn [dispatch main_event]. unfold fire.
    match goal with |- context [if ?b then _ else _] => destruct b end; reflexivity. }
  split; [|split; [|split]].
  - intros F. cbn [dispatch call]. unfold seekTo, set_currentTime. rewrite F.
    apply or_zero_spec.
    change (currentTime (mainVideo _)) with (on_timeline x (duration (mainVideo s))).
    destruct (on_timeline_in_range x (duration (mainVideo s)) F) as (q & -> & _). reflexivity.
  - intros F. cbn [dispatch call]. unfold seekTo, set_currentTime. rewrite F. reflexivity.
  - intros N. unfold getDuration. rewrite D. now apply or_zero_spec.
  - intros N. unfold getDuration. rewrite D. now apply or_zero_spec.
Qed.

Lemma getters_never_nan_witness :
  getDuration sample_player = Js.zero
  /\ getCurrentTime (dispatch (Call (m_seekTo (Fin 100))) seeking_player) =n= Fin 60
  /\ getCurrentTime (dispatch (Call (m_seekTo PosInf)) seeking_player)
     = getCurrentTime seeking_player.
Proof.
  destruct (getters_never_nan seeking_player (Fin 100) NaN) as (_ & _ & _ & _ & A & _).
  destruct (getters_never_nan seeking_player PosInf NaN) as (_ & _ & _ & _ & _ & B & _).
  split; [reflexivity|]. split; [exact (A eq_refl) | exact (B eq_refl)].
Defined.

(** ** Play, pause and the hide timer *)

Lemma togglePlayPause_twice s : togglePlayPause (togglePlayPause s) = s.
Proof.
  destruct s as [? ? ? ? ? ? ? ? ? ? ? ? ? ? [? ? ? ? p ? ? ? ?] ? ? ? ? ? ? ? ? ? ? ? ? ? ? ? ? ? ? ? ? ? ? ? ? ? ? ? ? ? ? ?].
  destruct p; reflexivity.
Qed.

(** X16: the centre button flips the paused state of the main video and
    nothing else, so that two clicks give the state back; the play and
    pause icons and the timer are untouched by the click itself (they
    follow the [play] and [pause] notifications).  With the main controls
    displayed, the space bar and [k] do what the button does. *)
Theorem play_pause_toggle (s : Player) (e : MouseEvent) :
  registered (centerPlayButtonT, "click") s = true ->
  let s1 := dispatch (Click centerPlayButtonT e) s in
  paused (mainVideo s1) = negb (paused (mainVideo s))
  /\ dispatch (Click centerPlayButtonT e) s1 = s
  /\ centerPlayIcon s1 = centerPlayIcon s /\ centerPauseIcon s1 = centerPauseIcon s
  /\ timers s1 = timers s
  /\ (registered (document, "keydown") s = true -> controls_displayed s = true ->
      dispatch (Keydown " ") s = s1 /\ dispatch (Keydown "k") s = s1).
Proof.
  intros R s1.
  assert (E : s1 = togglePlayPause s).
  { subst s1. cbn [dispatch click]. unfold fire. now rewrite R. }
  assert (R1 : registered (centerPlayButtonT, "click") (togglePlayPause s) = true).
  { rewrite <- E. subst s1. now rewrite registered_dispatch. }
  rewrite E. split; [|split; [|split; [|split; [|split]]]].
  - unfold togglePlayPause. destruct (paused (mainVideo s)) eqn:P; reflexivity.
  - cbn [dispatch click]. unfold fire. rewrite R1. apply togglePlayPause_twice.
  - unfold togglePlayPause. destruct (paused (mainVideo s)); reflexivity.
  - unfold togglePlayPause. destruct (paused (mainVideo s)); reflexivity.
  - unfold togglePlayPause. destruct (paused (mainVideo s)); reflexivity.
  - intros Rk D.
    destruct (dispatch_arrow " " s Rk D) as (E1 & _).
    destruct (dispatch_arrow "k" s Rk D) as (E2 & _).
    rewrite E1, E2. unfold controls_displayed in D. apply negb_true_iff in D.
    unfold on_document_keydown. rewrite D. split; reflexivity.
Qed.

Lemma play_pause_toggle_witness :
  dispatch (Click centerPlayButtonT at_origin)
    (dispatch (Click centerPlayButtonT at_origin) seeking_player) = seeking_player.
Proof. apply (play_pause_toggle seeking_player at_origin eq_refl). Defined.

(** X17: while the main video plays, the pointer is off the controls and
    the settings menu is closed, [showControls] sets the opacity of the six
    controls to 1 and leaves exactly one timer pending, a new one with the
    configured delay, whose handle the player holds; when that timer
    expires the six controls are at opacity 0 and no timer is pending, and
    a second expiry of the same timer changes nothing. *)
Theorem controls_fade_after_delay (s : Player) :
  timer_discipline s ->
  paused (mainVideo s) = false -> isUserInteracting s = false -> isSettingsOpen s = false ->
  let armed := showControls s in
  let faded := dispatch (Expire (nextTimer s)) armed in
  timers armed = [(nextTimer s, Config.autoHideControlsDelay (config s))]
  /\ hideControlsTimeout armed = Some (nextTimer s)
  /\ nextTimer armed = S (nextTimer s)
  /\ map style_opacity
       [bottomControls armed; centerPlayButton armed; skipBackwardBtn armed;
        skipForwardBtn armed; videoInfo armed; settingsContainer armed]
     = ["1"; "1"; "1"; "1"; "1"; "1"]
  /\ timers faded = []
  /\ map style_opacity
       [bottomControls faded; centerPlayButton faded; skipBackwardBtn faded;
        skipForwardBtn faded; videoInfo faded; settingsContainer faded]
     = ["0"; "0"; "0"; "0"; "0"; "0"]
  /\ dispatch (Expire (nextTimer s)) faded = faded.
Proof.
  intros I P U O. by_timer_cases I.
  all: try match goal with h : option nat |- _ => destruct h end.
  all: do 4 (cbv -[Nat.eqb]; rewrite ?Nat.eqb_refl).
  all: repeat split.
Qed.

Lemma controls_fade_after_delay_witness :
  timers (showControls (run [Click playButton at_origin; AdVideo ended] sample_player))
  = [(1%nat, Js.of_Z 3000)].
Proof.
  apply (controls_fade_after_delay (run [Click playButton at_origin; AdVideo ended] sample_player));
    [split; [left; reflexivity | discriminate] | reflexivity ..].
Defined.

(** ** Speed and quality *)

Lemma select_option_eq i l :
  select_option i l
  = match nth_error (map unmark l) i with
    | Some o => firstn i (map unmark l) ++ mark o :: skipn (S i) (map unmark l)
    | None => map unmark l
    end.
Proof. reflexivity. Qed.

Lemma filter_firstn_unmarked n l : filter highlighted (firstn n (map unmark l)) = [].
Proof.
  revert n. induction l as [|o l IH]; intros [|n]; try reflexivity.
  cbn [map firstn filter]. unfold highlighted at 1, unmark at 1. cbn [option_classList].
  unfold constant. cbn. rewrite contains_cl_remove_same. apply IH.
Qed.

Lemma filter_skipn_unmarked n l : filter highlighted (skipn n (map unmark l)) = [].
Proof.
  revert n. induction l as [|o l IH]; intros [|n]; try reflexivity.
  - cbn [skipn]. rewrite <- (firstn_all (map unmark (o :: l))). apply filter_firstn_unmarked.
  - cbn [map skipn]. apply IH.
Qed.

Lemma select_option_highlight i l o :
  nth_error l i = Some o ->
  filter highlighted (select_option i l) = [mark (unmark o)]
  /\ map data (select_option i l) = map data l.
Proof.
  intros H. rewrite select_option_eq.
  rewrite (map_nth_error unmark _ _ H). split.
  - rewrite filter_app, filter_firstn_unmarked. cbn [app filter].
    rewrite filter_skipn_unmarked.
    unfold highlighted, mark. cbn. unfold constant. cbn. now rewrite contains_cl_add_same.
  - rewrite map_app. cbn [map].
    rewrite <- (firstn_skipn i l) at 3. rewrite map_app. f_equal.
    + rewrite <- !firstn_map, map_map. reflexivity.
    + assert (E : skipn i l = o :: skipn (S i) l).
      { clear -H. revert i H. induction l as [|x l IH]; intros [|i] H; try discriminate.
        - now injection H as ->.
        - cbn [skipn]. apply IH. exact H. }
      rewrite E. cbn [map]. f_equal. rewrite <- !skipn_map, map_map. reflexivity.
Qed.

Lemma menu_agrees_speedOption i : preserves menu_agrees (on_speedOption_click i).
Proof.
  intros s (A & B & C & D & E). unfold on_speedOption_click.
  destruct (nth_error (speedOptions s) i) as [o|] eqn:N; [|repeat split; assumption].
  destruct (select_option_highlight i _ _ N) as (F & G).
  unfold menu_agrees.
  change (speedOptions (_ <| isSettingsOpen := false |>)) with (select_option i (speedOptions s)).
  split; [|split; [|split; [|split]]].
  - rewrite F. reflexivity.
  - reflexivity.
  - exact C.
  - rewrite G. exact D.
  - exact E.
Qed.

Lemma menu_agrees_qualityOption i : preserves menu_agrees (on_qualityOption_click i).
Proof.
  intros s (A & B & C & D & E). unfold on_qualityOption_click.
  destruct (nth_error (qualityOptions s) i) as [o|] eqn:N; [|repeat split; assumption].
  destruct (select_option_highlight i _ _ N) as (F & G).
  unfold menu_agrees.
  change (qualityOptions (_ <| isSettingsOpen := false |>)) with (select_option i (qualityOptions s)).
  split; [|split; [|split; [|split]]].
  - exact A.
  - exact B.
  - rewrite F. reflexivity.
  - exact D.
  - rewrite G. exact E.
Qed.

Lemma menu_agrees_view a b : menu_view a = menu_view b -> menu_agrees b -> menu_agrees a.
Proof.
  unfold menu_view. intros H. injection H as H1 H2 H3 H4 H5.
  unfold menu_agrees. now rewrite H1, H2, H3, H4, H5.
Qed.

Lemma keeps_menu_view_preserves h : keeps menu_view h -> preserves menu_agrees h.
Proof. intros K s H. apply (menu_agrees_view _ s); [apply K | exact H]. Qed.

Lemma menu_agrees_dispatch ev : preserves menu_agrees (dispatch ev).
Proof.
  destruct ev as [t e|t k|v|key|a|n|n|m|i|m];
    try destruct t; try destruct k; try destruct n; try destruct m.
  all: try (apply keeps_menu_view_preserves; intros s; peel menu_view; handlers; branch; reflexivity).
  - intros s H. cbn [dispatch click]. apply preserves_fire; [apply menu_agrees_speedOption | exact H].
  - intros s H. cbn [dispatch click]. apply preserves_fire; [apply menu_agrees_qualityOption | exact H].
Qed.

Lemma menu_agrees_new ids c p : new_VideoPlayer ids (Some c) = inr p -> menu_agrees p.
Proof. intros H. new_player H; repeat split. Qed.

(** X18: on a player built by the constructor, after any sequence of
    events, exactly one speed option is highlighted and it is the playback
    rate of the main video; the label beside "Speed" reads "1x" for rate
    1 and the rate followed by "x" otherwise; exactly one quality option is
    highlighted and the label beside "Quality" is its name capitalised;
    and the playback rate is one of the six speeds on offer. *)
Theorem settings_labels_agree ids c p evs :
  new_VideoPlayer ids (Some c) = inr p ->
  let s := run evs p in
  map (fun o => parseFloat (data o)) (filter highlighted (speedOptions s))
  = [playbackRate (mainVideo s)]
  /\ textContent (currentSpeed s)
     = (if Js.strict_eq (playbackRate (mainVideo s)) (Js.of_Z 1)
        then lit "1x" else [Num (playbackRate (mainVideo s)); Lit "x"])
  /\ map (fun o => lit (capitalize (data o))) (filter highlighted (qualityOptions s))
     = [textContent (currentQuality s)]
  /\ In (playbackRate (mainVideo s)) [Fin 0.5; Fin 0.75; Fin 1; Fin 1.25; Fin 1.5; Fin 2].
Proof.
  intros H s.
  assert (M : menu_agrees s).
  { apply (preserves_run menu_agrees menu_agrees_dispatch). now apply (menu_agrees_new ids c). }
  destruct M as (A & B & C & D & _). split; [exact A|]. split; [exact B|]. split; [exact C|].
  destruct (filter highlighted (speedOptions s)) as [|o [|o' rest]] eqn:F; try discriminate A.
  cbn [map] in A. injection A as A.
  assert (I : In o (speedOptions s)).
  { apply (proj1 (filter_In highlighted o (speedOptions s))). rewrite F. now left. }
  apply (in_map data) in I. rewrite D in I.
  apply (in_map parseFloat) in I. rewrite A in I. exact I.
Qed.

Lemma settings_labels_agree_witness :
  let s := run [Click playButton at_origin; AdVideo ended; Click settingsBtn at_origin;
                Click speedMenuBtn at_origin; Click (speedOption 4) at_origin] sample_player in
  map (fun o => parseFloat (data o)) (filter highlighted (speedOptions s))
  = [playbackRate (mainVideo s)]
  /\ textContent (currentSpeed s)
     = (if Js.strict_eq (playbackRate (mainVideo s)) (Js.of_Z 1)
        then lit "1x" else [Num (playbackRate (mainVideo s)); Lit "x"])
  /\ map (fun o => lit (capitalize (data o))) (filter highlighted (qualityOptions s))
     = [textContent (currentQuality s)]
  /\ In (playbackRate (mainVideo s)) [Fin 0.5; Fin 0.75; Fin 1; Fin 1.25; Fin 1.5; Fin 2].
Proof.
  apply (settings_labels_agree ["video-wrapper"]
           (sample_input (Some (sample_ad (Some "ad.mp4") (Some (Js.of_Z 5)))))
           sample_player). reflexivity.
Defined.
